(** * Conversation state and context budget of [bot/openai_helper.py]

    A shallow embedding of the conversation engine of the Telegram bot:
    the model tables, the token accountant ([__count_tokens],
    [__count_tokens_vision]), the history store ([reset_chat_history],
    [__add_to_history]), the context budgeter and the two request
    builders of [__common_get_chat_response], the tool-call resolver
    ([__handle_function_call] and the Responses loop) and
    [get_chat_response].

    Python values are modelled as the code has them: [int] as [Z], [str]
    as [string], [float] as IEEE binary64 ([spec_float] with precision 53
    and maximal exponent 1024), the three dictionaries of the helper as
    finite maps keyed by the chat id, exceptions as a result type. *)

From Stdlib Require Import ZArith List String Ascii Bool Lia SpecFloat DecimalString.
From stdpp Require Import base option strings gmap.
Import ListNotations.

Local Open Scope string_scope.
Local Open Scope list_scope.
Local Open Scope Z_scope.

(** ** Exceptions and results *)

Inductive exn : Type :=
| NotImplementedError (msg : string)
| KeyError
| IndexError
| AttributeError
| OverflowError
| ValueError
| ZeroDivisionError
| TypeError
| RateLimitError (msg : string)
| BadRequestError (msg : string)
| UpstreamError (msg : string)
| PluginError (msg : string)
| Exception (msg : string).

(** The result of a computation or of a collaborator: a value or a raised
    exception. *)
Inductive res (A : Type) : Type :=
| Ok (a : A)
| Raise (e : exn).
Arguments Ok {A} a.
Arguments Raise {A} e.

Definition res_bind {A B} (r : res A) (k : A -> res B) : res B :=
  match r with
  | Ok a => k a
  | Raise e => Raise e
  end.

Declare Scope res_scope.
Delimit Scope res_scope with res.
Notation "'let?' x ':=' c 'in' k" := (res_bind c (fun x => k))
  (at level 10, x pattern, c at level 100, k at level 200) : res_scope.
Local Open Scope res_scope.

(** ** Model tables (lines 22-31) *)

(** [x in t] for a tuple of strings. *)
Definition py_in (x : string) (t : list string) : bool :=
  existsb (String.eqb x) t.

Definition GPT_3_MODELS : list string :=
  ["gpt-3.5-turbo"; "gpt-3.5-turbo-0301"; "gpt-3.5-turbo-0613"].
Definition GPT_3_16K_MODELS : list string :=
  ["gpt-3.5-turbo-16k"; "gpt-3.5-turbo-16k-0613"; "gpt-3.5-turbo-1106"; "gpt-3.5-turbo-0125"].
Definition GPT_4_MODELS : list string :=
  ["gpt-4"; "gpt-4-0314"; "gpt-4-0613"; "gpt-4-turbo-preview"].
Definition GPT_4_32K_MODELS : list string :=
  ["gpt-4-32k"; "gpt-4-32k-0314"; "gpt-4-32k-0613"].
Definition GPT_4_VISION_MODELS : list string :=
  ["gpt-4o"].
Definition GPT_4_128K_MODELS : list string :=
  ["gpt-4-1106-preview"; "gpt-4-0125-preview"; "gpt-4-turbo-preview"; "gpt-4-turbo";
   "gpt-4-turbo-2024-04-09"].
Definition GPT_4O_MODELS : list string :=
  ["gpt-4o"; "gpt-4o-mini"; "chatgpt-4o-latest"].
Definition GPT_4_1_MODELS : list string :=
  ["gpt-4.1"; "gpt-4.1-mini"; "gpt-4.1-nano"].
Definition O_MODELS : list string :=
  ["o1"; "o1-mini"; "o1-preview"].
Definition GPT_ALL_MODELS : list string :=
  GPT_3_MODELS ++ GPT_3_16K_MODELS ++ GPT_4_MODELS ++ GPT_4_32K_MODELS
  ++ GPT_4_VISION_MODELS ++ GPT_4_128K_MODELS ++ GPT_4O_MODELS ++ GPT_4_1_MODELS
  ++ O_MODELS.

(** The family tuples in the order in which [default_max_tokens] tests them. *)
Inductive family : Type :=
| FGpt3 | FGpt4 | FGpt3_16k | FGpt4_32k | FGpt4Vision | FGpt4_128k | FGpt4o | FGpt4_1 | FO.

Definition family_models (f : family) : list string :=
  match f with
  | FGpt3 => GPT_3_MODELS
  | FGpt4 => GPT_4_MODELS
  | FGpt3_16k => GPT_3_16K_MODELS
  | FGpt4_32k => GPT_4_32K_MODELS
  | FGpt4Vision => GPT_4_VISION_MODELS
  | FGpt4_128k => GPT_4_128K_MODELS
  | FGpt4o => GPT_4O_MODELS
  | FGpt4_1 => GPT_4_1_MODELS
  | FO => O_MODELS
  end.

Definition all_families : list family :=
  [FGpt3; FGpt4; FGpt3_16k; FGpt4_32k; FGpt4Vision; FGpt4_128k; FGpt4o; FGpt4_1; FO].

(** The families whose tuple lists the identifier. *)
Definition families_of (model : string) : list family :=
  List.filter (fun f => py_in model (family_models f)) all_families.

(** [default_max_tokens] (lines 33-59).  The chain of [elif] has no final
    [else]: for a model outside every tuple the function falls off its end
    and returns Python's [None], modelled by [None]. *)
Definition default_max_tokens (model : string) : option Z :=
  let base := 1200 in
  if py_in model GPT_3_MODELS then Some base
  else if py_in model GPT_4_MODELS then Some (base * 2)
  else if py_in model GPT_3_16K_MODELS then
    if String.eqb model "gpt-3.5-turbo-1106" then Some 4096 else Some (base * 4)
  else if py_in model GPT_4_32K_MODELS then Some (base * 8)
  else if py_in model GPT_4_VISION_MODELS then Some 4096
  else if py_in model GPT_4_128K_MODELS then Some 4096
  else if py_in model GPT_4O_MODELS then Some 4096
  else if py_in model GPT_4_1_MODELS then Some 30000
  else if py_in model O_MODELS then Some 4096
  else None.

(** [are_functions_available] (lines 62-70). *)
Definition are_functions_available (model : string) : bool :=
  if py_in model ["gpt-3.5-turbo-0301"; "gpt-4-0314"; "gpt-4-32k-0314";
                  "gpt-3.5-turbo-0613"; "gpt-3.5-turbo-16k-0613"] then false
  else if py_in model O_MODELS then false
  else true.

(** ** Python numbers

    [len] of a list is an [int]; a [float] is an IEEE binary64 number,
    with the operations of [SpecFloat] at precision 53. *)

Definition len {A} (l : list A) : Z := Z.of_nat (length l).

Definition prec : Z := 53.
Definition emax : Z := 1024.

(** An overflowing conversion or division raises instead of giving [inf]. *)
Definition finite_or_overflow (x : spec_float) : res spec_float :=
  match x with
  | S754_infinity _ => Raise OverflowError
  | _ => Ok x
  end.

(** [float(n)] for an [int]: the nearest binary64 number. *)
Definition float_of_int (n : Z) : res spec_float :=
  finite_or_overflow (binary_normalize prec emax n 0 false).

(** [a / b] on two [int]s: the correctly rounded quotient. *)
Definition int_truediv (a b : Z) : res spec_float :=
  let negate := xorb (a <? 0) (b <? 0) in
  match b with
  | Z0 => Raise ZeroDivisionError
  | _ =>
      match a with
      | Z0 => Ok (S754_zero negate)
      | _ =>
          let '(mz, ez, lz) := SFdiv_core_binary prec emax (Z.abs a) 0 (Z.abs b) 0 in
          finite_or_overflow (binary_round_aux prec emax negate mz ez lz)
      end
  end.

(** [n / x] for an [int] and a [float]. *)
Definition int_div_float (n : Z) (x : spec_float) : res spec_float :=
  let? a := float_of_int n in
  match x with
  | S754_zero _ => Raise ZeroDivisionError
  | _ => Ok (SFdiv prec emax a x)
  end.

(** [max(a, b)] keeps its first argument unless the second is greater. *)
Definition py_max (a b : spec_float) : spec_float :=
  if SFltb a b then b else a.

(** [x > n] for a [float] and a small [int]. *)
Definition float_gt_int (x : spec_float) (n : Z) : bool :=
  SFltb (binary_normalize prec emax n 0 false) x.

(** [int(x)]: truncation towards zero. *)
Definition int_of_float (x : spec_float) : res Z :=
  match x with
  | S754_zero _ => Ok 0
  | S754_finite s m e => Ok (cond_Zopp s (Z.shiftl (Zpos m) e))
  | S754_infinity _ => Raise OverflowError
  | S754_nan => Raise ValueError
  end.

(** ** Configuration

    The keys of [self.config] that the engine reads.  A key that the code
    reads with [config.get(key, default)] is optional; the same key read
    with [config[key]] raises [KeyError] when it is absent. *)

Record Config : Type := {
  model : string;
  vision_model : string;
  vision_detail : string;
  vision_max_tokens : Z;
  assistant_prompt : string;
  max_tokens : Z;
  max_history_size : Z;
  max_conversation_age_minutes : Z;
  n_choices : Z;
  temperature : spec_float;
  presence_penalty : spec_float;
  frequency_penalty : spec_float;
  bot_language : string;
  show_usage : bool;
  enable_functions : option bool;
  functions_max_consecutive_calls : option Z;
  show_plugins_used : option bool;
  use_responses_api : option bool;
  enable_web_search : option bool
}.

Definition cfg_get {A} (o : option A) (default : A) : A :=
  match o with Some a => a | None => default end.

Definition cfg_item {A} (o : option A) : res A :=
  match o with Some a => Ok a | None => Raise KeyError end.

(** ** Messages *)

(** A block of a multimodal content list: a dictionary with a ['type'] and
    either a ['text'] or an ['image_url'] holding ['url'] and ['detail']. *)
Inductive Part : Type :=
| PText (text : string)
| PImage (url detail : string)
| POther (ptype text : string).

Inductive Content : Type :=
| CStr (s : string)
| CParts (parts : list Part).

(** A history entry [{"role": r, "content": c}], with a ["name"] for a
    function result. *)
Record Message : Type := {
  msg_role : string;
  msg_name : option string;
  msg_content : Content
}.

Definition mk_message (role : string) (content : Content) : Message :=
  {| msg_role := role; msg_name := None; msg_content := content |}.

Definition mk_function_message (function_name : string) (content : string) : Message :=
  {| msg_role := "function"; msg_name := Some function_name; msg_content := CStr content |}.

(** ** Upstream requests and responses *)

(** A function specification of the plugin manager: a dictionary whose
    ['name'], ['description'] and ['parameters'] may be missing. *)
Record FunctionSpec : Type := {
  spec_name : option string;
  spec_description : option string;
  spec_parameters : option string
}.

(** Keyword arguments of [client.chat.completions.create]; an argument that
    a call site does not pass is [None]. *)
Record ChatRequest : Type := {
  rq_model : string;
  rq_messages : list Message;
  rq_temperature : option spec_float;
  rq_n : option Z;
  rq_max_tokens : option (string * Z);
  rq_presence_penalty : option spec_float;
  rq_frequency_penalty : option spec_float;
  rq_stream : bool;
  rq_functions : option (list FunctionSpec);
  rq_function_call : option string
}.

Record FunctionCall : Type := {
  fc_name : option string;
  fc_arguments : option string
}.

(** [choice.message] of a completion.  The engine reads [content] as text
    wherever it reads it. *)
Record ChatMessage : Type := {
  cm_content : string;
  cm_function_call : option FunctionCall
}.

Record Usage : Type := {
  total_tokens : Z;
  prompt_tokens : Z;
  completion_tokens : Z
}.

Record Completion : Type := {
  choices : list ChatMessage;
  usage : Usage
}.

(** [chunk.choices[i]] of a streamed completion. *)
Record ChunkChoice : Type := {
  delta_content : option string;
  delta_function_call : option FunctionCall;
  finish_reason : option string
}.

(** A response of the legacy API: a completion, or the chunks that an
    iterator over the stream still has to deliver. *)
Inductive Response : Type :=
| RCompletion (c : Completion)
| RStream (chunks : list (list ChunkChoice)).

(** Blocks and messages of the Responses API input. *)
Inductive Block : Type :=
| BText (btype text : string)
| BImage (url detail : string)
| BPass (part : Part).

Record RMessage : Type := {
  rm_role : string;
  rm_content : list Block
}.

Inductive Tool : Type :=
| ToolWebSearch
| ToolFunction (name description parameters : string).

Record ResponsesRequest : Type := {
  rr_model : string;
  rr_input : list RMessage;
  rr_temperature : spec_float;
  rr_max_output_tokens : Z;
  rr_tools : option (list Tool)
}.

Record ToolCall : Type := {
  tc_id : string;
  tc_type : string;
  tc_function : option (string * option string)
}.

Record ToolOutput : Type := {
  to_tool_call_id : string;
  to_output : string
}.

(** A response of the Responses API; [rs_tool_calls] is
    [required_action.submit_tool_outputs.tool_calls] when both attributes
    are present. *)
Record RResponse : Type := {
  rs_id : string;
  rs_status : option string;
  rs_tool_calls : option (list ToolCall);
  rs_output_text : string;
  rs_usage_total : option Z
}.

(** The calls that reach a collaborator, oldest first. *)
Inductive Event : Type :=
| EvChat (rq : ChatRequest)
| EvResponses (rq : ResponsesRequest)
| EvSubmit (response_id : string) (tool_outputs : list ToolOutput)
| EvPlugin (function_name arguments : string) (result : res string).

(** What the legacy resolver hands back: the response of the model, or the
    string a plugin returned. *)
Inductive Handled : Type :=
| HResponse (r : Response)
| HPlugin (function_response : string).

(** ** The helper's state

    The three dictionaries of the object, and the model's own record of
    the calls that the module has made to its collaborators. *)

Record Helper : Type := {
  conversations : gmap Z (list Message);
  conversations_vision : gmap Z bool;
  last_updated : gmap Z Z;
  trace : list Event
}.

(** ** Collaborators

    Code that is not part of the module: the tokenizer, the image codec,
    the translations, the plugin manager, the upstream API and a few
    built-ins whose result is only passed on.  The upstream API and the
    plugins may answer differently each time: they see the calls made so
    far.  A plugin is handed the helper itself ([self] in lines 452 and
    523): [call_function] receives the helper and gives back, next to its
    result or its exception, the helper as the plugin has left it.  The
    configuration, which no method of the module writes to, is taken to be
    left alone by the plugins as well. *)

Definition Encoding : Type := string -> list Z.

Record Env : Type := {
  encoding_for_model : string -> option Encoding;
  get_encoding : string -> Encoding;
  decode_image : string -> res string;
  image_size : string -> res (N * N);
  localized_text : string -> string -> string;
  py_str_int : Z -> string;
  py_str_exn : exn -> string;
  py_str_conversation : list Message -> string;
  py_strip : string -> string;
  is_direct_result : Handled -> bool;
  get_functions_specs : list FunctionSpec;
  get_plugin_source_name : string -> string;
  call_function : Helper -> string -> string -> Helper * res string;
  chat_completions_create : list Event -> ChatRequest -> res Response;
  responses_create : list Event -> ResponsesRequest -> res RResponse;
  responses_submit_tool_outputs : list Event -> string -> list ToolOutput -> res RResponse
}.

(** The outcome of a method: it returns, it raises, or, for the recursive
    resolver and the tool loop, which are defined with a bound on their
    depth, the bound was too small.  [OutOfFuel] is not an outcome of the
    program and no handler catches it. *)
Inductive outcome (A : Type) : Type :=
| Returns (a : A)
| Raises (e : exn)
| OutOfFuel.
Arguments Returns {A} a.
Arguments Raises {A} e.
Arguments OutOfFuel {A}.

Definition M (A : Type) : Type := Helper -> Helper * outcome A.

Definition ret {A} (a : A) : M A := fun st => (st, Returns a).
Definition raise {A} (e : exn) : M A := fun st => (st, Raises e).
Definition out_of_fuel {A} : M A := fun st => (st, OutOfFuel).
Definition bind {A B} (c : M A) (k : A -> M B) : M B :=
  fun st =>
    match c st with
    | (st', Returns a) => k a st'
    | (st', Raises e) => (st', Raises e)
    | (st', OutOfFuel) => (st', OutOfFuel)
    end.
Definition outcome_of_res {A} (r : res A) : outcome A :=
  match r with
  | Ok a => Returns a
  | Raise e => Raises e
  end.
Definition lift {A} (r : res A) : M A := fun st => (st, outcome_of_res r).
Definition get_state : M Helper := fun st => (st, Returns st).

(** [try: c except Exception as e: h e]. *)
Definition try_except {A} (c : M A) (h : exn -> M A) : M A :=
  fun st =>
    match c st with
    | (st', Returns a) => (st', Returns a)
    | (st', Raises e) => h e st'
    | (st', OutOfFuel) => (st', OutOfFuel)
    end.

Declare Scope helper_scope.
Delimit Scope helper_scope with helper.
Notation "'do' x '<-' c ';' k" := (bind c (fun x => k))
  (at level 10, x name, c at level 100, k at level 200) : helper_scope.
Notation "c ';;' k" := (bind c (fun _ => k))
  (at level 100, k at level 200, right associativity) : helper_scope.
Local Open Scope helper_scope.

Section Engine.

Context (E : Env) (cfg : Config).

(** ** Token accountant *)

(** [__count_tokens_vision] (lines 990-1018).  [image.size] comes from the
    image library; the detail level is the configured one. *)
Definition count_tokens_vision (image_bytes : string) : res Z :=
  let? size := image_size E image_bytes in
  let vmodel := vision_model cfg in
  if negb (py_in vmodel GPT_4_VISION_MODELS) then
    Raise (NotImplementedError
             ("count_tokens_vision() is not implemented for model " +:+ vmodel +:+ "."))
  else
    let w := Z.of_N (fst size) in
    let h := Z.of_N (snd size) in
    let '(w, h) := if w >? h then (h, w) else (w, h) in
    let base_tokens := 85 in
    let detail := vision_detail cfg in
    if String.eqb detail "low" then Ok base_tokens
    else if String.eqb detail "high" || String.eqb detail "auto" then
      let? a := int_truediv w 768 in
      let? b := int_truediv h 2048 in
      let f := py_max a b in
      let? wh :=
        if float_gt_int f 1 then
          let? x := int_div_float w f in
          let? w' := int_of_float x in
          let? y := int_div_float h f in
          let? h' := int_of_float y in
          Ok (w', h')
        else Ok (w, h) in
      let '(w, h) := wh in
      let tw := (w + 511) / 512 in
      let th := (h + 511) / 512 in
      let tiles := tw * th in
      let num_tokens := base_tokens + tiles * 170 in
      Ok num_tokens
    else
      Raise (NotImplementedError
               ("unknown parameter detail=" +:+ detail +:+ " for model " +:+ vmodel +:+ ".")).

Definition tokens_per_message : Z := 3.
Definition tokens_per_name : Z := 1.

(** The inner loop of [__count_tokens] over the blocks of a content list. *)
Fixpoint count_tokens_parts (encoding : Encoding) (parts : list Part) (num_tokens : Z)
  : res Z :=
  match parts with
  | [] => Ok num_tokens
  | message1 :: rest =>
      let? num_tokens :=
        match message1 with
        | PImage url _ =>
            let? image := decode_image E url in
            let? n := count_tokens_vision image in
            Ok (num_tokens + n)
        | PText text | POther _ text => Ok (num_tokens + len (encoding text))
        end in
      count_tokens_parts encoding rest num_tokens
  end.

(** One turn of the outer loop: the message overhead, then the items of the
    dictionary in their order ["role"], ["name"], ["content"]. *)
Definition count_tokens_message (encoding : Encoding) (message : Message) (num_tokens : Z)
  : res Z :=
  let num_tokens := num_tokens + tokens_per_message in
  let num_tokens := num_tokens + len (encoding (msg_role message)) in
  let num_tokens :=
    match msg_name message with
    | Some value => num_tokens + len (encoding value) + tokens_per_name
    | None => num_tokens
    end in
  match msg_content message with
  | CStr value => Ok (num_tokens + len (encoding value))
  | CParts value => count_tokens_parts encoding value num_tokens
  end.

Fixpoint count_tokens_loop (encoding : Encoding) (messages : list Message) (num_tokens : Z)
  : res Z :=
  match messages with
  | [] => Ok num_tokens
  | message :: rest =>
      let? num_tokens := count_tokens_message encoding message num_tokens in
      count_tokens_loop encoding rest num_tokens
  end.

(** [__count_tokens] (lines 950-986). *)
Definition count_tokens (messages : list Message) : res Z :=
  let encoding :=
    match encoding_for_model E (model cfg) with
    | Some encoding => encoding
    | None => get_encoding E "o200k_base"
    end in
  if py_in (model cfg) GPT_ALL_MODELS then
    let? num_tokens := count_tokens_loop encoding messages 0 in
    Ok (num_tokens + 3)
  else
    Raise (NotImplementedError
             ("num_tokens_from_messages() is not implemented for model "
              +:+ model cfg +:+ ".")).

(** [__max_model_tokens] (lines 919-947). *)
Definition max_model_tokens : res Z :=
  let base := 4096 in
  let m := model cfg in
  if py_in m GPT_3_MODELS then Ok base
  else if py_in m GPT_3_16K_MODELS then Ok (base * 4)
  else if py_in m GPT_4_MODELS then Ok (base * 2)
  else if py_in m GPT_4_32K_MODELS then Ok (base * 8)
  else if py_in m GPT_4_VISION_MODELS then Ok (base * 31)
  else if py_in m GPT_4_128K_MODELS then Ok (base * 31)
  else if py_in m GPT_4O_MODELS then Ok (base * 31)
  else if py_in m GPT_4_1_MODELS then Ok (base * 64)
  else if py_in m O_MODELS then
    if String.eqb m "o1" then Ok 100000
    else if String.eqb m "o1-preview" then Ok 32768
    else Ok 65536
  else
    Raise (NotImplementedError
             ("Max tokens for model " +:+ m +:+ " is not implemented yet.")).

(** ** History store *)

(** [self.conversations[chat_id]]. *)
Definition history (chat_id : Z) : M (list Message) :=
  fun st =>
    match conversations st !! chat_id with
    | Some h => (st, Returns h)
    | None => (st, Raises KeyError)
    end.

(** [self.conversations[chat_id] = h]. *)
Definition set_history (chat_id : Z) (h : list Message) : M unit :=
  fun st =>
    ({| conversations := <[chat_id := h]> (conversations st);
        conversations_vision := conversations_vision st;
        last_updated := last_updated st;
        trace := trace st |}, Returns tt).

(** [self.conversations_vision[chat_id]]. *)
Definition vision_flag (chat_id : Z) : M bool :=
  fun st =>
    match conversations_vision st !! chat_id with
    | Some b => (st, Returns b)
    | None => (st, Raises KeyError)
    end.

(** [self.last_updated[chat_id] = now]. *)
Definition set_last_updated (chat_id : Z) (now : Z) : M unit :=
  fun st =>
    ({| conversations := conversations st;
        conversations_vision := conversations_vision st;
        last_updated := <[chat_id := now]> (last_updated st);
        trace := trace st |}, Returns tt).

(** [content == ''] *)
Definition is_empty_str (content : Content) : bool :=
  match content with
  | CStr s => String.eqb s ""
  | CParts _ => false
  end.

(** The role of the priming message. *)
Definition priming_role : string :=
  if py_in (model cfg) O_MODELS then "assistant" else "system".

(** [if content == '': content = self.config['assistant_prompt']] *)
Definition priming_content (content : Content) : Content :=
  if is_empty_str content then CStr (assistant_prompt cfg) else content.

(** [reset_chat_history] (lines 855-862); the parameter [content] defaults
    to the empty string. *)
Definition reset_chat_history (chat_id : Z) (content : Content) : M unit :=
  fun st =>
    let content := priming_content content in
    ({| conversations := <[chat_id := [mk_message priming_role content]]> (conversations st);
        conversations_vision := <[chat_id := false]> (conversations_vision st);
        last_updated := last_updated st;
        trace := trace st |}, Returns tt).

(** [__max_age_reached] (lines 864-875); times are in microseconds. *)
Definition max_age_reached (now : Z) (chat_id : Z) : M bool :=
  fun st =>
    match last_updated st !! chat_id with
    | None => (st, Returns false)
    | Some last =>
        (st, Returns (last <? now - max_conversation_age_minutes cfg * 60000000))
    end.

(** [__add_function_call_to_history] (lines 877-881). *)
Definition add_function_call_to_history (chat_id : Z) (function_name content : string)
  : M unit :=
  do h <- history chat_id;
  set_history chat_id (h ++ [mk_function_message function_name content]).

(** [__add_to_history] (lines 883-890). *)
Definition add_to_history (chat_id : Z) (role : string) (content : Content) : M unit :=
  do h <- history chat_id;
  set_history chat_id (h ++ [mk_message role content]).

(** [get_conversation_stats] (lines 142-150). *)
Definition get_conversation_stats (chat_id : Z) : M (Z * Z) :=
  do st <- get_state;
  (match conversations st !! chat_id with
   | None => reset_chat_history chat_id (CStr "")
   | Some _ => ret tt
   end);;
  do h <- history chat_id;
  do h' <- history chat_id;
  do tokens <- lift (count_tokens h');
  ret (len h, tokens).

(** ** Protocol adapter *)

Definition text_block_type (role : string) : string :=
  if py_in role ["user"; "system"; "developer"] then "input_text" else "output_text".

(** [__to_responses_message] (lines 117-140). *)
Definition to_responses_message (role : string) (content : Content) : option RMessage :=
  if String.eqb role "function" then None
  else
    let blocks :=
      match content with
      | CStr s => [BText (text_block_type role) s]
      | CParts parts =>
          map (fun part =>
                 match part with
                 | PText text => BText (text_block_type role) text
                 | PImage url detail => BImage url detail
                 | POther _ _ => BPass part
                 end) parts
      end in
    Some {| rm_role := role; rm_content := blocks |}.

(** The history as Responses input in [__common_get_chat_response]
    (lines 417-424). *)
Fixpoint responses_input (h : list Message) : list RMessage :=
  match h with
  | [] => []
  | m :: rest =>
      if String.eqb (msg_role m) "assistant" then responses_input rest
      else
        match to_responses_message (msg_role m) (msg_content m) with
        | Some converted => converted :: responses_input rest
        | None => responses_input rest
        end
  end.

(** The same loop in [get_chat_response_stream] (lines 273-277), which keeps
    the assistant turns. *)
Fixpoint responses_input_stream (h : list Message) : list RMessage :=
  match h with
  | [] => []
  | m :: rest =>
      match to_responses_message (msg_role m) (msg_content m) with
      | Some converted => converted :: responses_input_stream rest
      | None => responses_input_stream rest
      end
  end.

(** ** Calls to the collaborators *)

Definition log_event (ev : Event) (st : Helper) : Helper :=
  {| conversations := conversations st;
     conversations_vision := conversations_vision st;
     last_updated := last_updated st;
     trace := trace st ++ [ev] |}.

(** [await self.client.chat.completions.create(...)]. *)
Definition upstream_chat (rq : ChatRequest) : M Response :=
  fun st =>
    (log_event (EvChat rq) st, outcome_of_res (chat_completions_create E (trace st) rq)).

(** [await self.client.responses.create(...)]. *)
Definition upstream_responses (rq : ResponsesRequest) : M RResponse :=
  fun st =>
    (log_event (EvResponses rq) st, outcome_of_res (responses_create E (trace st) rq)).

(** [await self.client.responses.submit_tool_outputs(...)]. *)
Definition upstream_submit (response_id : string) (tool_outputs : list ToolOutput)
  : M RResponse :=
  fun st =>
    (log_event (EvSubmit response_id tool_outputs) st,
     outcome_of_res (responses_submit_tool_outputs E (trace st) response_id tool_outputs)).

(** What a plugin leaves behind: the dictionaries are those of the helper
    it gives back, also when it raises; the record of calls is the model's
    and not a field of the object, so it stays as it was. *)
Definition after_plugin (st touched : Helper) : Helper :=
  {| conversations := conversations touched;
     conversations_vision := conversations_vision touched;
     last_updated := last_updated touched;
     trace := trace st |}.

(** [await self.plugin_manager.call_function(name, self, arguments)]. *)
Definition plugin_call (function_name arguments : string) : M string :=
  fun st =>
    let '(touched, result) := call_function E st function_name arguments in
    (log_event (EvPlugin function_name arguments result) (after_plugin st touched),
     outcome_of_res result).

(** ** Python slices and indexing *)

(** [l[start:]] *)
Definition py_slice_from {A} (start : Z) (l : list A) : list A :=
  let i := if start <? 0 then Z.max (start + len l) 0 else Z.min start (len l) in
  drop (Z.to_nat i) l.

(** [l[:stop]] *)
Definition py_slice_to {A} (stop : Z) (l : list A) : list A :=
  let i := if stop <? 0 then Z.max (stop + len l) 0 else Z.min stop (len l) in
  take (Z.to_nat i) l.

(** [l[0]] *)
Definition py_first {A} (l : list A) : res A :=
  match l with
  | x :: _ => Ok x
  | [] => Raise IndexError
  end.

(** ** Summarizer *)

Definition float_one : spec_float := binary_normalize prec emax 1 0 false.
(** The literal [0.4]: the binary64 number nearest to 4/10. *)
Definition float_0_4 : spec_float :=
  SFdiv prec emax (binary_normalize prec emax 4 0 false) (binary_normalize prec emax 10 0 false).

Definition summarise_instruction : string :=
  "Summarize this conversation in 700 characters or less".

(** [__summarise] (lines 892-917). *)
Definition summarise (conversation : list Message) : M string :=
  let messages :=
    [mk_message "assistant" (CStr summarise_instruction);
     mk_message "user" (CStr (py_str_conversation E conversation))] in
  let temp := if py_in (model cfg) O_MODELS then float_one else float_0_4 in
  if negb (cfg_get (use_responses_api cfg) false) then
    do response <- upstream_chat
         {| rq_model := model cfg; rq_messages := messages; rq_temperature := Some temp;
            rq_n := None; rq_max_tokens := None; rq_presence_penalty := None;
            rq_frequency_penalty := None; rq_stream := false; rq_functions := None;
            rq_function_call := None |};
    match response with
    | RCompletion c =>
        do first <- lift (py_first (choices c));
        ret (cm_content first)
    | RStream _ => raise AttributeError
    end
  else
    do resp <- upstream_responses
         {| rr_model := model cfg;
            rr_input :=
              [ {| rm_role := "assistant";
                   rm_content := [BText "input_text" summarise_instruction] |};
                {| rm_role := "user";
                   rm_content := [BText "input_text" (py_str_conversation E conversation)] |} ];
            rr_temperature := temp;
            rr_max_output_tokens := 500;
            rr_tools := None |};
    ret (rs_output_text resp).

(** ** Context budgeter *)

(** The budget check of [__common_get_chat_response] (lines 347-362), run
    after the user turn has been appended. *)
Definition summarise_if_too_long (chat_id : Z) (query : string) : M unit :=
  do h <- history chat_id;
  do token_count <- lift (count_tokens h);
  do limit <- lift max_model_tokens;
  let exceeded_max_tokens := token_count + max_tokens cfg >? limit in
  do h <- history chat_id;
  let exceeded_max_history_size := len h >? max_history_size cfg in
  if exceeded_max_tokens || exceeded_max_history_size then
    try_except
      (do h <- history chat_id;
       do summary <- summarise (py_slice_to (-1) h);
       do h <- history chat_id;
       do first <- lift (py_first h);
       reset_chat_history chat_id (msg_content first);;
       add_to_history chat_id "assistant" (CStr summary);;
       add_to_history chat_id "user" (CStr query))
      (fun _ =>
         do h <- history chat_id;
         set_history chat_id (py_slice_from (- max_history_size cfg) h))
  else ret tt.

(** ** Text constants *)

Definition nl : string := String "010"%char EmptyString.
Definition dquote : string := String "034"%char EmptyString.

(** [json.dumps({'result': 'Done, the content has been sent' 'to the user.'})] *)
Definition direct_result_note : string :=
  "{" +:+ dquote +:+ "result" +:+ dquote +:+ ": " +:+ dquote
  +:+ "Done, the content has been sentto the user." +:+ dquote +:+ "}".

Definition formatting_text : string :=
  "Use only plain text answers, NO Markdown or HTML. "
  +:+ "Return plain text only. Do not use *, _, `, [], (), or any markup. "
  +:+ "If you must show a URL, print the raw URL.".

(** [{'type': 'object', 'properties': {}}] *)
Definition default_parameters : string := "{'type': 'object', 'properties': {}}".

Definition warning_sign : string := "⚠️".
Definition money_bag : string := "💰".
Definition electric_plug : string := "🔌".
Definition keycap : string := "⃣".

Definition usage_rule : string := nl +:+ nl +:+ "---" +:+ nl.

(** The handlers that close [__common_get_chat_response] (lines 482-489). *)
Definition wrap_errors {A} (c : M A) : M A :=
  let bot_language := bot_language cfg in
  try_except c
    (fun e =>
       match e with
       | RateLimitError _ => raise e
       | BadRequestError _ =>
           raise (Exception (warning_sign +:+ " _"
                             +:+ localized_text E "openai_invalid" bot_language
                             +:+ "._ " +:+ warning_sign +:+ nl +:+ py_str_exn E e))
       | _ =>
           raise (Exception (warning_sign +:+ " _"
                             +:+ localized_text E "error" bot_language
                             +:+ "._ " +:+ warning_sign +:+ nl +:+ py_str_exn E e))
       end).

(** The decorator [@retry]: a rate-limit error starts the call again, three
    attempts in all, and the last error is raised again. *)
Definition is_rate_limit (e : exn) : bool :=
  match e with RateLimitError _ => true | _ => false end.

Definition with_retry {A} (c : M A) : M A :=
  try_except c
    (fun e =>
       if is_rate_limit e then
         try_except c (fun e' => if is_rate_limit e' then c else raise e')
       else raise e).

(** ** Tool loop of the Responses API (lines 443-463) *)

(** The plugin specifications as Responses tools (lines 389-412). *)
Fixpoint responses_tools (specs : list FunctionSpec) : list Tool :=
  match specs with
  | [] => []
  | spec :: rest =>
      match spec_name spec with
      | None => responses_tools rest
      | Some name =>
          if String.eqb name "" then responses_tools rest
          else
            ToolFunction name
              (cfg_get (spec_description spec) "")
              (cfg_get (spec_parameters spec) default_parameters)
            :: responses_tools rest
      end
  end.

(** The tool calls to answer when the response asks for it. *)
Definition requires_action (resp : RResponse) : option (list ToolCall) :=
  match rs_status resp with
  | Some status =>
      if String.eqb status "requires_action" then rs_tool_calls resp else None
  | None => None
  end.

(** The [for] loop over the tool calls; its third result is the exception
    that ended it early, which the [except] clause turns into a [break]. *)
Fixpoint run_tools (tool_calls : list ToolCall) (tool_outputs : list ToolOutput)
    (plugins_used : list string) : M (list ToolOutput * list string * option exn) :=
  match tool_calls with
  | [] => ret (tool_outputs, plugins_used, None)
  | tool :: rest =>
      match (if String.eqb (tc_type tool) "function" then tc_function tool else None) with
      | Some (fn_name, arguments) =>
          let fn_args :=
            match arguments with
            | Some a => if String.eqb a "" then "{}" else a
            | None => "{}"
            end in
          try_except
            (do result <- plugin_call fn_name fn_args;
             run_tools rest
               (tool_outputs ++ [ {| to_tool_call_id := tc_id tool; to_output := result |} ])
               (plugins_used ++ [fn_name]))
            (fun e => ret (tool_outputs, plugins_used, Some e))
      | None => run_tools rest tool_outputs plugins_used
      end
  end.

Fixpoint tool_loop (fuel : nat) (max_calls : Z) (resp : RResponse) (calls : Z)
    (plugins_used : list string) : M (RResponse * list string) :=
  match requires_action resp with
  | Some tool_calls =>
      if calls <? max_calls then
        match fuel with
        | O => out_of_fuel
        | S fuel' =>
            do ran <- run_tools tool_calls [] plugins_used;
            let '(tool_outputs, plugins_used, failed) := ran in
            match failed with
            | Some _ => ret (resp, plugins_used)
            | None =>
                do resp' <- upstream_submit (rs_id resp) tool_outputs;
                tool_loop fuel' max_calls resp' (calls + 1) plugins_used
            end
        end
      else ret (resp, plugins_used)
  | None => ret (resp, plugins_used)
  end.

(** ** Legacy tool-call resolver *)

(** What the resolver finds in a response: no function call, in which case
    the response is handed back (a stream without the chunks already read),
    or the name and the arguments of the call. *)
Inductive Inspected : Type :=
| NoCall (response : Response)
| Call (function_name arguments : string).

(** [s += o] when [o] is not empty. *)
Definition append_opt (s : string) (o : option string) : string :=
  match o with
  | Some x => s +:+ x
  | None => s
  end.

(** The [async for] over a streamed response (lines 495-508).  When the
    stream ends without a [break] or a [return] the call goes ahead with
    what has been accumulated. *)
Fixpoint scan_stream (chunks : list (list ChunkChoice)) (function_name arguments : string)
  : Inspected :=
  match chunks with
  | [] => Call function_name arguments
  | item :: rest =>
      match item with
      | first_choice :: _ =>
          match delta_function_call first_choice with
          | Some fc =>
              scan_stream rest (append_opt function_name (fc_name fc))
                (append_opt arguments (fc_arguments fc))
          | None =>
              match finish_reason first_choice with
              | Some reason =>
                  if String.eqb reason "function_call" then Call function_name arguments
                  else NoCall (RStream rest)
              | None => NoCall (RStream rest)
              end
          end
      | [] => NoCall (RStream rest)
      end
  end.

(** Lines 492-520. *)
Definition inspect_response (stream : bool) (response : Response) : res Inspected :=
  match stream, response with
  | true, RStream chunks => Ok (scan_stream chunks "" "")
  | false, RCompletion c =>
      match choices c with
      | first_choice :: _ =>
          match cm_function_call first_choice with
          | Some fc =>
              Ok (Call (append_opt "" (fc_name fc)) (append_opt "" (fc_arguments fc)))
          | None => Ok (NoCall response)
          end
      | [] => Ok (NoCall response)
      end
  | true, RCompletion _ => Raise TypeError
  | false, RStream _ => Raise AttributeError
  end.

(** The request of a resubmission (lines 535-541). *)
Definition resubmission (messages : list Message) (stream : bool) (times limit : Z)
  : ChatRequest :=
  {| rq_model := model cfg;
     rq_messages := messages;
     rq_temperature := None;
     rq_n := None;
     rq_max_tokens := None;
     rq_presence_penalty := None;
     rq_frequency_penalty := None;
     rq_stream := stream;
     rq_functions := Some (get_functions_specs E);
     rq_function_call := Some (if times <? limit then "auto" else "none") |}.

(** [__handle_function_call] (lines 491-542); [fuel] bounds the depth of the
    recursion. *)
Fixpoint handle_function_call (fuel : nat) (chat_id : Z) (response : Response)
    (stream : bool) (times : Z) (plugins_used : list string) : M (Handled * list string) :=
  match fuel with
  | O => out_of_fuel
  | S fuel' =>
      do inspected <- lift (inspect_response stream response);
      match inspected with
      | NoCall response => ret (HResponse response, plugins_used)
      | Call function_name arguments =>
          do function_response <- plugin_call function_name arguments;
          let plugins_used :=
            if py_in function_name plugins_used then plugins_used
            else plugins_used ++ [function_name] in
          if is_direct_result E (HPlugin function_response) then
            add_function_call_to_history chat_id function_name direct_result_note;;
            ret (HPlugin function_response, plugins_used)
          else
            add_function_call_to_history chat_id function_name function_response;;
            do h <- history chat_id;
            do limit <- lift (cfg_item (functions_max_consecutive_calls cfg));
            do response <- upstream_chat (resubmission h stream times limit);
            handle_function_call fuel' chat_id response stream (times + 1) plugins_used
      end
  end.

(** ** Requests *)

(** What [__common_get_chat_response] returns: the response of the legacy
    API, or, on the Responses path, the pair of the answer and the usage. *)
Inductive CommonResult : Type :=
| CRResponse (r : Response)
| CRAnswer (answer usage : string).

Definition plugins_footer (plugins_used : list string) : string :=
  electric_plug +:+ " "
  +:+ String.concat ", " (map (get_plugin_source_name E) plugins_used).

(** [__common_get_chat_response] (lines 331-489), without its decorator;
    [now] is the reading of the clock. *)
Definition common_get_chat_response (fuel : nat) (now : Z) (chat_id : Z) (query : string)
    (stream : bool) : M CommonResult :=
  wrap_errors
    (do st <- get_state;
     do stale <- match conversations st !! chat_id with
                 | None => ret true
                 | Some _ => max_age_reached now chat_id
                 end;
     (if stale then reset_chat_history chat_id (CStr "") else ret tt);;
     set_last_updated chat_id now;;
     add_to_history chat_id "user" (CStr query);;
     summarise_if_too_long chat_id query;;
     if negb (cfg_get (use_responses_api cfg) false) then
       let max_tokens_str :=
         if py_in (model cfg) O_MODELS then "max_completion_tokens" else "max_tokens" in
       do vision <- vision_flag chat_id;
       do h <- history chat_id;
       do enable <- lift (cfg_item (enable_functions cfg));
       let functions := get_functions_specs E in
       let with_functions := enable && negb vision && (len functions >? 0) in
       do response <- upstream_chat
            {| rq_model := if negb vision then model cfg else vision_model cfg;
               rq_messages := h;
               rq_temperature := Some (temperature cfg);
               rq_n := Some (n_choices cfg);
               rq_max_tokens := Some (max_tokens_str, max_tokens cfg);
               rq_presence_penalty := Some (presence_penalty cfg);
               rq_frequency_penalty := Some (frequency_penalty cfg);
               rq_stream := stream;
               rq_functions := if with_functions then Some functions else None;
               rq_function_call := if with_functions then Some "auto" else None |};
       ret (CRResponse response)
     else
       do st <- get_state;
       let vision := cfg_get (conversations_vision st !! chat_id) false in
       let use_web_search := cfg_get (enable_web_search cfg) false && negb vision in
       let tools := if use_web_search then [ToolWebSearch] else [] in
       let responses_tools_plugins :=
         if cfg_get (enable_functions cfg) false then responses_tools (get_functions_specs E)
         else [] in
       let tools := tools ++ responses_tools_plugins in
       let model_to_use := if negb vision then model cfg else vision_model cfg in
       do h <- history chat_id;
       let input_messages := responses_input h in
       let input_messages :=
         if use_web_search then
           {| rm_role := "system"; rm_content := [BText "input_text" formatting_text] |}
           :: input_messages
         else input_messages in
       do resp <- upstream_responses
            {| rr_model := model_to_use;
               rr_input := input_messages;
               rr_temperature := temperature cfg;
               rr_max_output_tokens := max_tokens cfg;
               rr_tools := Some tools |};
       let max_calls := cfg_get (functions_max_consecutive_calls cfg) 10 in
       do looped <- tool_loop fuel max_calls resp 0 [];
       let '(resp, plugins_used) := looped in
       let answer := py_strip E (rs_output_text resp) in
       (if String.eqb answer "" then ret tt
        else add_to_history chat_id "assistant" (CStr answer));;
       do usage_total <- match rs_usage_total resp with
                         | Some total => ret total
                         | None => do h <- history chat_id; lift (count_tokens h)
                         end;
       let answer :=
         if show_usage cfg then
           answer +:+ usage_rule +:+ money_bag +:+ " " +:+ py_str_int E usage_total +:+ " "
           +:+ localized_text E "stats_tokens" (bot_language cfg)
           +:+ (if (len plugins_used >? 0) && cfg_get (show_plugins_used cfg) false
                then nl +:+ plugins_footer plugins_used else "")
         else answer in
       ret (CRAnswer answer (py_str_int E usage_total))).

(** The values that [get_chat_response] returns in its pair. *)
Inductive PyVal : Type :=
| VStr (s : string)
| VInt (n : Z)
| VResponse (r : Response).

Definition handled_value (h : Handled) : PyVal :=
  match h with
  | HResponse r => VResponse r
  | HPlugin s => VStr s
  end.

(** The loop over several choices (lines 170-176). *)
Fixpoint render_choices (chat_id : Z) (cs : list ChatMessage) (index : Z) (answer : string)
  : M string :=
  match cs with
  | [] => ret answer
  | choice :: rest =>
      let content := py_strip E (cm_content choice) in
      (if index =? 0 then add_to_history chat_id "assistant" (CStr content) else ret tt);;
      render_choices chat_id rest (index + 1)
        (answer +:+ py_str_int E (index + 1) +:+ keycap +:+ nl +:+ content +:+ nl +:+ nl)
  end.

(** [get_chat_response] (lines 152-205). *)
Definition get_chat_response (fuel : nat) (now : Z) (chat_id : Z) (query : string)
  : M (PyVal * PyVal) :=
  let plugins_used := [] in
  do response <- with_retry (common_get_chat_response fuel now chat_id query false);
  if negb (cfg_get (use_responses_api cfg) false) then
    do enable <- lift (cfg_item (enable_functions cfg));
    do resolve <- (if enable then do vision <- vision_flag chat_id; ret (negb vision)
                   else ret false);
    do r <- match response with
            | CRResponse r => ret r
            | CRAnswer _ _ => raise AttributeError
            end;
    do handled <- (if resolve then handle_function_call fuel chat_id r false 0 plugins_used
                   else ret (HResponse r, plugins_used));
    let '(response, plugins_used) := handled in
    if resolve && is_direct_result E response then ret (handled_value response, VStr "0")
    else
      match response with
      | HResponse (RCompletion c) =>
          do answer <-
            (if (len (choices c) >? 1) && (n_choices cfg >? 1) then
               render_choices chat_id (choices c) 0 ""
             else
               do first <- lift (py_first (choices c));
               let answer := py_strip E (cm_content first) in
               add_to_history chat_id "assistant" (CStr answer);;
               ret answer);
          let bot_language := bot_language cfg in
          do show_plugins <- (if len plugins_used >? 0
                              then lift (cfg_item (show_plugins_used cfg)) else ret false);
          let answer :=
            if show_usage cfg then
              answer +:+ usage_rule +:+ money_bag +:+ " "
              +:+ py_str_int E (total_tokens (usage c)) +:+ " "
              +:+ localized_text E "stats_tokens" bot_language
              +:+ " (" +:+ py_str_int E (prompt_tokens (usage c)) +:+ " "
              +:+ localized_text E "prompt" bot_language +:+ ","
              +:+ " " +:+ py_str_int E (completion_tokens (usage c)) +:+ " "
              +:+ localized_text E "completion" bot_language +:+ ")"
              +:+ (if show_plugins then nl +:+ plugins_footer plugins_used else "")
            else if show_plugins then answer +:+ usage_rule +:+ plugins_footer plugins_used
            else answer in
          ret (VStr answer, VInt (total_tokens (usage c)))
      | HResponse (RStream _) => raise AttributeError
      | HPlugin _ => raise AttributeError
      end
  else
    let answer := "" in
    do usage_total <- match response with
                      | CRResponse (RCompletion c) => ret (total_tokens (usage c))
                      | _ => do h <- history chat_id; lift (count_tokens h)
                      end;
    let answer :=
      if show_usage cfg then
        answer +:+ usage_rule +:+ money_bag +:+ " " +:+ py_str_int E usage_total +:+ " "
        +:+ localized_text E "stats_tokens" (bot_language cfg)
      else answer in
    ret (VStr answer, VStr (py_str_int E usage_total)).

End Engine.

(** ** Tables read off the two lookups

    The value that each branch of [default_max_tokens] and of
    [__max_model_tokens] gives to the models of a family. *)

Definition family_default_max_tokens (f : family) (m : string) : Z :=
  match f with
  | FGpt3 => 1200
  | FGpt4 => 2400
  | FGpt3_16k => if String.eqb m "gpt-3.5-turbo-1106" then 4096 else 4800
  | FGpt4_32k => 9600
  | FGpt4Vision | FGpt4_128k | FGpt4o => 4096
  | FGpt4_1 => 30000
  | FO => 4096
  end.

Definition family_context_window (f : family) (m : string) : Z :=
  match f with
  | FGpt3 => 4096
  | FGpt4 => 8192
  | FGpt3_16k => 16384
  | FGpt4_32k => 32768
  | FGpt4Vision | FGpt4_128k | FGpt4o => 126976
  | FGpt4_1 => 262144
  | FO => if String.eqb m "o1" then 100000
          else if String.eqb m "o1-preview" then 32768 else 65536
  end.

(** ** The structured shape in the words of the specification

    Every message that is not a function result becomes a role and a list
    of blocks; a text is tagged [input_text] for the roles user, system and
    developer and [output_text] otherwise; an image becomes an
    [input_image] with its URL and detail. *)

Definition structured_tag (role : string) : string :=
  if String.eqb role "user" || String.eqb role "system" || String.eqb role "developer"
  then "input_text" else "output_text".

Definition structured_block (role : string) (part : Part) : Block :=
  match part with
  | PText text => BText (structured_tag role) text
  | PImage url detail => BImage url detail
  | POther _ _ => BPass part
  end.

Definition structured_message (m : Message) : RMessage :=
  {| rm_role := msg_role m;
     rm_content := match msg_content m with
                   | CStr s => [BText (structured_tag (msg_role m)) s]
                   | CParts parts => map (structured_block (msg_role m)) parts
                   end |}.

Definition is_function_result (m : Message) : bool := String.eqb (msg_role m) "function".
Definition is_assistant_turn (m : Message) : bool := String.eqb (msg_role m) "assistant".

(** The rendering of a history as the specification states it: only the
    function results are dropped. *)
Definition structured_history (h : list Message) : list RMessage :=
  map structured_message (List.filter (fun m => negb (is_function_result m)) h).

(** A float that is not negative: a zero, a finite number or an infinity
    with a positive sign, or not a number. *)
Definition nonneg_float (x : spec_float) : Prop :=
  match x with
  | S754_zero s | S754_infinity s | S754_finite s _ _ => s = false
  | S754_nan => True
  end.

(** ** The vision cost in the words of the specification

    The image is normalised so that its short edge fits 768 and its long
    edge fits 2048, by the factor [f = max(short / 768, long / 2048)] when
    [f > 1]; the normalised image is cut into tiles of 512 by 512, a partial
    tile counting as a whole one; the cost is 85 plus 170 for each tile. *)

(** Ceiling division. *)
Definition ceil_div (a b : Z) : Z := - ((- a) / b).

Definition scale_factor (short long : Z) : res spec_float :=
  let? a := int_truediv short 768 in
  let? b := int_truediv long 2048 in
  Ok (py_max a b).

Definition normalized_size (width height : Z) : res (Z * Z) :=
  let short := Z.min width height in
  let long := Z.max width height in
  let? f := scale_factor short long in
  if float_gt_int f 1 then
    let? x := int_div_float short f in
    let? w := int_of_float x in
    let? y := int_div_float long f in
    let? h := int_of_float y in
    Ok (w, h)
  else Ok (short, long).

Definition tile_count (size : Z * Z) : Z :=
  ceil_div (fst size) 512 * ceil_div (snd size) 512.

(** ** The token estimate as a sum

    The encoding that [__count_tokens] selects, the cost of a block, of a
    content and of a message, and the sum of the costs of a list; the first
    element whose cost raises decides the error, as in the loops. *)

Definition selected_encoding (E : Env) (cfg : Config) : Encoding :=
  match encoding_for_model E (model cfg) with
  | Some encoding => encoding
  | None => get_encoding E "o200k_base"
  end.

Fixpoint sum_costs {A} (cost : A -> res Z) (l : list A) : res Z :=
  match l with
  | [] => Ok 0
  | x :: rest =>
      let? c := cost x in
      let? s := sum_costs cost rest in
      Ok (c + s)
  end.

Definition block_cost (E : Env) (cfg : Config) (part : Part) : res Z :=
  match part with
  | PImage url _ =>
      let? image := decode_image E url in
      count_tokens_vision E cfg image
  | PText text | POther _ text => Ok (len (selected_encoding E cfg text))
  end.

Definition content_cost (E : Env) (cfg : Config) (content : Content) : res Z :=
  match content with
  | CStr s => Ok (len (selected_encoding E cfg s))
  | CParts parts => sum_costs (block_cost E cfg) parts
  end.

(** What a message adds to the estimate of [__count_tokens]: the overhead of
    3, the encoded role, for a function result the encoded name and 1, and
    the content. *)
Definition message_cost (E : Env) (cfg : Config) (m : Message) : res Z :=
  let? c := content_cost E cfg (msg_content m) in
  Ok (3 + len (selected_encoding E cfg (msg_role m))
      + match msg_name m with
        | Some value => len (selected_encoding E cfg value) + 1
        | None => 0
        end
      + c).

(** The estimate as the specification states it: for each message the
    overhead of 3 and the content, and 3 at the end. *)
Definition spec_message_cost (E : Env) (cfg : Config) (m : Message) : res Z :=
  let? c := content_cost E cfg (msg_content m) in
  Ok (3 + c).

Definition spec_estimate (E : Env) (cfg : Config) (messages : list Message) : res Z :=
  if py_in (model cfg) GPT_ALL_MODELS then
    let? s := sum_costs (spec_message_cost E cfg) messages in
    Ok (s + 3)
  else
    Raise (NotImplementedError
             ("num_tokens_from_messages() is not implemented for model "
              +:+ model cfg +:+ ".")).

(** ** Measuring a run

    The plugin invocations and the submissions of tool outputs in a trace;
    an upstream that honours [function_call='none']: its reply to such a
    request carries no function call; a run that makes at most [k] plugin
    invocations, or at most [k] submissions, and ends within its fuel. *)

Definition is_plugin_event (ev : Event) : bool :=
  match ev with
  | EvPlugin _ _ _ => true
  | _ => false
  end.


Definition count_events (p : Event -> bool) (tr : list Event) : nat :=
  length (List.filter p tr).

Definition plugin_invocations (tr : list Event) : nat := count_events is_plugin_event tr.








(** ** Concrete collaborators

    A small world to run the engine in: a tokenizer that makes one token of
    every character, images whose size is written in their bytes, an
    upstream that answers from a script. *)

(** [str(n)] for an [int]. *)
Definition decimal (n : Z) : string := NilZero.string_of_int (Z.to_int n).

Definition char_encoding : Encoding :=
  fun s => map (fun c => Z.of_nat (nat_of_ascii c)) (list_ascii_of_string s).

(** The image codec of the examples: the URL is the image, and the image
    names its own size. *)
Definition demo_image_size (image : string) : res (N * N) :=
  if String.eqb image "square" then Ok (1024%N, 1024%N)
  else if String.eqb image "tile" then Ok (512%N, 512%N)
  else if String.eqb image "landscape" then Ok (4096%N, 2048%N)
  else Raise (UpstreamError "cannot identify image file").

Definition silent_upstream_chat (tr : list Event) (rq : ChatRequest) : res Response :=
  Raise (UpstreamError "unavailable").

Definition plain_answer (text : string) : Response :=
  RCompletion
    {| choices := [ {| cm_content := text; cm_function_call := None |} ];
       usage := {| total_tokens := 42; prompt_tokens := 30; completion_tokens := 12 |} |}.

Definition demo_env : Env :=
  {| encoding_for_model := fun _ => None;
     get_encoding := fun _ => char_encoding;
     decode_image := fun url => Ok url;
     image_size := demo_image_size;
     localized_text := fun key _ => key;
     py_str_int := decimal;
     py_str_exn := fun _ => "error";
     py_str_conversation := fun _ => "conversation";
     py_strip := fun s => s;
     is_direct_result := fun h => match h with
                                  | HPlugin s => String.eqb s "direct"
                                  | HResponse _ => false
                                  end;
     get_functions_specs := [];
     get_plugin_source_name := fun s => s;
     call_function := fun st _ _ => (st, Ok "direct");
     chat_completions_create := silent_upstream_chat;
     responses_create := fun _ _ => Raise (UpstreamError "unavailable");
     responses_submit_tool_outputs := fun _ _ _ => Raise (UpstreamError "unavailable") |}.

(** An upstream that asks for the weather tool whenever function calling is
    on ['auto'] and answers in plain text otherwise; on the Responses API it
    asks for the tool once and answers after the submission.  The plugin
    returns [plugin_result]. *)
Definition weather_spec : FunctionSpec :=
  {| spec_name := Some "weather";
     spec_description := Some "the weather of a place";
     spec_parameters := None |}.

Definition tool_request : Response :=
  RCompletion
    {| choices := [ {| cm_content := "";
                       cm_function_call :=
                         Some {| fc_name := Some "weather"; fc_arguments := Some "{}" |} |} ];
       usage := {| total_tokens := 40; prompt_tokens := 30; completion_tokens := 10 |} |}.

Definition scripted_chat (tr : list Event) (rq : ChatRequest) : res Response :=
  match rq_function_call rq with
  | Some mode => if String.eqb mode "auto" then Ok tool_request
                 else Ok (plain_answer "It is sunny.")
  | None => Ok (plain_answer "It is sunny.")
  end.

Definition scripted_env (plugin_result : string) : Env :=
  {| encoding_for_model := fun _ => None;
     get_encoding := fun _ => char_encoding;
     decode_image := fun url => Ok url;
     image_size := demo_image_size;
     localized_text := fun key _ => key;
     py_str_int := decimal;
     py_str_exn := fun _ => "error";
     py_str_conversation := fun _ => "conversation";
     py_strip := fun s => s;
     is_direct_result := fun h => match h with
                                  | HPlugin s => String.eqb s "direct"
                                  | HResponse _ => false
                                  end;
     get_functions_specs := [weather_spec];
     get_plugin_source_name := fun s => s;
     call_function := fun st _ _ => (st, Ok plugin_result);
     chat_completions_create := scripted_chat;
     responses_create := fun _ _ =>
       Ok {| rs_id := "resp_1";
             rs_status := Some "requires_action";
             rs_tool_calls :=
               Some [ {| tc_id := "call_1"; tc_type := "function";
                         tc_function := Some ("weather", Some "{}") |} ];
             rs_output_text := "";
             rs_usage_total := None |};
     responses_submit_tool_outputs := fun _ _ _ =>
       Ok {| rs_id := "resp_1";
             rs_status := Some "completed";
             rs_tool_calls := None;
             rs_output_text := "It is sunny.";
             rs_usage_total := Some 42 |} |}.

Definition float_zero : spec_float := S754_zero false.

(** A configuration of the examples: the model, the vision model and its
    detail level, the history size, the ceiling on consecutive tool calls
    and the protocol switch; the other keys are fixed. *)
Definition configure (m vision detail : string) (history_size : Z) (ceiling : option Z)
    (responses_api : option bool) : Config :=
  {| model := m;
     vision_model := vision;
     vision_detail := detail;
     vision_max_tokens := 300;
     assistant_prompt := "You are a helpful assistant.";
     max_tokens := 4096;
     max_history_size := history_size;
     max_conversation_age_minutes := 180;
     n_choices := 1;
     temperature := float_one;
     presence_penalty := float_zero;
     frequency_penalty := float_zero;
     bot_language := "en";
     show_usage := false;
     enable_functions := Some true;
     functions_max_consecutive_calls := ceiling;
     show_plugins_used := Some false;
     use_responses_api := responses_api;
     enable_web_search := None |}.

Definition demo_cfg : Config := configure "gpt-4o" "gpt-4o" "high" 15 (Some 10) None.

Definition with_model (m : string) (c : Config) : Config :=
  configure m (vision_model c) (vision_detail c) (max_history_size c)
    (functions_max_consecutive_calls c) (use_responses_api c).

Definition with_vision (m detail : string) (c : Config) : Config :=
  configure (model c) m detail (max_history_size c)
    (functions_max_consecutive_calls c) (use_responses_api c).

Definition with_max_history_size (n : Z) (c : Config) : Config :=
  configure (model c) (vision_model c) (vision_detail c) n
    (functions_max_consecutive_calls c) (use_responses_api c).

Definition with_ceiling (ceiling : Z) (c : Config) : Config :=
  configure (model c) (vision_model c) (vision_detail c) (max_history_size c)
    (Some ceiling) (use_responses_api c).

Definition with_responses_api (c : Config) : Config :=
  configure (model c) (vision_model c) (vision_detail c) (max_history_size c)
    (functions_max_consecutive_calls c) (Some true).

Definition empty_helper : Helper :=
  {| conversations := ∅; conversations_vision := ∅; last_updated := ∅; trace := [] |}.

(** A store in which conversation 7 holds the priming message and the user
    turn ["Hi"]. *)
Definition two_turns : list Message :=
  [mk_message "system" (CStr "You are a helpful assistant."); mk_message "user" (CStr "Hi")].

Definition helper_two_turns : Helper :=
  {| conversations := {[ 7 := two_turns ]};
     conversations_vision := {[ 7 := false ]};
     last_updated := ∅;
     trace := [] |}.

(** The same store after the model has answered ["Hello"]. *)
Definition three_turns : list Message :=
  two_turns ++ [mk_message "assistant" (CStr "Hello")].

Definition helper_three_turns : Helper :=
  {| conversations := {[ 7 := three_turns ]};
     conversations_vision := {[ 7 := false ]};
     last_updated := ∅;
     trace := [] |}.

(** ** Translations (lines 73-95)

    The module loads [translations.json] into the dictionary
    [translations], keyed by the language code and then by the text key. *)

Module Translations.

Definition table : Type := gmap string (gmap string string).

(** [translations[bot_language][key]] *)
Definition lookup_text (translations : table) (bot_language key : string) : res string :=
  match translations !! bot_language with
  | Some texts =>
      match texts !! key with
      | Some text => Ok text
      | None => Raise KeyError
      end
  | None => Raise KeyError
  end.

(** [localized_text] (lines 80-95).  The handler of the [KeyError] reads
    [translations['en']] outside any [try]. *)
Definition localized_text (translations : table) (key bot_language : string) : res string :=
  match lookup_text translations bot_language key with
  | Ok text => Ok text
  | Raise KeyError =>
      match translations !! "en" with
      | Some en =>
          match en !! key with
          | Some text => Ok text
          | None => Ok key
          end
      | None => Raise KeyError
      end
  | Raise e => Raise e
  end.

End Translations.

(** ** Reading a run *)

(** The function call that the first choice of a chunk carries. *)
Definition chunk_call (item : list ChunkChoice) : option FunctionCall :=
  match item with
  | first_choice :: _ => delta_function_call first_choice
  | [] => None
  end.

(** The reason with which the first choice of a chunk finishes. *)
Definition chunk_finish (item : list ChunkChoice) : option string :=
  match item with
  | first_choice :: _ => finish_reason first_choice
  | [] => None
  end.

(** The banner that the request stage puts before the text of an error. *)
Definition error_banner (E : Env) (cfg : Config) (key : string) (e : exn) : string :=
  warning_sign +:+ " _" +:+ localized_text E key (bot_language cfg) +:+ "._ "
  +:+ warning_sign +:+ nl +:+ py_str_exn E e.

(** The exceptions that leave the request stage: a rate-limit error as it
    is, and any other one as an [Exception] that carries a banner. *)
Definition request_error (E : Env) (cfg : Config) (e : exn) : Prop :=
  (exists msg, e = RateLimitError msg)
  \/ (exists key cause, e = Exception (error_banner E cfg key cause)).

(** The usage line of an answer. *)
Definition usage_line (E : Env) (cfg : Config) (usage_total : Z) : string :=
  usage_rule +:+ money_bag +:+ " " +:+ py_str_int E usage_total +:+ " "
  +:+ localized_text E "stats_tokens" (bot_language cfg).



(** The response [r] is what the upstream has answered to the last call
    that the helper has made. *)
Definition answered (E : Env) (st : Helper) (r : Response) : Prop :=
  exists calls rq,
    trace st = calls ++ [EvChat rq] /\ chat_completions_create E calls rq = Ok r.

(** The chunks [chunks] are what is left to read of the stream that the
    upstream has answered to the last call that the helper has made. *)
Definition streamed (E : Env) (st : Helper) (chunks : list (list ChunkChoice)) : Prop :=
  exists calls rq read,
    trace st = calls ++ [EvChat rq]
    /\ chat_completions_create E calls rq = Ok (RStream (read ++ chunks)).

(** A plugin invocation that returned a direct result. *)
Definition is_direct_event (E : Env) (ev : Event) : bool :=
  match ev with
  | EvPlugin _ _ (Ok function_response) => is_direct_result E (HPlugin function_response)
  | _ => false
  end.

(** ** Invariants of a run *)

(** A run whose final state stands in the relation [R] to its initial
    state. *)
Definition keeps {A} (R : Helper -> Helper -> Prop) (c : M A) (st : Helper) : Prop :=
  R st (fst (c st)).

(** The two stores agree on every chat other than [chat_id]: the same
    conversation, the same vision flag, the same time stamp. *)
Definition same_elsewhere (chat_id : Z) (st st' : Helper) : Prop :=
  forall other, other <> chat_id ->
    conversations st' !! other = conversations st !! other
    /\ conversations_vision st' !! other = conversations_vision st !! other
    /\ last_updated st' !! other = last_updated st !! other.

(** Every chat that has a conversation has a vision flag. *)
Definition flagged (st : Helper) : Prop :=
  forall id, is_Some (conversations st !! id) -> is_Some (conversations_vision st !! id).

Definition stays_flagged (st st' : Helper) : Prop := flagged st -> flagged st'.

(** Whatever conversation of [chat_id] the first store holds, the second
    holds it with function results appended, and nothing else. *)
Definition grows_by_function_results (chat_id : Z) (st st' : Helper) : Prop :=
  forall h,
    conversations st !! chat_id = Some h ->
    exists added,
      conversations st' !! chat_id = Some (h ++ added)
      /\ Forall (fun m => is_function_result m = true) added.

(** The conversation of [chat_id] is the same in the two stores. *)
Definition same_conversation (chat_id : Z) (st st' : Helper) : Prop :=
  conversations st' !! chat_id = conversations st !! chat_id.

(** What the plugins do with the helper they are handed: whatever the
    call, and whether it returns or raises, the helper that the plugin
    leaves stands in the relation [R] to the one it was given. *)
Definition plugins_keep (E : Env) (R : Helper -> Helper -> Prop) : Prop :=
  forall function_name arguments st,
    R st (fst (call_function E st function_name arguments)).

(** ** The start of a request *)

(** Whether a request finds no conversation, or one that is older than
    [max_conversation_age_minutes] (line 340). *)
Definition starts_afresh (cfg : Config) (now chat_id : Z) (st : Helper) : bool :=
  match conversations st !! chat_id with
  | None => true
  | Some _ =>
      match last_updated st !! chat_id with
      | None => false
      | Some last => last <? now - max_conversation_age_minutes cfg * 60000000
      end
  end.

(** The messages that the user turn of a request is appended to: the
    priming message alone when the request starts afresh, the stored
    conversation otherwise. *)
Definition starting_history (cfg : Config) (now chat_id : Z) (st : Helper) : list Message :=
  if starts_afresh cfg now chat_id st
  then [mk_message (priming_role cfg) (CStr (assistant_prompt cfg))]
  else match conversations st !! chat_id with
       | Some h => h
       | None => []
       end.

(** The vision flag that the request works with. *)
Definition starting_vision (cfg : Config) (now chat_id : Z) (st : Helper) : option bool :=
  if starts_afresh cfg now chat_id st then Some false
  else conversations_vision st !! chat_id.

(** The helper after lines 340-345: the conversation settled, the time
    stamped, the user turn appended. *)
Definition prepared (cfg : Config) (now chat_id : Z) (query : string) (st : Helper)
  : Helper :=
  let st1 := if starts_afresh cfg now chat_id st
             then fst (reset_chat_history cfg chat_id (CStr "") st)
             else st in
  let st2 := fst (set_last_updated chat_id now st1) in
  fst (add_to_history chat_id "user" (CStr query) st2).

(** The arguments of the chat completion of lines 365-382. *)
Definition legacy_request (E : Env) (cfg : Config) (vision : bool) (h : list Message)
    (stream enable : bool) : ChatRequest :=
  let with_functions := enable && negb vision && (len (get_functions_specs E) >? 0) in
  {| rq_model := if negb vision then model cfg else vision_model cfg;
     rq_messages := h;
     rq_temperature := Some (temperature cfg);
     rq_n := Some (n_choices cfg);
     rq_max_tokens :=
       Some (if py_in (model cfg) O_MODELS then "max_completion_tokens" else "max_tokens",
             max_tokens cfg);
     rq_presence_penalty := Some (presence_penalty cfg);
     rq_frequency_penalty := Some (frequency_penalty cfg);
     rq_stream := stream;
     rq_functions := if with_functions then Some (get_functions_specs E) else None;
     rq_function_call := if with_functions then Some "auto" else None |}.

(** The exception that the handlers of lines 482-489 raise for [e]. *)
Definition wrapped_error (E : Env) (cfg : Config) (e : exn) : exn :=
  match e with
  | RateLimitError _ => e
  | BadRequestError _ => Exception (error_banner E cfg "openai_invalid" e)
  | _ => Exception (error_banner E cfg "error" e)
  end.

(** The history with the user turn is within the token budget and the size
    limit (lines 348-352). *)
Definition within_budget (E : Env) (cfg : Config) (h : list Message) : Prop :=
  exists t limit,
    count_tokens E cfg h = Ok t
    /\ max_model_tokens cfg = Ok limit
    /\ t + max_tokens cfg <= limit
    /\ len h <= max_history_size cfg.

(** ** Generators

    An async generator is modelled by what it has yielded, in order, when
    it ends, and by the way it ends.  The consumer is assumed not to touch
    the helper between two yields. *)

Definition Yield : Type := PyVal * PyVal.

Definition G (A : Type) : Type := Helper -> Helper * (list Yield * outcome A).

Definition g_ret {A} (a : A) : G A := fun st => (st, ([], Returns a)).

(** An awaited method inside a generator. *)
Definition g_lift {A} (c : M A) : G A :=
  fun st => let '(st', out) := c st in (st', ([], out)).

(** [yield y] *)
Definition g_yield (y : Yield) : G unit := fun st => (st, ([y], Returns tt)).

Definition g_bind {A B} (g : G A) (k : A -> G B) : G B :=
  fun st =>
    match g st with
    | (st', (ys, Returns a)) =>
        let '(st'', (ys', out)) := k a st' in (st'', (ys ++ ys', out))
    | (st', (ys, Raises e)) => (st', (ys, Raises e))
    | (st', (ys, OutOfFuel)) => (st', (ys, OutOfFuel))
    end.

(** [try: g except Exception as e: h e] around yields: what was yielded
    before the exception stays yielded. *)
Definition g_try {A} (g : G A) (h : exn -> G A) : G A :=
  fun st =>
    match g st with
    | (st', (ys, Raises e)) =>
        let '(st'', (ys', out)) := h e st' in (st'', (ys ++ ys', out))
    | run => run
    end.

Declare Scope gen_scope.
Delimit Scope gen_scope with gen.
Notation "'do' x '<-' c ';' k" := (g_bind c (fun x => k))
  (at level 10, x name, c at level 100, k at level 200) : gen_scope.
Notation "c ';;' k" := (g_bind c (fun _ => k))
  (at level 100, k at level 200, right associativity) : gen_scope.

(** An event of a Responses stream: [getattr(event, 'type', None)] and
    [getattr(event, 'delta', '')]. *)
Record StreamEvent : Type := {
  se_type : option string;
  se_delta : option string
}.

(** What [client.responses.stream] delivers: the events that the iteration
    receives, and then either the total usage of the final response (when
    it reports one) or the exception that ended the stream, be it raised by
    the iteration or by [get_final_response]. *)
Definition StreamRun : Type := list StreamEvent * res (option Z).

Section Streaming.

Context (E : Env) (cfg : Config).

(** The collaborator [client.responses.stream]; it raises at once when the
    stream cannot be opened. *)
Context (responses_stream : list Event -> ResponsesRequest -> res StreamRun).

(** [async with self.client.responses.stream(...) as stream]; the request
    has the arguments of [responses.create] and is logged like one. *)
Definition upstream_stream (rq : ResponsesRequest) : M StreamRun :=
  fun st => (log_event (EvResponses rq) st, outcome_of_res (responses_stream (trace st) rq)).

(** The status of a yield that is not the last one. *)
Definition not_finished : PyVal := VStr "not_finished".

(** [async for chunk in response] (lines 224-230); a choice of a chunk
    carries its delta. *)
Fixpoint stream_chunks (chunks : list (list ChunkChoice)) (answer : string) : G string :=
  match chunks with
  | [] => g_ret answer
  | chunk :: rest =>
      match chunk with
      | [] => stream_chunks rest answer
      | first_choice :: _ =>
          match delta_content first_choice with
          | Some content =>
              if String.eqb content "" then stream_chunks rest answer
              else
                let answer := answer +:+ content in
                (g_yield (VStr answer, not_finished);;
                 stream_chunks rest answer)%gen
          | None => stream_chunks rest answer
          end
      end
  end.

(** [async for event in stream] (lines 301-310). *)
Fixpoint stream_events (events : list StreamEvent) (answer : string) : G string :=
  match events with
  | [] => g_ret answer
  | event :: rest =>
      match se_type event with
      | Some et =>
          if String.eqb et "response.output_text.delta" then
            match se_delta event with
            | Some delta =>
                if String.eqb delta "" then stream_events rest answer
                else
                  let answer := answer +:+ delta in
                  (g_yield (VStr answer, not_finished);;
                   stream_events rest answer)%gen
            | None => stream_events rest answer
            end
          else stream_events rest answer
      | None => stream_events rest answer
      end
  end.

(** The formatting guard of the streaming path (lines 287-291); its first
    sentence is not the one of the other path. *)
Definition formatting_text_stream : string :=
  "When using web search or tools, format strictly for Telegram: NO Markdown or HTML. "
  +:+ "Return plain text only. Do not use *, _, `, [], (), or any markup. "
  +:+ "If you must show a URL, print the raw URL.".

(** The closing lines of the answer on the legacy streaming path (lines
    235-242). *)
Definition stream_footer (answer tokens_used : string) (show_plugins : bool)
    (plugins_used : list string) : string :=
  if show_usage cfg then
    answer +:+ usage_rule +:+ money_bag +:+ " " +:+ tokens_used +:+ " "
    +:+ localized_text E "stats_tokens" (bot_language cfg)
    +:+ (if show_plugins then nl +:+ plugins_footer E plugins_used else "")
  else if show_plugins then answer +:+ usage_rule +:+ plugins_footer E plugins_used
  else answer.

(** The body of the [try] of lines 284-319: the stream is opened, its
    events are read, and the answer is stored and yielded. *)
Definition responses_stream_attempt (chat_id : Z) (use_web_search : bool)
    (input_messages : list RMessage) (tools : list Tool) : G unit :=
  (let input_messages :=
     if use_web_search then
       {| rm_role := "system";
          rm_content := [BText "input_text" formatting_text_stream] |}
       :: input_messages
     else input_messages in
   do streamed <- g_lift (upstream_stream
                            {| rr_model := model cfg;
                               rr_input := input_messages;
                               rr_temperature := temperature cfg;
                               rr_max_output_tokens := max_tokens cfg;
                               rr_tools := Some tools |});
   let '(events, final) := streamed in
   do answer <- stream_events events "";
   do total <- g_lift (lift final);
   let answer := py_strip E answer in
   g_lift (add_to_history chat_id "assistant" (CStr answer));;
   do tokens_used <- g_lift (match total with
                             | Some tokens_used => ret tokens_used
                             | None =>
                                 (do h <- history chat_id;
                                  lift (count_tokens E cfg h))%helper
                             end);
   let answer :=
     if show_usage cfg
     then answer +:+ usage_rule +:+ money_bag +:+ " " +:+ py_str_int E tokens_used
          +:+ " " +:+ localized_text E "stats_tokens" (bot_language cfg)
     else answer in
   g_yield (VStr answer, VStr (py_str_int E tokens_used)))%gen.

(** [get_chat_response_stream] (lines 207-323); [now] is the reading of the
    clock by the request, [now_fallback] the one by the fallback. *)
Definition get_chat_response_stream (fuel : nat) (now now_fallback : Z) (chat_id : Z)
    (query : string) : G unit :=
  if negb (cfg_get (use_responses_api cfg) false) then
    (do response <- g_lift (with_retry
                              (common_get_chat_response E cfg fuel now chat_id query true));
     do enable <- g_lift (lift (cfg_item (enable_functions cfg)));
     do resolve <- g_lift (if enable then
                             (do vision <- vision_flag chat_id; ret (negb vision))%helper
                           else ret false);
     do r <- g_lift (match response with
                     | CRResponse r => ret r
                     | CRAnswer _ _ => raise TypeError
                     end);
     do handled <- g_lift (if resolve
                           then handle_function_call E cfg fuel chat_id r true 0 []
                           else ret (HResponse r, []));
     let '(response, plugins_used) := handled in
     if resolve && is_direct_result E response then
       g_yield (handled_value response, VStr "0")
     else
       match response with
       | HResponse (RStream chunks) =>
           do answer <- stream_chunks chunks "";
           let answer := py_strip E answer in
           g_lift (add_to_history chat_id "assistant" (CStr answer));;
           do h <- g_lift (history chat_id);
           do tokens <- g_lift (lift (count_tokens E cfg h));
           let tokens_used := py_str_int E tokens in
           do show_plugins <- g_lift (if len plugins_used >? 0
                                      then lift (cfg_item (show_plugins_used cfg))
                                      else ret false);
           g_yield (VStr (stream_footer answer tokens_used show_plugins plugins_used),
                    VStr tokens_used)
       | HResponse (RCompletion _) => g_lift (raise TypeError)
       | HPlugin _ => g_lift (raise TypeError)
       end)%gen
  else
    (do st <- g_lift get_state;
     do stale <- g_lift (match conversations st !! chat_id with
                         | None => ret true
                         | Some _ => max_age_reached cfg now chat_id
                         end);
     g_lift (if stale then reset_chat_history cfg chat_id (CStr "") else ret tt);;
     g_lift (set_last_updated chat_id now);;
     g_lift (add_to_history chat_id "user" (CStr query));;
     g_lift (try_except (summarise_if_too_long E cfg chat_id query) (fun _ => ret tt));;
     do h <- g_lift (history chat_id);
     let input_messages := responses_input_stream h in
     do st <- g_lift get_state;
     let use_web_search :=
       cfg_get (enable_web_search cfg) false
       && negb (cfg_get (conversations_vision st !! chat_id) false) in
     let tools := if use_web_search then [ToolWebSearch] else [] in
     g_try
       (responses_stream_attempt chat_id use_web_search input_messages tools)
       (fun _ =>
          do full <- g_lift (get_chat_response E cfg fuel now_fallback chat_id query);
          g_yield full))%gen.

End Streaming.

(** The texts that a list of chunks adds to the answer: the non-empty
    contents of the first choices. *)
Definition chunk_text (chunk : list ChunkChoice) : option string :=
  match chunk with
  | first_choice :: _ =>
      match delta_content first_choice with
      | Some content => if String.eqb content "" then None else Some content
      | None => None
      end
  | [] => None
  end.

(** The text that an event of a Responses stream adds to the answer. *)
Definition event_text (event : StreamEvent) : option string :=
  match se_type event with
  | Some et =>
      if String.eqb et "response.output_text.delta" then
        match se_delta event with
        | Some delta => if String.eqb delta "" then None else Some delta
        | None => None
        end
      else None
  | None => None
  end.

(** The texts shown while the pieces arrive: each one is the text before it
    with one more piece. *)
Fixpoint partial_answers (pieces : list string) (answer : string) : list string :=
  match pieces with
  | [] => []
  | piece :: rest => (answer +:+ piece) :: partial_answers rest (answer +:+ piece)
  end.

(** The yields of the partial answers. *)
Definition partial_yields (pieces : list string) (answer : string) : list Yield :=
  map (fun text => (VStr text, VStr "not_finished")) (partial_answers pieces answer).

(** All the pieces in one text, after [answer]. *)
Definition joined (pieces : list string) (answer : string) : string :=
  fold_left (fun text piece => text +:+ piece) pieces answer.

(** A generator whose final state stands in the relation [R] to its
    initial state. *)
Definition gkeeps {A} (R : Helper -> Helper -> Prop) (g : G A) (st : Helper) : Prop :=
  R st (fst (g st)).

(** ** A streaming upstream for the examples *)

Definition text_chunk (content : string) : list ChunkChoice :=
  [ {| delta_content := Some content; delta_function_call := None; finish_reason := None |} ].

(** An upstream that streams its answer in four chunks, one of them
    without text. *)
Definition streaming_chat (tr : list Event) (rq : ChatRequest) : res Response :=
  Ok (RStream [text_chunk "Dear user, "; text_chunk "it is "; text_chunk "";
               text_chunk "sunny."]).

Definition streaming_env : Env :=
  {| encoding_for_model := fun _ => None;
     get_encoding := fun _ => char_encoding;
     decode_image := fun url => Ok url;
     image_size := demo_image_size;
     localized_text := fun key _ => key;
     py_str_int := decimal;
     py_str_exn := fun _ => "error";
     py_str_conversation := fun _ => "conversation";
     py_strip := fun s => s;
     is_direct_result := fun h => match h with
                                  | HPlugin s => String.eqb s "direct"
                                  | HResponse _ => false
                                  end;
     get_functions_specs := [weather_spec];
     get_plugin_source_name := fun s => s;
     call_function := fun st _ _ => (st, Ok "direct");
     chat_completions_create := streaming_chat;
     responses_create := fun _ _ => Raise (UpstreamError "unavailable");
     responses_submit_tool_outputs := fun _ _ _ => Raise (UpstreamError "unavailable") |}.

Definition text_event (delta : string) : StreamEvent :=
  {| se_type := Some "response.output_text.delta"; se_delta := Some delta |}.

(** A Responses stream that delivers two pieces of text around a refusal
    event and reports its usage. *)
Definition demo_stream (tr : list Event) (rq : ResponsesRequest) : res StreamRun :=
  Ok ([text_event "It is ";
       {| se_type := Some "response.refusal.delta"; se_delta := Some "no" |};
       text_event "sunny."],
      Ok (Some 42)).

(** A Responses stream that breaks after its first piece. *)
Definition broken_stream (tr : list Event) (rq : ResponsesRequest) : res StreamRun :=
  Ok ([text_event "It is "], Raise (UpstreamError "connection lost")).

(** The collaborators [E] with another plugin manager. *)
Definition with_call_function
    (call : Helper -> string -> string -> Helper * res string) (E : Env) : Env :=
  {| encoding_for_model := encoding_for_model E;
     get_encoding := get_encoding E;
     decode_image := decode_image E;
     image_size := image_size E;
     localized_text := localized_text E;
     py_str_int := py_str_int E;
     py_str_exn := py_str_exn E;
     py_str_conversation := py_str_conversation E;
     py_strip := py_strip E;
     is_direct_result := is_direct_result E;
     get_functions_specs := get_functions_specs E;
     get_plugin_source_name := get_plugin_source_name E;
     call_function := call;
     chat_completions_create := chat_completions_create E;
     responses_create := responses_create E;
     responses_submit_tool_outputs := responses_submit_tool_outputs E |}.

(** A plugin that empties the three dictionaries of the helper it is
    handed before it answers with a direct result. *)
Definition meddling_env : Env :=
  with_call_function (fun _ _ _ => (empty_helper, Ok "direct")) (scripted_env "direct").

(** An upstream that streams the request for the weather tool: the name
    and the arguments of the call in two chunks, then the chunk that
    finishes with ['function_call'].  The plugin answers with a direct
    result. *)
Definition call_chunk (name arguments : option string) : list ChunkChoice :=
  [ {| delta_content := None;
       delta_function_call := Some {| fc_name := name; fc_arguments := arguments |};
       finish_reason := None |} ].

Definition streamed_tool_request : Response :=
  RStream [call_chunk (Some "weather") None; call_chunk None (Some "{}");
           [ {| delta_content := None; delta_function_call := None;
                finish_reason := Some "function_call" |} ]].

Definition streaming_tool_env : Env :=
  let E := scripted_env "direct" in
  {| encoding_for_model := encoding_for_model E;
     get_encoding := get_encoding E;
     decode_image := decode_image E;
     image_size := image_size E;
     localized_text := localized_text E;
     py_str_int := py_str_int E;
     py_str_exn := py_str_exn E;
     py_str_conversation := py_str_conversation E;
     py_strip := py_strip E;
     is_direct_result := is_direct_result E;
     get_functions_specs := get_functions_specs E;
     get_plugin_source_name := get_plugin_source_name E;
     call_function := call_function E;
     chat_completions_create := fun _ _ => Ok streamed_tool_request;
     responses_create := responses_create E;
     responses_submit_tool_outputs := responses_submit_tool_outputs E |}.



(** A chat that has a conversation still has one. *)
Definition keeps_conversation (chat_id : Z) (st st' : Helper) : Prop :=
  is_Some (conversations st !! chat_id) -> is_Some (conversations st' !! chat_id).

(** ** Vision (lines 607-853) *)

(** [l[-1]] *)
Definition py_last {A} (l : list A) : res A :=
  match last l with
  | Some x => Ok x
  | None => Raise IndexError
  end.

(** [self.conversations_vision[chat_id] = b]. *)
Definition set_vision_flag (chat_id : Z) (b : bool) : M unit :=
  fun st =>
    ({| conversations := conversations st;
        conversations_vision := <[chat_id := b]> (conversations_vision st);
        last_updated := last_updated st;
        trace := trace st |}, Returns tt).

(** The keys of [self.config] that only the vision methods read. *)
Record VisionConfig : Type := {
  enable_vision_follow_up_questions : option bool;
  vision_prompt : option string
}.

(** What [__common_get_chat_response_vision] returns: the response of the
    legacy API, or the one of the Responses API. *)
Inductive VisionResult : Type :=
| VLegacy (r : Response)
| VResponses (r : RResponse).

(** The loop of lines 631-634: the text of the first text part. *)
Fixpoint first_text (content : list Part) : option string :=
  match content with
  | [] => None
  | PText text :: _ => Some text
  | _ :: rest => first_text rest
  end.

(** The conversion of lines 673-687: every text is an input text, whatever
    the role, and no message is left out. *)
Definition vision_responses_message (m : Message) : RMessage :=
  {| rm_role := msg_role m;
     rm_content :=
       match msg_content m with
       | CStr c => [BText "input_text" c]
       | CParts c =>
           map (fun part =>
                  match part with
                  | PText text => BText "input_text" text
                  | PImage url detail => BImage url detail
                  | POther _ _ => BPass part
                  end) c
       end |}.

(** The conversion of lines 806-811, which hands a content list on as it
    is. *)
Definition vision_stream_message (m : Message) : RMessage :=
  {| rm_role := msg_role m;
     rm_content :=
       match msg_content m with
       | CStr c => [BText "input_text" c]
       | CParts c => map BPass c
       end |}.

Section Vision.

Context (E : Env) (cfg : Config) (vcfg : VisionConfig).

(** The collaborators of the vision methods: [encode_image] of the utility
    module, [client.responses.stream], and the exception with which the
    interpreter answers the reading of a local variable that has not been
    assigned. *)
Context {FileObj : Type} (encode_image : list Event -> FileObj -> res string).
Context (responses_stream : list Event -> ResponsesRequest -> res StreamRun).
Context (unbound_local_error : string -> exn).

(** [encode_image(fileobj)] *)
Definition encode (fileobj : FileObj) : M string :=
  fun st => (st, outcome_of_res (encode_image (trace st) fileobj)).

(** The budget check of [__common_get_chat_response_vision] (lines 638-654),
    which puts the last message back after the summary. *)
Definition summarise_if_too_long_vision (chat_id : Z) : M unit :=
  (do h <- history chat_id;
   do token_count <- lift (count_tokens E cfg h);
   do limit <- lift (max_model_tokens cfg);
   let exceeded_max_tokens := token_count + max_tokens cfg >? limit in
   do h <- history chat_id;
   let exceeded_max_history_size := len h >? max_history_size cfg in
   if exceeded_max_tokens || exceeded_max_history_size then
     try_except
       (do h <- history chat_id;
        do last <- lift (py_last h);
        do h <- history chat_id;
        do summary <- summarise E cfg (py_slice_to (-1) h);
        do h <- history chat_id;
        do first <- lift (py_first h);
        reset_chat_history cfg chat_id (msg_content first);;
        add_to_history chat_id "assistant" (CStr summary);;
        do h <- history chat_id;
        set_history chat_id (h ++ [last]))
       (fun _ =>
          do h <- history chat_id;
          set_history chat_id (py_slice_from (- max_history_size cfg) h))
   else ret tt)%helper.

(** [__common_get_chat_response_vision] (lines 613-702), without its
    decorator; [now] is the reading of the clock. *)
Definition common_get_chat_response_vision (now : Z) (chat_id : Z) (content : list Part)
    (stream : bool) : M VisionResult :=
  wrap_errors E cfg
    (do st <- get_state;
     do stale <- match conversations st !! chat_id with
                 | None => ret true
                 | Some _ => max_age_reached cfg now chat_id
                 end;
     (if stale then reset_chat_history cfg chat_id (CStr "") else ret tt);;
     set_last_updated chat_id now;;
     do follow_up <- lift (cfg_item (enable_vision_follow_up_questions vcfg));
     (if follow_up then
        set_vision_flag chat_id true;;
        add_to_history chat_id "user" (CParts content)
      else
        do query <- match first_text content with
                    | Some text => ret text
                    | None => raise (unbound_local_error "query")
                    end;
        add_to_history chat_id "user" (CStr query));;
     summarise_if_too_long_vision chat_id;;
     let message := mk_message "user" (CParts content) in
     if negb (cfg_get (use_responses_api cfg) false) then
       do h <- history chat_id;
       do response <- upstream_chat E
            {| rq_model := vision_model cfg;
               rq_messages := py_slice_to (-1) h ++ [message];
               rq_temperature := Some (temperature cfg);
               rq_n := Some 1;
               rq_max_tokens := Some ("max_tokens", vision_max_tokens cfg);
               rq_presence_penalty := Some (presence_penalty cfg);
               rq_frequency_penalty := Some (frequency_penalty cfg);
               rq_stream := stream;
               rq_functions := None;
               rq_function_call := None |};
       ret (VLegacy response)
     else
       do h <- history chat_id;
       do response <- upstream_responses E
            {| rr_model := vision_model cfg;
               rr_input := map vision_responses_message (py_slice_to (-1) h ++ [message]);
               rr_temperature := temperature cfg;
               rr_max_output_tokens := vision_max_tokens cfg;
               rr_tools := None |};
       ret (VResponses response))%helper.

(** Lines 709-713 and 770-774: the image, the prompt and the content list
    of the request. *)
Definition vision_content (fileobj : FileObj) (prompt : option string)
  : M (string * string * list Part) :=
  (do image <- encode fileobj;
   do prompt <- match prompt with
                | None => lift (cfg_item (vision_prompt vcfg))
                | Some prompt => ret prompt
                end;
   ret (image, prompt, [PText prompt; PImage image (vision_detail cfg)]))%helper.

(** [getattr(response, 'usage', None)] with its total, for either kind of
    response; a stream has none. *)
Definition usage_of (response : VisionResult) : option Z :=
  match response with
  | VLegacy (RCompletion c) => Some (total_tokens (usage c))
  | VLegacy (RStream _) => None
  | VResponses resp => rs_usage_total resp
  end.

(** [response.output_text], taken as empty when the response has none. *)
Definition output_text_of (response : VisionResult) : string :=
  match response with
  | VLegacy _ => ""
  | VResponses resp => rs_output_text resp
  end.

(** [interpret_image] (lines 705-764); [prompt] defaults to [None]. *)
Definition interpret_image (now : Z) (chat_id : Z) (fileobj : FileObj)
    (prompt : option string) : M (PyVal * PyVal) :=
  (do prepared <- vision_content fileobj prompt;
   let '(image, prompt, content) := prepared in
   do response <- with_retry (common_get_chat_response_vision now chat_id content false);
   let bot_language := bot_language cfg in
   if negb (cfg_get (use_responses_api cfg) false) then
     match response with
     | VLegacy (RCompletion c) =>
         do answer <-
           (if (len (choices c) >? 1) && (n_choices cfg >? 1) then
              render_choices E chat_id (choices c) 0 ""
            else
              do first <- lift (py_first (choices c));
              let answer := py_strip E (cm_content first) in
              add_to_history chat_id "assistant" (CStr answer);;
              ret answer);
         let answer :=
           if show_usage cfg then
             answer +:+ usage_rule +:+ money_bag +:+ " "
             +:+ py_str_int E (total_tokens (usage c)) +:+ " "
             +:+ localized_text E "stats_tokens" bot_language
             +:+ " (" +:+ py_str_int E (prompt_tokens (usage c)) +:+ " "
             +:+ localized_text E "prompt" bot_language +:+ ","
             +:+ " " +:+ py_str_int E (completion_tokens (usage c)) +:+ " "
             +:+ localized_text E "completion" bot_language +:+ ")"
           else answer in
         ret (VStr answer, VInt (total_tokens (usage c)))
     | VLegacy (RStream _) => raise AttributeError
     | VResponses _ => raise AttributeError
     end
   else
     let answer :=
       if String.eqb (output_text_of response) "" then ""
       else py_strip E (output_text_of response) in
     (if String.eqb answer "" then ret tt
      else add_to_history chat_id "assistant" (CStr answer));;
     do answer <-
       (if show_usage cfg then
          do usage_total <- match usage_of response with
                            | Some total => ret total
                            | None => do h <- history chat_id; lift (count_tokens E cfg h)
                            end;
          ret (answer +:+ usage_rule +:+ money_bag +:+ " " +:+ py_str_int E usage_total
               +:+ " " +:+ localized_text E "stats_tokens" bot_language)
        else ret answer);
     match usage_of response with
     | Some total => ret (VStr answer, VInt total)
     | None => raise AttributeError
     end)%helper.

(** The body of the [try] of lines 819-838; it leaves the answer and the
    tokens used to the lines after the branch. *)
Definition vision_stream_attempt (chat_id : Z) (input_messages : list RMessage)
  : G (string * PyVal) :=
  (do streamed <- g_lift (upstream_stream responses_stream
                            {| rr_model := vision_model cfg;
                               rr_input := input_messages;
                               rr_temperature := temperature cfg;
                               rr_max_output_tokens := vision_max_tokens cfg;
                               rr_tools := None |});
   let '(events, final) := streamed in
   do answer <- stream_events events "";
   do total <- g_lift (lift final);
   let answer := py_strip E answer in
   g_lift (add_to_history chat_id "assistant" (CStr answer));;
   do tokens_used <- g_lift (match total with
                             | Some tokens_used => ret tokens_used
                             | None =>
                                 (do h <- history chat_id;
                                  lift (count_tokens E cfg h))%helper
                             end);
   let answer :=
     if show_usage cfg
     then answer +:+ usage_rule +:+ money_bag +:+ " " +:+ py_str_int E tokens_used
          +:+ " " +:+ localized_text E "stats_tokens" (bot_language cfg)
     else answer in
   g_yield (VStr answer, VStr (py_str_int E tokens_used));;
   g_ret (answer, VInt tokens_used))%gen.

(** The input of the vision stream (lines 805-816): the conversation, its
    last message replaced by the prompt and the image. *)
Definition vision_stream_input (h : list Message) (prompt_text image : string)
  : list RMessage :=
  py_slice_to (-1) (map vision_stream_message h)
  ++ [ {| rm_role := "user";
          rm_content := [BText "input_text" prompt_text;
                         BImage image (vision_detail cfg)] |} ].

(** [f"{tokens_used}"] for the string or the integer that the branch has
    left. *)
Definition format_tokens (tokens_used : PyVal) : string :=
  match tokens_used with
  | VStr s => s
  | VInt n => py_str_int E n
  | VResponse _ => ""
  end.

(** [interpret_image_stream] (lines 766-853).  The lines after the branch
    (846-853) run on every path: they read [answer] and [tokens_used],
    which the handler of line 839 has not assigned. *)
Definition interpret_image_stream (now now_fallback : Z) (chat_id : Z) (fileobj : FileObj)
    (prompt : option string) : G unit :=
  (do prepared <- g_lift (vision_content fileobj prompt);
   let '(image, prompt_text, content) := prepared in
   do response <- g_lift (with_retry
                            (common_get_chat_response_vision now chat_id content true));
   do locals <-
     (if negb (cfg_get (use_responses_api cfg) false) then
        match response with
        | VLegacy (RStream chunks) =>
            do answer <- stream_chunks chunks "";
            let answer := py_strip E answer in
            g_lift (add_to_history chat_id "assistant" (CStr answer));;
            do h <- g_lift (history chat_id);
            do tokens <- g_lift (lift (count_tokens E cfg h));
            let tokens_used := py_str_int E tokens in
            let answer :=
              if show_usage cfg
              then answer +:+ usage_rule +:+ money_bag +:+ " " +:+ tokens_used
                   +:+ " " +:+ localized_text E "stats_tokens" (bot_language cfg)
              else answer in
            g_yield (VStr answer, VStr tokens_used);;
            g_ret (Some (answer, VStr tokens_used))
        | VLegacy (RCompletion _) => g_lift (raise TypeError)
        | VResponses _ => g_lift (raise TypeError)
        end
      else
        do h <- g_lift (history chat_id);
        let input_messages := vision_stream_input h prompt_text image in
        g_try
          (do left <- vision_stream_attempt chat_id input_messages;
           g_ret (Some left))
          (fun _ =>
             do full <- g_lift (interpret_image now_fallback chat_id fileobj
                                  (Some prompt_text));
             g_yield full;;
             g_ret None));
   match locals with
   | Some (answer, tokens_used) =>
       let answer :=
         if show_usage cfg
         then answer +:+ usage_rule +:+ money_bag +:+ " " +:+ format_tokens tokens_used
              +:+ " " +:+ localized_text E "stats_tokens" (bot_language cfg)
         else answer in
       g_yield (VStr answer, tokens_used)
   | None => g_lift (raise (unbound_local_error "tokens_used"))
   end)%gen.

End Vision.

(** The user turn that the vision request stores (lines 627-635). *)
Definition vision_turn (follow_up : bool) (content : list Part) (query : string) : Message :=
  mk_message "user" (if follow_up then CParts content else CStr query).

(** ** A vision world for the examples *)

Definition demo_vcfg : VisionConfig :=
  {| enable_vision_follow_up_questions := Some false;
     vision_prompt := Some "What is in this image" |}.

Definition with_follow_up (v : VisionConfig) : VisionConfig :=
  {| enable_vision_follow_up_questions := Some true;
     vision_prompt := vision_prompt v |}.

(** The file is its own encoding. *)
Definition demo_encode_image (tr : list Event) (fileobj : string) : res string :=
  Ok fileobj.

Definition demo_unbound_local_error (name : string) : exn :=
  Exception ("cannot access local variable '" +:+ name
             +:+ "' where it is not associated with a value").

(** An outcome other than a normal end. *)
Definition failed {A} (out : outcome A) : Prop :=
  match out with
  | Returns _ => False
  | _ => True
  end.

(** An upstream whose complete Responses request describes the image and
    reports its usage. *)
Definition vision_env : Env :=
  {| encoding_for_model := fun _ => None;
     get_encoding := fun _ => char_encoding;
     decode_image := fun url => Ok url;
     image_size := demo_image_size;
     localized_text := fun key _ => key;
     py_str_int := decimal;
     py_str_exn := fun _ => "error";
     py_str_conversation := fun _ => "conversation";
     py_strip := fun s => s;
     is_direct_result := fun h => match h with
                                  | HPlugin s => String.eqb s "direct"
                                  | HResponse _ => false
                                  end;
     get_functions_specs := [];
     get_plugin_source_name := fun s => s;
     call_function := fun st _ _ => (st, Ok "direct");
     chat_completions_create := fun _ _ => Ok (plain_answer "A square.");
     responses_create := fun _ _ =>
       Ok {| rs_id := "resp_1";
             rs_status := Some "completed";
             rs_tool_calls := None;
             rs_output_text := "A square.";
             rs_usage_total := Some 42 |};
     responses_submit_tool_outputs := fun _ _ _ => Raise (UpstreamError "unavailable") |}.

(** ** Images (lines 544-570) *)

(** The keys of [self.config] that [generate_image] reads. *)
Record ImageConfig : Type := {
  image_model : option string;
  image_quality : option string;
  image_style : option string;
  image_size_setting : option string
}.

(** Keyword arguments of [client.images.generate]. *)
Record ImageRequest : Type := {
  ir_prompt : string;
  ir_n : Z;
  ir_model : string;
  ir_quality : string;
  ir_style : string;
  ir_size : string
}.

Section Images.

Context (E : Env) (cfg : Config) (icfg : ImageConfig).

(** The collaborator [client.images.generate]; its answer is read as the
    URLs of [response.data]. *)
Context (images_generate : list Event -> ImageRequest -> res (list string)).

Definition upstream_images (rq : ImageRequest) : M (list string) :=
  fun st => (st, outcome_of_res (images_generate (trace st) rq)).

(** The text of the exception of lines 563-566. *)
Definition no_image_text : string :=
  warning_sign +:+ " _" +:+ localized_text E "error" (bot_language cfg) +:+ "._ "
  +:+ warning_sign +:+ nl +:+ localized_text E "try_again" (bot_language cfg) +:+ ".".

(** [generate_image] (lines 544-570).  The exception raised for an empty
    answer is raised inside the [try], whose handler catches it as well. *)
Definition generate_image (prompt : string) : M (string * string) :=
  try_except
    (do model <- lift (cfg_item (image_model icfg));
     do quality <- lift (cfg_item (image_quality icfg));
     do style <- lift (cfg_item (image_style icfg));
     do size <- lift (cfg_item (image_size_setting icfg));
     do data <- upstream_images
          {| ir_prompt := prompt;
             ir_n := 1;
             ir_model := model;
             ir_quality := quality;
             ir_style := style;
             ir_size := size |};
     match data with
     | [] => raise (Exception no_image_text)
     | url :: _ =>
         do size <- lift (cfg_item (image_size_setting icfg));
         ret (url, size)
     end)%helper
    (fun e => raise (Exception (error_banner E cfg "error" e))).

End Images.

Definition demo_icfg : ImageConfig :=
  {| image_model := Some "dall-e-2";
     image_quality := Some "standard";
     image_style := Some "vivid";
     image_size_setting := Some "512x512" |}.

(** An image service that is out of quota. *)
Definition limited_images (tr : list Event) (rq : ImageRequest) : res (list string) :=
  Raise (RateLimitError "quota").

(** * Properties *)

(** ** History store *)

Lemma py_in_In (x : string) (t : list string) : py_in x t = true <-> In x t.
Proof.
  unfold py_in. rewrite existsb_exists. split.
  - intros (y & Hy & Heq). apply String.eqb_eq in Heq. now subst.
  - intros H. exists x. split; [assumption | apply String.eqb_refl].
Qed.

Lemma py_in_app (x : string) (t u : list string) :
  py_in x (t ++ u) = py_in x t || py_in x u.
Proof. unfold py_in. apply existsb_app. Qed.

(** C2.  After [reset_chat_history] the conversation holds exactly one
    message; its role is ["assistant"] when the configured model is an
    O-family model and ["system"] otherwise; its content is the content
    passed when one is passed (the parameter differs from its default, the
    empty string) and the configured [assistant_prompt] otherwise; the
    vision flag of the conversation is [False].  The call always returns. *)
Theorem reset_chat_history_installs_priming (cfg : Config) (chat_id : Z) (content : Content)
    (st : Helper) :
  let st' := fst (reset_chat_history cfg chat_id content st) in
  snd (reset_chat_history cfg chat_id content st) = Returns tt
  /\ conversations st' !! chat_id
     = Some [ {| msg_role := if py_in (model cfg) O_MODELS then "assistant" else "system";
                 msg_name := None;
                 msg_content := match content with
                                | CStr "" => CStr (assistant_prompt cfg)
                                | _ => content
                                end |} ]
  /\ conversations_vision st' !! chat_id = Some false.
Proof.
  cbn. split; [reflexivity|]. split.
  - rewrite lookup_insert_eq. unfold mk_message, priming_role, priming_content.
    destruct content as [s|ps]; cbn; [|reflexivity].
    destruct s; reflexivity.
  - apply lookup_insert_eq.
Qed.

(** The estimate of a single text message, computed. *)
Lemma count_tokens_single_text (E : Env) (cfg : Config) (role text : string) :
  count_tokens E cfg [mk_message role (CStr text)]
  = if py_in (model cfg) GPT_ALL_MODELS then
      let encoding := match encoding_for_model E (model cfg) with
                      | Some encoding => encoding
                      | None => get_encoding E "o200k_base"
                      end in
      Ok (0 + 3 + len (encoding role) + len (encoding text) + 3)
    else
      Raise (NotImplementedError
               ("num_tokens_from_messages() is not implemented for model "
                +:+ model cfg +:+ ".")).
Proof.
  unfold count_tokens. destruct (py_in (model cfg) GPT_ALL_MODELS); reflexivity.
Qed.

(** C10.  For a chat id that the store does not hold yet,
    [get_conversation_stats] first creates the conversation with
    [reset_chat_history], so that it never fails with [KeyError]; its
    outcome is the message count 1 paired with the token estimate of the
    priming message alone (the estimate's error when the estimate raises);
    afterwards the store holds the conversation, made of the priming
    message, with the vision flag [False]. *)
Theorem get_conversation_stats_fresh (E : Env) (cfg : Config) (chat_id : Z) (st : Helper) :
  conversations st !! chat_id = None ->
  let priming := mk_message (priming_role cfg) (CStr (assistant_prompt cfg)) in
  let st' := fst (get_conversation_stats E cfg chat_id st) in
  let out := snd (get_conversation_stats E cfg chat_id st) in
  out = match count_tokens E cfg [priming] with
        | Ok tokens => Returns (1, tokens)
        | Raise e => Raises e
        end
  /\ out <> Raises KeyError
  /\ conversations st' !! chat_id = Some [priming]
  /\ conversations_vision st' !! chat_id = Some false.
Proof.
  intros Hnew priming.
  assert (Hrun : get_conversation_stats E cfg chat_id st
                 = (fst (reset_chat_history cfg chat_id (CStr "") st),
                    match count_tokens E cfg [priming] with
                    | Ok tokens => Returns (1, tokens)
                    | Raise e => Raises e
                    end)).
  { unfold get_conversation_stats, bind, get_state. rewrite Hnew.
    unfold reset_chat_history, history, lift. cbn.
    rewrite !lookup_insert_eq. cbn. rewrite !lookup_insert_eq. cbn.
    fold priming. destruct (count_tokens E cfg [priming]); reflexivity. }
  rewrite Hrun. cbn. split; [reflexivity|]. split.
  - unfold priming. rewrite count_tokens_single_text.
    destruct (py_in (model cfg) GPT_ALL_MODELS); discriminate.
  - split; apply lookup_insert_eq.
Qed.

(** A store without conversation 7 gives the count 1 and the estimate of the
    priming message. *)
Lemma get_conversation_stats_fresh_witness :
  conversations empty_helper !! 7 = None
  /\ snd (get_conversation_stats demo_env demo_cfg 7 empty_helper)
     = Returns (1, 0 + 3 + 6 + 28 + 3).
Proof.
  split; [reflexivity|].
  destruct (get_conversation_stats_fresh demo_env demo_cfg 7 empty_helper eq_refl)
    as (Hout & _).
  rewrite Hout. reflexivity.
Defined.

(** ** Model families *)

Lemma not_py_in_all (m : string) :
  py_in m GPT_ALL_MODELS = false ->
  py_in m GPT_3_MODELS = false /\ py_in m GPT_3_16K_MODELS = false
  /\ py_in m GPT_4_MODELS = false /\ py_in m GPT_4_32K_MODELS = false
  /\ py_in m GPT_4_VISION_MODELS = false /\ py_in m GPT_4_128K_MODELS = false
  /\ py_in m GPT_4O_MODELS = false /\ py_in m GPT_4_1_MODELS = false
  /\ py_in m O_MODELS = false.
Proof.
  unfold GPT_ALL_MODELS. rewrite !py_in_app. intros H.
  do 8 (apply orb_false_elim in H; destruct H as [? H]).
  repeat split; assumption.
Qed.

(** Two identifiers are listed in two family tuples, and the lookup of the
    default output budget returns [None] for an unknown identifier instead
    of failing. *)
Lemma model_family_resolution_counterexample :
  (In "gpt-4o" GPT_ALL_MODELS /\ families_of "gpt-4o" = [FGpt4Vision; FGpt4o])
  /\ (In "gpt-4-turbo-preview" GPT_ALL_MODELS
      /\ families_of "gpt-4-turbo-preview" = [FGpt4; FGpt4_128k])
  /\ (~ In "gpt-5" GPT_ALL_MODELS /\ default_max_tokens "gpt-5" = None).
Proof.
  repeat split; try reflexivity.
  - apply py_in_In. reflexivity.
  - apply py_in_In. reflexivity.
  - intros H. apply py_in_In in H. vm_compute in H. discriminate.
Qed.

(** C8, amended.  Every identifier of [GPT_ALL_MODELS] is listed in at
    least one family tuple, and both lookups resolve it to the first family
    that lists it: [default_max_tokens] returns that family's default and
    [__max_model_tokens] that family's context window.  For an identifier
    in no family tuple [__max_model_tokens] and [__count_tokens] raise
    [NotImplementedError]. *)
Theorem model_family_resolution (E : Env) (cfg : Config) :
  (In (model cfg) GPT_ALL_MODELS ->
   exists f, head (families_of (model cfg)) = Some f
     /\ default_max_tokens (model cfg) = Some (family_default_max_tokens f (model cfg))
     /\ max_model_tokens cfg = Ok (family_context_window f (model cfg)))
  /\ (~ In (model cfg) GPT_ALL_MODELS ->
      families_of (model cfg) = []
      /\ max_model_tokens cfg
         = Raise (NotImplementedError
                    ("Max tokens for model " +:+ model cfg +:+ " is not implemented yet."))
      /\ forall messages,
          count_tokens E cfg messages
          = Raise (NotImplementedError
                     ("num_tokens_from_messages() is not implemented for model "
                      +:+ model cfg +:+ "."))).
Proof.
  split.
  - unfold max_model_tokens. generalize (model cfg) as m. intros m H.
    unfold GPT_ALL_MODELS in H. cbn in H.
    repeat (destruct H as [<-|H]; [eexists; split; [reflexivity|split; reflexivity]|]).
    contradiction.
  - intros H.
    assert (Hall : py_in (model cfg) GPT_ALL_MODELS = false).
    { destruct (py_in (model cfg) GPT_ALL_MODELS) eqn:Hin; [|reflexivity].
      apply py_in_In in Hin. contradiction. }
    destruct (not_py_in_all _ Hall) as (H1 & H2 & H3 & H4 & H5 & H6 & H7 & H8 & H9).
    split; [|split].
    + unfold families_of, all_families. cbn [List.filter family_models].
      rewrite H1, H2, H3, H4, H5, H6, H7, H8, H9. reflexivity.
    + unfold max_model_tokens.
      rewrite H1, H2, H3, H4, H5, H6, H7, H8, H9. reflexivity.
    + intros messages. unfold count_tokens. rewrite Hall. reflexivity.
Qed.

(** [gpt-4o] resolves to the vision family; [gpt-5] makes the two lookups
    raise. *)
Lemma model_family_resolution_witness :
  (In "gpt-4o" GPT_ALL_MODELS
   /\ default_max_tokens "gpt-4o" = Some 4096
   /\ max_model_tokens demo_cfg = Ok 126976)
  /\ (~ In "gpt-5" GPT_ALL_MODELS
      /\ max_model_tokens (with_model "gpt-5" demo_cfg)
         = Raise (NotImplementedError "Max tokens for model gpt-5 is not implemented yet.")).
Proof.
  assert (Hin : In "gpt-4o" GPT_ALL_MODELS) by (apply py_in_In; reflexivity).
  assert (Hout : ~ In "gpt-5" GPT_ALL_MODELS).
  { intros H. apply py_in_In in H. vm_compute in H. discriminate. }
  split.
  - destruct (model_family_resolution demo_env demo_cfg) as [Hknown _].
    destruct (Hknown Hin) as (f & Hf & Hdefault & Hwindow).
    cbn in Hf. injection Hf as <-.
    split; [exact Hin|]. split; [exact Hdefault | exact Hwindow].
  - destruct (model_family_resolution demo_env (with_model "gpt-5" demo_cfg))
      as [_ Hunknown].
    destruct (Hunknown Hout) as (_ & Hwindow & _).
    split; [exact Hout | exact Hwindow].
Defined.

(** ** Protocol adapter *)

Lemma text_block_type_tag (role : string) : text_block_type role = structured_tag role.
Proof.
  unfold text_block_type, structured_tag, py_in. cbn [existsb].
  rewrite orb_false_r, orb_assoc. reflexivity.
Qed.

(** The converter on a message that is not a function result. *)
Lemma to_responses_message_structured (m : Message) :
  to_responses_message (msg_role m) (msg_content m)
  = if is_function_result m then None else Some (structured_message m).
Proof.
  unfold to_responses_message, is_function_result, structured_message.
  destruct (String.eqb (msg_role m) "function"); [reflexivity|].
  rewrite text_block_type_tag.
  destruct (msg_content m) as [s|parts]; reflexivity.
Qed.

(** The two request builders on every history: the one of
    [get_chat_response_stream] includes every message that is not a
    function result, the one of [__common_get_chat_response] leaves out
    the assistant turns as well. *)
Lemma responses_input_builders (h : list Message) :
  responses_input_stream h = structured_history h
  /\ responses_input h
     = map structured_message
         (List.filter (fun m => negb (is_assistant_turn m) && negb (is_function_result m)) h).
Proof.
  split.
  - unfold structured_history.
    induction h as [|m rest IH]; [reflexivity|].
    cbn [responses_input_stream List.filter].
    rewrite to_responses_message_structured.
    destruct (is_function_result m); cbn [negb map]; rewrite IH; reflexivity.
  - induction h as [|m rest IH]; [reflexivity|].
    cbn [responses_input List.filter].
    rewrite to_responses_message_structured.
    fold (is_assistant_turn m).
    destruct (is_assistant_turn m); cbn [negb andb]; [exact IH|].
    destruct (is_function_result m); cbn [negb map]; rewrite IH; reflexivity.
Qed.

(** C3.  The converter [__to_responses_message] renders a history as the
    specification states it: it drops a function result and renders an
    assistant turn as its role with the text tagged [output_text].  The
    request builder of
    [__common_get_chat_response] (lines 417-424) does not: it skips the
    assistant turns before it calls the converter.  A request on the
    Responses path for a conversation that holds the answer ["Hello"] sends
    the model an input without that answer, where the same loop in
    [get_chat_response_stream] (lines 273-277) includes it. *)
Theorem assistant_turns_missing_from_responses_input :
  let E := scripted_env "sunny" in
  let cfg := with_responses_api demo_cfg in
  let run := get_chat_response E cfg 4 0 7 "And now?" helper_three_turns in
  let asked := three_turns ++ [mk_message "user" (CStr "And now?")] in
  let block tag text := [BText tag text] in
  let priming :=
    {| rm_role := "system";
       rm_content := block "input_text" "You are a helpful assistant." |} in
  let hi := {| rm_role := "user"; rm_content := block "input_text" "Hi" |} in
  let hello := {| rm_role := "assistant"; rm_content := block "output_text" "Hello" |} in
  let now := {| rm_role := "user"; rm_content := block "input_text" "And now?" |} in
  to_responses_message "assistant" (CStr "Hello") = Some hello
  /\ structured_history asked = [priming; hi; hello; now]
  /\ responses_input_stream asked = [priming; hi; hello; now]
  /\ responses_input asked = [priming; hi; now]
  /\ exists rq later,
      trace (fst run) = EvResponses rq :: later
      /\ rr_input rq = [priming; hi; now]
      /\ rr_input rq <> structured_history asked.
Proof.
  cbv zeta. split; [reflexivity|]. split; [reflexivity|]. split; [reflexivity|].
  split; [reflexivity|].
  eexists _, _. split; [vm_compute; reflexivity|]. split; [reflexivity|].
  cbn. discriminate.
Qed.

(** ** Vision cost *)

Lemma ceil_div_512 (a : Z) : (a + 511) / 512 = ceil_div a 512.
Proof.
  unfold ceil_div.
  pose proof (Z.div_mod (a + 511) 512 ltac:(lia)).
  pose proof (Z.mod_pos_bound (a + 511) 512 ltac:(lia)).
  pose proof (Z.div_mod (- a) 512 ltac:(lia)).
  pose proof (Z.mod_pos_bound (- a) 512 ltac:(lia)).
  lia.
Qed.

(** [ceil_div a b] is the least number of pieces of size [b] that cover [a]. *)
Lemma ceil_div_spec (a b : Z) :
  0 < b -> b * (ceil_div a b - 1) < a <= b * ceil_div a b.
Proof.
  intros Hb. unfold ceil_div.
  pose proof (Z.div_mod (- a) b ltac:(lia)).
  pose proof (Z.mod_pos_bound (- a) b Hb).
  nia.
Qed.

Lemma ceil_div_nonneg (a b : Z) : 0 < b -> 0 <= a -> 0 <= ceil_div a b.
Proof.
  intros Hb Ha. pose proof (ceil_div_spec a b Hb). nia.
Qed.

(** The body of [__count_tokens_vision] after the image has been opened and
    the model accepted. *)
Lemma count_tokens_vision_unfold (E : Env) (cfg : Config) (image : string) (w0 h0 : N) :
  py_in (vision_model cfg) GPT_4_VISION_MODELS = true ->
  image_size E image = Ok (w0, h0) ->
  count_tokens_vision E cfg image
  = if String.eqb (vision_detail cfg) "low" then Ok 85
    else if String.eqb (vision_detail cfg) "high" || String.eqb (vision_detail cfg) "auto"
    then let? size := normalized_size (Z.of_N w0) (Z.of_N h0) in
         Ok (85 + 170 * tile_count size)
    else Raise (NotImplementedError
                  ("unknown parameter detail=" +:+ vision_detail cfg +:+ " for model "
                   +:+ vision_model cfg +:+ ".")).
Proof.
  intros Hmodel Hsize. unfold count_tokens_vision.
  rewrite Hsize. cbn [res_bind fst snd]. rewrite Hmodel. cbn [negb].
  set (w := Z.of_N w0). set (h := Z.of_N h0).
  assert (Hswap : (if w >? h then (h, w) else (w, h)) = (Z.min w h, Z.max w h)).
  { destruct (Z.gtb_spec w h); f_equal; lia. }
  rewrite Hswap.
  destruct (String.eqb (vision_detail cfg) "low"); [reflexivity|].
  destruct (String.eqb (vision_detail cfg) "high" || String.eqb (vision_detail cfg) "auto");
    [|reflexivity].
  unfold normalized_size, scale_factor.
  destruct (int_truediv (Z.min w h) 768) as [a|e]; [|reflexivity].
  destruct (int_truediv (Z.max w h) 2048) as [b|e]; [|reflexivity].
  cbn [res_bind].
  assert (Hcost : forall u v, Ok (85 + (u + 511) / 512 * ((v + 511) / 512) * 170)
                              = Ok (85 + 170 * tile_count (u, v))).
  { intros u v. unfold tile_count. cbn [fst snd]. rewrite !ceil_div_512. f_equal. lia. }
  destruct (float_gt_int (py_max a b) 1); [|apply Hcost].
  destruct (int_div_float (Z.min w h) (py_max a b)) as [x|e]; [|reflexivity].
  cbn [res_bind].
  destruct (int_of_float x) as [w'|e]; [|reflexivity].
  cbn [res_bind].
  destruct (int_div_float (Z.max w h) (py_max a b)) as [y|e]; [|reflexivity].
  cbn [res_bind].
  destruct (int_of_float y) as [h'|e]; [|reflexivity].
  apply Hcost.
Qed.

(** With a vision model outside [GPT_4_VISION_MODELS] a low-detail image has
    no cost: the call raises before it looks at the detail level. *)
Lemma count_tokens_vision_counterexample :
  count_tokens_vision demo_env (with_vision "gpt-4o-mini" "low" demo_cfg) "square"
  = Raise (NotImplementedError
             "count_tokens_vision() is not implemented for model gpt-4o-mini.").
Proof. reflexivity. Qed.

(** C7, amended.  For an image that the image library can open: when the
    configured vision model is in [GPT_4_VISION_MODELS], the cost of an
    image of any size is exactly 85 at detail ["low"]; at detail ["high"]
    or ["auto"] the image is scaled down by
    [f = max(short / 768, long / 2048)] when [f > 1], cut into tiles of 512
    by 512 with ceiling division on each axis, and costs 85 plus 170 for
    each tile, which is 765 for an image of 1024 by 1024; any other detail
    level raises the error for an unknown detail.  When the vision model is
    not in [GPT_4_VISION_MODELS], the cost function raises the error for an
    unsupported model, whatever the detail level and the size. *)
Theorem count_tokens_vision_cost (E : Env) (cfg : Config) (image : string) (w0 h0 : N) :
  image_size E image = Ok (w0, h0) ->
  (In (vision_model cfg) GPT_4_VISION_MODELS ->
   (vision_detail cfg = "low" -> count_tokens_vision E cfg image = Ok 85)
   /\ (vision_detail cfg = "high" \/ vision_detail cfg = "auto" ->
       count_tokens_vision E cfg image
       = (let? size := normalized_size (Z.of_N w0) (Z.of_N h0) in
          Ok (85 + 170 * tile_count size))
       /\ (w0 = 1024%N -> h0 = 1024%N -> count_tokens_vision E cfg image = Ok 765))
   /\ (vision_detail cfg <> "low" -> vision_detail cfg <> "high" ->
       vision_detail cfg <> "auto" ->
       count_tokens_vision E cfg image
       = Raise (NotImplementedError
                  ("unknown parameter detail=" +:+ vision_detail cfg +:+ " for model "
                   +:+ vision_model cfg +:+ "."))))
  /\ (~ In (vision_model cfg) GPT_4_VISION_MODELS ->
      count_tokens_vision E cfg image
      = Raise (NotImplementedError
                 ("count_tokens_vision() is not implemented for model "
                  +:+ vision_model cfg +:+ "."))).
Proof.
  intros Hsize. split.
  - intros Hmodel. apply py_in_In in Hmodel.
    rewrite (count_tokens_vision_unfold E cfg image w0 h0 Hmodel Hsize).
    split; [|split].
    + intros ->. reflexivity.
    + intros Hdetail.
      assert (Hhigh : String.eqb (vision_detail cfg) "low" = false
                      /\ String.eqb (vision_detail cfg) "high"
                         || String.eqb (vision_detail cfg) "auto" = true).
      { destruct Hdetail as [-> | ->]; split; reflexivity. }
      destruct Hhigh as [-> ->]. split; [reflexivity|].
      intros -> ->. reflexivity.
    + intros Hlow Hhigh Hauto.
      apply String.eqb_neq in Hlow, Hhigh, Hauto.
      rewrite Hlow, Hhigh, Hauto. reflexivity.
  - intros Hmodel.
    assert (Hout : py_in (vision_model cfg) GPT_4_VISION_MODELS = false).
    { destruct (py_in (vision_model cfg) GPT_4_VISION_MODELS) eqn:Hin; [|reflexivity].
      apply py_in_In in Hin. contradiction. }
    unfold count_tokens_vision. rewrite Hsize. cbn [res_bind]. rewrite Hout. reflexivity.
Qed.

(** With the vision model [gpt-4o] and detail ["high"], an image of 1024 by
    1024 is scaled to 768 by 768 and costs 765; with the vision model
    [gpt-3.5-turbo] the same image has no cost at detail ["high"]. *)
Lemma count_tokens_vision_cost_witness :
  normalized_size 1024 1024 = Ok (768, 768)
  /\ count_tokens_vision demo_env demo_cfg "square" = Ok 765
  /\ count_tokens_vision demo_env (with_vision "gpt-3.5-turbo" "high" demo_cfg) "square"
     = Raise (NotImplementedError
                "count_tokens_vision() is not implemented for model gpt-3.5-turbo.").
Proof.
  split; [reflexivity|]. split.
  - assert (Hmodel : In (vision_model demo_cfg) GPT_4_VISION_MODELS)
      by (apply py_in_In; reflexivity).
    destruct (count_tokens_vision_cost demo_env demo_cfg "square" 1024 1024 eq_refl)
      as [Hin _].
    destruct (Hin Hmodel) as (_ & Hhigh & _).
    destruct (Hhigh (or_introl eq_refl)) as [_ Hsquare].
    exact (Hsquare eq_refl eq_refl).
  - assert (Hmodel : ~ In "gpt-3.5-turbo" GPT_4_VISION_MODELS).
    { intros H. apply py_in_In in H. vm_compute in H. discriminate. }
    destruct (count_tokens_vision_cost demo_env
                (with_vision "gpt-3.5-turbo" "high" demo_cfg) "square" 1024 1024 eq_refl)
      as [_ Hout].
    exact (Hout Hmodel).
Defined.

(** Signs of the floats that the vision cost computes with. *)

Lemma binary_round_aux_nonneg (m e : Z) (l : location) :
  nonneg_float (binary_round_aux prec emax false m e l).
Proof.
  unfold binary_round_aux.
  destruct (shr_fexp prec emax m e l) as [mrs' e'].
  destruct (shr_fexp prec emax _ e' loc_Exact) as [mrs'' e''].
  destruct (shr_m mrs''); cbn; [reflexivity| |trivial].
  destruct (e'' <=? emax - prec); reflexivity.
Qed.

Lemma binary_normalize_nonneg (n : Z) :
  0 <= n -> nonneg_float (binary_normalize prec emax n 0 false).
Proof.
  intros Hn. destruct n as [|p|p]; cbn; [reflexivity| |lia].
  unfold binary_round. destruct (shl_align _ _ _). apply binary_round_aux_nonneg.
Qed.

Lemma finite_or_overflow_nonneg (x y : spec_float) :
  nonneg_float x -> finite_or_overflow x = Ok y -> nonneg_float y.
Proof.
  intros Hx Hy. destruct x; cbn in Hy; try discriminate; injection Hy as <-; exact Hx.
Qed.

Lemma int_truediv_nonneg (a b : Z) (x : spec_float) :
  0 <= a -> 0 < b -> int_truediv a b = Ok x -> nonneg_float x.
Proof.
  intros Ha Hb. unfold int_truediv.
  assert (Hsign : xorb (a <? 0) (b <? 0) = false).
  { destruct (Z.ltb_spec a 0), (Z.ltb_spec b 0); try lia. reflexivity. }
  rewrite Hsign.
  destruct b as [|b|b]; try lia.
  destruct a as [|a|a]; try lia.
  - intros [= <-]. reflexivity.
  - destruct (SFdiv_core_binary _ _ _ _ _ _) as [[mz ez] lz].
    apply finite_or_overflow_nonneg, binary_round_aux_nonneg.
Qed.

Lemma SFdiv_nonneg (a b : spec_float) :
  nonneg_float a -> nonneg_float b -> nonneg_float (SFdiv prec emax a b).
Proof.
  destruct a as [sa|sa| |sa ma ea], b as [sb|sb| |sb mb eb]; cbn;
    intros Ha Hb; subst; try exact I; try reflexivity.
  change (nonneg_float
            (let '(mz, ez, lz) := SFdiv_core_binary prec emax (Z.pos ma) ea (Z.pos mb) eb in
             binary_round_aux prec emax false mz ez lz)).
  destruct (SFdiv_core_binary _ _ _ _ _ _) as [[mz ez] lz].
  apply binary_round_aux_nonneg.
Qed.

Lemma py_max_nonneg (a b : spec_float) :
  nonneg_float a -> nonneg_float b -> nonneg_float (py_max a b).
Proof. intros Ha Hb. unfold py_max. destruct (SFltb a b); assumption. Qed.

Lemma int_of_float_nonneg (x : spec_float) (z : Z) :
  nonneg_float x -> int_of_float x = Ok z -> 0 <= z.
Proof.
  destruct x as [s|s| |s m e]; cbn; intros Hx Hz; try discriminate.
  - injection Hz as <-. lia.
  - subst s. injection Hz as <-. cbn. apply Z.shiftl_nonneg. lia.
Qed.

Lemma int_div_float_nonneg (n : Z) (f x : spec_float) :
  0 <= n -> nonneg_float f -> int_div_float n f = Ok x -> nonneg_float x.
Proof.
  intros Hn Hf. unfold int_div_float, float_of_int.
  destruct (finite_or_overflow _) as [a|e] eqn:Ha; cbn; [|discriminate].
  apply finite_or_overflow_nonneg in Ha; [|apply binary_normalize_nonneg, Hn].
  destruct f; try discriminate; intros [= <-]; apply SFdiv_nonneg; assumption.
Qed.

Lemma normalized_size_nonneg (w h : Z) (size : Z * Z) :
  0 <= w -> 0 <= h -> normalized_size w h = Ok size -> 0 <= fst size /\ 0 <= snd size.
Proof.
  intros Hw Hh. unfold normalized_size, scale_factor.
  destruct (int_truediv (Z.min w h) 768) as [a|e] eqn:Ha; [|discriminate].
  destruct (int_truediv (Z.max w h) 2048) as [b|e] eqn:Hb; [|discriminate].
  cbn [res_bind].
  apply int_truediv_nonneg in Ha; [|lia|lia].
  apply int_truediv_nonneg in Hb; [|lia|lia].
  pose proof (py_max_nonneg a b Ha Hb) as Hf.
  destruct (float_gt_int (py_max a b) 1).
  - destruct (int_div_float (Z.min w h) _) as [x|e] eqn:Hx; [|discriminate].
    cbn [res_bind].
    destruct (int_of_float x) as [w'|e] eqn:Hw'; [|discriminate].
    cbn [res_bind].
    destruct (int_div_float (Z.max w h) _) as [y|e] eqn:Hy; [|discriminate].
    cbn [res_bind].
    destruct (int_of_float y) as [h'|e] eqn:Hh'; [|discriminate].
    intros [= <-]. cbn [fst snd].
    apply int_div_float_nonneg in Hx; [|lia|exact Hf].
    apply int_div_float_nonneg in Hy; [|lia|exact Hf].
    split; [exact (int_of_float_nonneg x w' Hx Hw') | exact (int_of_float_nonneg y h' Hy Hh')].
  - intros [= <-]. cbn [fst snd]. lia.
Qed.

(** A vision cost is at least the base cost. *)
Lemma count_tokens_vision_lower_bound (E : Env) (cfg : Config) (image : string) (n : Z) :
  count_tokens_vision E cfg image = Ok n -> 85 <= n.
Proof.
  intros Hn.
  destruct (image_size E image) as [[w0 h0]|e] eqn:Hsize.
  2:{ unfold count_tokens_vision in Hn. rewrite Hsize in Hn. discriminate. }
  destruct (py_in (vision_model cfg) GPT_4_VISION_MODELS) eqn:Hmodel.
  2:{ unfold count_tokens_vision in Hn. rewrite Hsize in Hn. cbn [res_bind] in Hn.
      rewrite Hmodel in Hn. discriminate. }
  rewrite (count_tokens_vision_unfold E cfg image w0 h0 Hmodel Hsize) in Hn.
  destruct (String.eqb (vision_detail cfg) "low"); [injection Hn as <-; lia|].
  destruct (String.eqb (vision_detail cfg) "high" || String.eqb (vision_detail cfg) "auto");
    [|discriminate].
  destruct (normalized_size (Z.of_N w0) (Z.of_N h0)) as [size|e] eqn:Hnorm; [|discriminate].
  injection Hn as <-.
  apply normalized_size_nonneg in Hnorm; [|lia|lia].
  destruct Hnorm as [Hw Hh]. unfold tile_count.
  pose proof (ceil_div_nonneg (fst size) 512 ltac:(lia) Hw).
  pose proof (ceil_div_nonneg (snd size) 512 ltac:(lia) Hh).
  nia.
Qed.

(** ** Token estimate *)

Lemma sum_costs_app {A} (cost : A -> res Z) (l1 l2 : list A) :
  sum_costs cost (l1 ++ l2)
  = (let? a := sum_costs cost l1 in
     let? b := sum_costs cost l2 in
     Ok (a + b)).
Proof.
  induction l1 as [|x l1 IH]; cbn [sum_costs app res_bind].
  - destruct (sum_costs cost l2); reflexivity.
  - destruct (cost x) as [c|e]; cbn [res_bind]; [|reflexivity].
    rewrite IH.
    destruct (sum_costs cost l1) as [a|e]; cbn [res_bind]; [|reflexivity].
    destruct (sum_costs cost l2) as [b|e]; cbn [res_bind]; [|reflexivity].
    f_equal. lia.
Qed.

Lemma sum_costs_lower_bound {A} (cost : A -> res Z) (bound : Z) (l : list A) (s : Z) :
  0 <= bound ->
  (forall x c, cost x = Ok c -> bound <= c) ->
  sum_costs cost l = Ok s -> 0 <= s.
Proof.
  intros Hbound Hcost. revert s.
  induction l as [|x l IH]; cbn [sum_costs]; intros s Hs.
  - injection Hs as <-. lia.
  - destruct (cost x) as [c|e] eqn:Hc; cbn [res_bind] in Hs; [|discriminate].
    destruct (sum_costs cost l) as [s'|e]; cbn [res_bind] in Hs; [|discriminate].
    injection Hs as <-. specialize (Hcost x c Hc). specialize (IH s' eq_refl). lia.
Qed.

Lemma len_nonneg {A} (l : list A) : 0 <= len l.
Proof. unfold len. lia. Qed.

Section Accountant.

Context (E : Env) (cfg : Config).

Lemma count_tokens_parts_sum (parts : list Part) (num_tokens : Z) :
  count_tokens_parts E cfg (selected_encoding E cfg) parts num_tokens
  = (let? c := sum_costs (block_cost E cfg) parts in Ok (num_tokens + c)).
Proof.
  revert num_tokens.
  induction parts as [|part rest IH]; intros num_tokens;
    cbn [count_tokens_parts sum_costs res_bind].
  - f_equal. lia.
  - assert (Hstep : forall c,
               (let? n := Ok (num_tokens + c) in
                count_tokens_parts E cfg (selected_encoding E cfg) rest n)
               = (let? c0 := (let? s := sum_costs (block_cost E cfg) rest in Ok (c + s)) in
                  Ok (num_tokens + c0))).
    { intros c. cbn [res_bind]. rewrite IH.
      destruct (sum_costs (block_cost E cfg) rest); cbn [res_bind]; [|reflexivity].
      f_equal. lia. }
    destruct part as [text|url detail|ptype text]; cbn [block_cost res_bind].
    + apply Hstep.
    + destruct (decode_image E url) as [image|e]; cbn [res_bind]; [|reflexivity].
      destruct (count_tokens_vision E cfg image) as [n|e]; cbn [res_bind]; [|reflexivity].
      apply (Hstep n).
    + apply Hstep.
Qed.

Lemma count_tokens_message_sum (message : Message) (num_tokens : Z) :
  count_tokens_message E cfg (selected_encoding E cfg) message num_tokens
  = (let? c := message_cost E cfg message in Ok (num_tokens + c)).
Proof.
  unfold count_tokens_message, message_cost, content_cost, tokens_per_message,
    tokens_per_name.
  destruct (msg_content message) as [s|parts].
  - cbn [res_bind]. f_equal. destruct (msg_name message); lia.
  - rewrite count_tokens_parts_sum.
    destruct (sum_costs (block_cost E cfg) parts); cbn [res_bind]; [|reflexivity].
    f_equal. destruct (msg_name message); lia.
Qed.

Lemma count_tokens_loop_sum (messages : list Message) (num_tokens : Z) :
  count_tokens_loop E cfg (selected_encoding E cfg) messages num_tokens
  = (let? s := sum_costs (message_cost E cfg) messages in Ok (num_tokens + s)).
Proof.
  revert num_tokens.
  induction messages as [|message rest IH]; intros num_tokens;
    cbn [count_tokens_loop sum_costs res_bind].
  - f_equal. lia.
  - rewrite count_tokens_message_sum.
    destruct (message_cost E cfg message) as [c|e]; cbn [res_bind]; [|reflexivity].
    rewrite IH.
    destruct (sum_costs (message_cost E cfg) rest); cbn [res_bind]; [|reflexivity].
    f_equal. lia.
Qed.

Lemma block_cost_nonneg (part : Part) (c : Z) : block_cost E cfg part = Ok c -> 0 <= c.
Proof.
  destruct part as [text|url detail|ptype text]; cbn [block_cost].
  - intros [= <-]. apply len_nonneg.
  - destruct (decode_image E url) as [image|e]; cbn [res_bind]; [|discriminate].
    intros Hc. apply count_tokens_vision_lower_bound in Hc. lia.
  - intros [= <-]. apply len_nonneg.
Qed.

Lemma message_cost_lower_bound (m : Message) (c : Z) :
  message_cost E cfg m = Ok c -> 3 <= c.
Proof.
  unfold message_cost.
  destruct (content_cost E cfg (msg_content m)) as [cc|e] eqn:Hcc; cbn [res_bind];
    [|discriminate].
  intros [= <-].
  assert (0 <= cc).
  { unfold content_cost in Hcc. destruct (msg_content m) as [s|parts].
    - injection Hcc as <-. apply len_nonneg.
    - eapply (sum_costs_lower_bound _ 0); [lia| |exact Hcc].
      exact block_cost_nonneg. }
  pose proof (len_nonneg (selected_encoding E cfg (msg_role m))).
  destruct (msg_name m) as [value|];
    [pose proof (len_nonneg (selected_encoding E cfg value))|]; lia.
Qed.

(** C6, amended.  For a model of [GPT_ALL_MODELS] the estimate is the sum
    over the messages of the overhead of 3, the encoded length of the role,
    for a function result the encoded length of its name plus 1, and the
    content (a string by its encoded length, a block list by the sum of its
    blocks: texts by encoded length, images by the vision cost), plus 3 at
    the end; for any other model the estimate raises
    [NotImplementedError]. *)
Theorem count_tokens_is_sum (messages : list Message) :
  (In (model cfg) GPT_ALL_MODELS ->
   count_tokens E cfg messages
   = (let? s := sum_costs (message_cost E cfg) messages in Ok (s + 3)))
  /\ (~ In (model cfg) GPT_ALL_MODELS ->
      count_tokens E cfg messages
      = Raise (NotImplementedError
                 ("num_tokens_from_messages() is not implemented for model "
                  +:+ model cfg +:+ "."))).
Proof.
  unfold count_tokens. fold (selected_encoding E cfg). split; intros Hmodel.
  - apply py_in_In in Hmodel. rewrite Hmodel. rewrite count_tokens_loop_sum.
    destruct (sum_costs (message_cost E cfg) messages); reflexivity.
  - destruct (py_in (model cfg) GPT_ALL_MODELS) eqn:Hin; [|reflexivity].
    apply py_in_In in Hin. contradiction.
Qed.

(** C9.  When the estimate accepts a list of messages and accepts a message
    on its own, it accepts the list with the message appended, and the
    estimate of the longer list is not smaller. *)
Theorem count_tokens_append_monotone (ms : list Message) (m : Message) (n k : Z) :
  count_tokens E cfg ms = Ok n ->
  count_tokens E cfg [m] = Ok k ->
  exists n', count_tokens E cfg (ms ++ [m]) = Ok n' /\ n <= n'.
Proof.
  unfold count_tokens. fold (selected_encoding E cfg).
  destruct (py_in (model cfg) GPT_ALL_MODELS); [|discriminate].
  rewrite !count_tokens_loop_sum, sum_costs_app. cbn [sum_costs].
  destruct (sum_costs (message_cost E cfg) ms) as [s|e]; cbn [res_bind]; [|discriminate].
  destruct (message_cost E cfg m) as [c|e] eqn:Hc; cbn [res_bind]; [|discriminate].
  intros [= <-] _. eexists. split; [reflexivity|].
  apply message_cost_lower_bound in Hc. lia.
Qed.

End Accountant.

(** The role is counted: the estimate of one system message is 14 with the
    tokenizer of the examples, not the 8 of the specification's sum. *)
Lemma count_tokens_counterexample :
  count_tokens demo_env demo_cfg [mk_message "system" (CStr "Hi")] = Ok 14
  /\ spec_estimate demo_env demo_cfg [mk_message "system" (CStr "Hi")] = Ok 8.
Proof. split; reflexivity. Qed.

(** The estimate of a system and a user message under [gpt-4o], and the
    error under a model that is not listed. *)
Lemma count_tokens_is_sum_witness :
  (In (model demo_cfg) GPT_ALL_MODELS
   /\ count_tokens demo_env demo_cfg
        [mk_message "system" (CStr "Hi"); mk_message "user" (CStr "Hello")]
      = Ok ((3 + 6 + 0 + 2) + ((3 + 4 + 0 + 5) + 0) + 3))
  /\ (~ In (model (with_model "gpt-5" demo_cfg)) GPT_ALL_MODELS
      /\ count_tokens demo_env (with_model "gpt-5" demo_cfg) [mk_message "user" (CStr "Hello")]
         = Raise (NotImplementedError
                    "num_tokens_from_messages() is not implemented for model gpt-5.")).
Proof.
  assert (Hin : In (model demo_cfg) GPT_ALL_MODELS) by (apply py_in_In; reflexivity).
  assert (Hout : ~ In (model (with_model "gpt-5" demo_cfg)) GPT_ALL_MODELS).
  { intros H. apply py_in_In in H. vm_compute in H. discriminate. }
  split.
  - split; [exact Hin|].
    destruct (count_tokens_is_sum demo_env demo_cfg
                [mk_message "system" (CStr "Hi"); mk_message "user" (CStr "Hello")])
      as [Hsum _].
    rewrite (Hsum Hin). reflexivity.
  - split; [exact Hout|].
    destruct (count_tokens_is_sum demo_env (with_model "gpt-5" demo_cfg)
                [mk_message "user" (CStr "Hello")]) as [_ Hraise].
    rewrite (Hraise Hout). reflexivity.
Defined.

(** Appending a user message to a system message raises the estimate from 40
    to 53. *)
Lemma count_tokens_append_monotone_witness :
  count_tokens demo_env demo_cfg [mk_message "system" (CStr (assistant_prompt demo_cfg))]
  = Ok 40
  /\ count_tokens demo_env demo_cfg [mk_message "user" (CStr "Hello")] = Ok 15
  /\ exists n',
      count_tokens demo_env demo_cfg
        ([mk_message "system" (CStr (assistant_prompt demo_cfg))]
           ++ [mk_message "user" (CStr "Hello")]) = Ok n'
      /\ 40 <= n'.
Proof.
  split; [reflexivity|]. split; [reflexivity|].
  exact (count_tokens_append_monotone demo_env demo_cfg
           [mk_message "system" (CStr (assistant_prompt demo_cfg))]
           (mk_message "user" (CStr "Hello")) 40 15 eq_refl eq_refl).
Defined.

(** ** Context budgeter *)

Lemma py_slice_to_drop_last {A} (older : list A) (x : A) :
  py_slice_to (-1) (older ++ [x]) = older.
Proof.
  unfold py_slice_to, len. cbn [Z.ltb Z.compare].
  rewrite length_app. cbn [length].
  replace (Z.to_nat (Z.max (-1 + Z.of_nat (length older + 1)) 0)) with (length older) by lia.
  apply take_app_length.
Qed.

(** [l[-n:]] keeps the last [n] elements when [n] is positive. *)
Lemma py_slice_from_last {A} (n : Z) (l : list A) :
  0 < n -> py_slice_from (- n) l = drop (length l - Z.to_nat n) l.
Proof.
  intros Hn. unfold py_slice_from, len.
  destruct (Z.ltb_spec (- n) 0); [|lia].
  f_equal. lia.
Qed.

(** [l[-0:]] is [l[0:]]: the whole list. *)
Lemma py_slice_from_zero {A} (l : list A) : py_slice_from (- 0) l = l.
Proof.
  unfold py_slice_from, len. change (- 0) with 0. change (0 <? 0) with false.
  cbv iota.
  replace (Z.to_nat (Z.min 0 (Z.of_nat (length l)))) with 0%nat by lia.
  reflexivity.
Qed.

Section Budgeter.

Context (E : Env) (cfg : Config).

(** The summarizer makes one upstream call and leaves the store alone. *)
Lemma summarise_frame (conversation : list Message) (st : Helper) :
  let st1 := fst (summarise E cfg conversation st) in
  conversations st1 = conversations st
  /\ conversations_vision st1 = conversations_vision st
  /\ last_updated st1 = last_updated st
  /\ (exists ev, trace st1 = trace st ++ [ev])
  /\ snd (summarise E cfg conversation st) <> OutOfFuel.
Proof.
  unfold summarise.
  destruct (negb (cfg_get (use_responses_api cfg) false)).
  - unfold bind, upstream_chat.
    destruct (chat_completions_create E (trace st) _) as [[c|chunks]|e]; cbn.
    + unfold lift, ret. destruct (choices c); cbn; repeat split; eauto; discriminate.
    + repeat split; eauto; discriminate.
    + repeat split; eauto; discriminate.
  - unfold bind, upstream_responses.
    destruct (responses_create E (trace st) _) as [resp|e]; cbn;
      repeat split; eauto; discriminate.
Qed.

(** The budget check, run on the history [older ++ [trigger]] whose last
    message is the user turn just appended. *)
Lemma summarise_if_too_long_run (chat_id : Z) (query : string) (st : Helper)
    (first : Message) (rest older : list Message) (t limit : Z) :
  let trigger := mk_message "user" (CStr query) in
  first :: rest = older ++ [trigger] ->
  conversations st !! chat_id = Some (first :: rest) ->
  count_tokens E cfg (first :: rest) = Ok t ->
  max_model_tokens cfg = Ok limit ->
  summarise_if_too_long E cfg chat_id query st
  = if (t + max_tokens cfg >? limit) || (len (first :: rest) >? max_history_size cfg) then
      match summarise E cfg older st with
      | (st1, Returns summary) =>
          ({| conversations :=
                <[chat_id := [mk_message (priming_role cfg)
                                (priming_content cfg (msg_content first));
                              mk_message "assistant" (CStr summary);
                              trigger]]> (conversations st1);
              conversations_vision := <[chat_id := false]> (conversations_vision st1);
              last_updated := last_updated st1;
              trace := trace st1 |}, Returns tt)
      | (st1, Raises _) =>
          set_history chat_id (py_slice_from (- max_history_size cfg) (first :: rest)) st1
      | (st1, OutOfFuel) => (st1, OutOfFuel)
      end
    else (st, Returns tt).
Proof.
  intros trigger Hsplit Hh Ht Hlimit.
  unfold summarise_if_too_long, bind, history, lift.
  rewrite Hh, Ht, Hlimit. cbn [outcome_of_res]. rewrite Hh.
  destruct ((t + max_tokens cfg >? limit) || (len (first :: rest) >? max_history_size cfg));
    [|reflexivity].
  unfold try_except. rewrite Hh, Hsplit, py_slice_to_drop_last.
  pose proof (summarise_frame older st) as (Hconv & _ & _ & _ & _).
  destruct (summarise E cfg older st) as [st1 out]. cbn [fst snd] in Hconv.
  rewrite Hconv, Hh, <- Hsplit.
  destruct out as [summary|e|]; [| |reflexivity].
  - unfold reset_chat_history, add_to_history, bind, history, set_history, priming_content.
    cbn. rewrite !lookup_insert_eq. cbn. rewrite !lookup_insert_eq. cbn.
    rewrite !insert_insert_eq, ?Hconv. reflexivity.
  - rewrite Hconv, Hh. reflexivity.
Qed.

(** The three ways out of the budget check: within budget the store is left
    alone; over budget and summarised, the history is the priming message
    rebuilt from the content of the first message, the summary as an
    assistant turn and the triggering user turn, and the vision flag is
    cleared; over budget and not summarised, the history is the slice
    [h[-max_history_size:]], which is the last [max_history_size] messages
    when that number is positive. *)
Lemma summarise_if_too_long_outcomes (chat_id : Z) (query : string) (st : Helper)
    (first : Message) (rest older : list Message) (t limit : Z) :
  let trigger := mk_message "user" (CStr query) in
  let h := first :: rest in
  let over := (t + max_tokens cfg >? limit) || (len h >? max_history_size cfg) in
  let st' := fst (summarise_if_too_long E cfg chat_id query st) in
  h = older ++ [trigger] ->
  conversations st !! chat_id = Some h ->
  count_tokens E cfg h = Ok t ->
  max_model_tokens cfg = Ok limit ->
  snd (summarise_if_too_long E cfg chat_id query st) = Returns tt
  /\ (over = false -> st' = st)
  /\ (over = true ->
      forall summary, snd (summarise E cfg older st) = Returns summary ->
      conversations st' !! chat_id
      = Some [mk_message (priming_role cfg) (priming_content cfg (msg_content first));
              mk_message "assistant" (CStr summary);
              trigger]
      /\ conversations_vision st' !! chat_id = Some false)
  /\ (over = true ->
      forall e, snd (summarise E cfg older st) = Raises e ->
      conversations st' !! chat_id = Some (py_slice_from (- max_history_size cfg) h)
      /\ (0 < max_history_size cfg ->
          conversations st' !! chat_id
          = Some (drop (length h - Z.to_nat (max_history_size cfg)) h))).
Proof.
  intros trigger h over st' Hsplit Hh Ht Hlimit. subst st'.
  rewrite (summarise_if_too_long_run chat_id query st first rest older t limit
             Hsplit Hh Ht Hlimit).
  fold h. fold over.
  pose proof (summarise_frame older st) as (_ & _ & _ & _ & Hfuel).
  destruct (summarise E cfg older st) as [st1 out]. cbn [snd] in *.
  destruct over.
  2:{ split; [reflexivity|]. split; [reflexivity|]. split; discriminate. }
  destruct out as [summary|e|]; [| |contradiction].
  - cbn [fst snd conversations conversations_vision].
    split; [reflexivity|]. split; [discriminate|]. split.
    + intros _ summary' [= <-]. split; apply lookup_insert_eq.
    + intros _ e' [=].
  - unfold set_history. cbn [fst snd conversations].
    split; [reflexivity|]. split; [discriminate|]. split.
    + intros _ summary' [=].
    + intros _ e' _. split; [apply lookup_insert_eq|].
      intros Hn. rewrite lookup_insert_eq, py_slice_from_last by exact Hn. reflexivity.
Qed.

End Budgeter.

(** C1.  With [max_history_size] set to 0 the history of two messages is
    over budget and the summarizer fails, yet the fallback [h[-0:]] keeps
    both messages, where the last 0 messages of the history are none. *)
Theorem hard_truncation_keeps_history_at_zero :
  let cfg := with_max_history_size 0 demo_cfg in
  conversations helper_two_turns !! 7 = Some two_turns
  /\ (len two_turns >? max_history_size cfg) = true
  /\ snd (summarise demo_env cfg (py_slice_to (-1) two_turns) helper_two_turns)
     = Raises (UpstreamError "unavailable")
  /\ conversations (fst (summarise_if_too_long demo_env cfg 7 "Hi" helper_two_turns)) !! 7
     = Some two_turns
  /\ drop (length two_turns - Z.to_nat (max_history_size cfg)) two_turns = [].
Proof. cbv zeta. repeat split; vm_compute; reflexivity. Qed.

(** ** Tool-call resolver *)

(** A bind whose first step is known. *)
Lemma bind_run {A B} (c : M A) (f : A -> M B) (st st1 : Helper) (a : A) :
  c st = (st1, Returns a) -> bind c f st = f a st1.
Proof. unfold bind. intros ->. reflexivity. Qed.

Lemma bind_raises_run {A B} (c : M A) (f : A -> M B) (st st1 : Helper) (e : exn) :
  c st = (st1, Raises e) -> bind c f st = (st1, Raises e).
Proof. unfold bind. intros ->. reflexivity. Qed.

Lemma add_function_call_run (chat_id : Z) (function_name content : string) (st : Helper)
    (h : list Message) :
  conversations st !! chat_id = Some h ->
  add_function_call_to_history chat_id function_name content st
  = (fst (set_history chat_id (h ++ [mk_function_message function_name content]) st),
     Returns tt).
Proof.
  intros Hh. unfold add_function_call_to_history, bind, history. rewrite Hh. reflexivity.
Qed.



Section Emissions.

Context {A B : Type} (p : Event -> bool).






End Emissions.





Section Resolver.

Context (E : Env) (cfg : Config).












(** ** The plugin invocations of a whole request *)






















End Resolver.






(** ** Direct results *)

(** C5.  On the Responses path a plugin result marked as a direct result
    does not end the request: the result is submitted to the model as a tool
    output, and [get_chat_response] returns an answer and a usage count
    instead of the direct result with ['0']. *)
Theorem direct_result_submitted_on_responses_path :
  let E := scripted_env "direct" in
  let cfg := with_responses_api demo_cfg in
  let run := get_chat_response E cfg 4 0 7 "What is the weather?" empty_helper in
  is_direct_result E (HPlugin "direct") = true
  /\ (exists rq,
         trace (fst run)
         = [EvResponses rq;
            EvPlugin "weather" "{}" (Ok "direct");
            EvSubmit "resp_1" [ {| to_tool_call_id := "call_1"; to_output := "direct" |} ]])
  /\ snd run = Returns (VStr "", VStr "91")
  /\ snd run <> Returns (VStr "direct", VStr "0").
Proof.
  cbv zeta. split; [reflexivity|]. split; [|split].
  - eexists. vm_compute. reflexivity.
  - vm_compute. reflexivity.
  - vm_compute. discriminate.
Qed.

(** The same upstream and plugin on the legacy path: the direct result ends
    the request, no resubmission follows the plugin invocation, and the
    result comes back with the usage ['0']. *)
Lemma direct_result_returned_on_legacy_path :
  let E := scripted_env "direct" in
  let run := get_chat_response E demo_cfg 4 0 7 "What is the weather?" empty_helper in
  (exists rq, trace (fst run) = [EvChat rq; EvPlugin "weather" "{}" (Ok "direct")])
  /\ snd run = Returns (VStr "direct", VStr "0").
Proof.
  cbv zeta. split.
  - eexists. vm_compute. reflexivity.
  - vm_compute. reflexivity.
Qed.

(** * Further properties of the engine *)

(** ** Model tables *)

(** X1.  Only identifiers of [GPT_ALL_MODELS] are ever reported as lacking
    function calling: for an identifier that the tables do not list,
    [are_functions_available] answers [True]. *)
Theorem are_functions_available_unknown_model (m : string) :
  py_in m GPT_ALL_MODELS = false -> are_functions_available m = true.
Proof.
  intros Hunknown. unfold are_functions_available.
  destruct (not_py_in_all m Hunknown) as (H3 & H16 & H4 & H32 & _ & _ & _ & _ & HO).
  rewrite HO.
  destruct (py_in m ["gpt-3.5-turbo-0301"; "gpt-4-0314"; "gpt-4-32k-0314";
                     "gpt-3.5-turbo-0613"; "gpt-3.5-turbo-16k-0613"]) eqn:Hlegacy;
    [|reflexivity].
  apply py_in_In in Hlegacy. exfalso.
  assert (Hknown : py_in m GPT_ALL_MODELS = true).
  { cbn in Hlegacy.
    repeat (destruct Hlegacy as [<-|Hlegacy]; [reflexivity|]). contradiction. }
  congruence.
Qed.

Lemma are_functions_available_unknown_model_witness :
  py_in "gpt-5" GPT_ALL_MODELS = false /\ are_functions_available "gpt-5" = true.
Proof.
  split; [reflexivity|].
  apply (are_functions_available_unknown_model "gpt-5"). reflexivity.
Defined.

(** X2.  For every identifier of [GPT_ALL_MODELS] the default output budget
    of [default_max_tokens] is positive and smaller than the context window
    of [__max_model_tokens]. *)
Theorem default_max_tokens_fits_window (cfg : Config) :
  In (model cfg) GPT_ALL_MODELS ->
  exists budget window,
    default_max_tokens (model cfg) = Some budget
    /\ max_model_tokens cfg = Ok window
    /\ 0 < budget < window.
Proof.
  unfold max_model_tokens. generalize (model cfg) as m. intros m H.
  unfold GPT_ALL_MODELS in H. cbn in H.
  repeat (destruct H as [<-|H];
          [do 2 eexists; split; [reflexivity|split; [reflexivity|split; reflexivity]]|]).
  contradiction.
Qed.

Lemma default_max_tokens_fits_window_witness :
  In (model demo_cfg) GPT_ALL_MODELS
  /\ exists budget window,
      default_max_tokens "gpt-4o" = Some budget
      /\ max_model_tokens demo_cfg = Ok window
      /\ 0 < budget < window.
Proof.
  assert (Hin : In (model demo_cfg) GPT_ALL_MODELS) by (apply py_in_In; reflexivity).
  split; [exact Hin|].
  exact (default_max_tokens_fits_window demo_cfg Hin).
Defined.

(** ** Translations *)

(** X3.  When the English table exists [localized_text] never fails: it
    gives the text of the key in the requested language when there is one,
    else the English text when there is one, else the key itself.  Without
    an English table a missing translation ends in [KeyError]. *)
Theorem localized_text_falls_back (translations : Translations.table)
    (key bot_language : string) :
  (forall text,
      Translations.lookup_text translations bot_language key = Ok text ->
      Translations.localized_text translations key bot_language = Ok text)
  /\ (forall en,
         translations !! "en" = Some en ->
         Translations.lookup_text translations bot_language key = Raise KeyError ->
         Translations.localized_text translations key bot_language
         = Ok (match en !! key with Some text => text | None => key end))
  /\ (forall en,
         translations !! "en" = Some en ->
         exists text, Translations.localized_text translations key bot_language = Ok text)
  /\ (translations !! "en" = None ->
      Translations.lookup_text translations bot_language key = Raise KeyError ->
      Translations.localized_text translations key bot_language = Raise KeyError).
Proof.
  unfold Translations.localized_text.
  assert (Hlookup : forall e, Translations.lookup_text translations bot_language key = Raise e
                              -> e = KeyError).
  { unfold Translations.lookup_text. intros e.
    destruct (translations !! bot_language) as [texts|]; [|congruence].
    destruct (texts !! key); congruence. }
  split; [|split; [|split]].
  - intros text ->. reflexivity.
  - intros en Hen ->. rewrite Hen. destruct (en !! key); reflexivity.
  - intros en Hen.
    destruct (Translations.lookup_text translations bot_language key) as [text|e] eqn:Hl.
    + eauto.
    + rewrite (Hlookup e eq_refl), Hen. destruct (en !! key); eauto.
  - intros Hen ->. rewrite Hen. reflexivity.
Qed.

(** ** History store *)

(** X4.  [__add_to_history] and [__add_function_call_to_history] fail with
    [KeyError] and change nothing when the chat has no conversation;
    otherwise they append exactly one message at the end of that
    conversation and leave every other conversation, the vision flags, the
    time stamps and the calls made as they were. *)
Theorem add_to_history_appends (chat_id : Z) (role function_name text : string)
    (content : Content) (st : Helper) :
  let appended (m : Message) (run : Helper * outcome unit) : Prop :=
    match conversations st !! chat_id with
    | None => run = (st, Raises KeyError)
    | Some h =>
        snd run = Returns tt
        /\ conversations (fst run) !! chat_id = Some (h ++ [m])
        /\ (forall other, other <> chat_id ->
               conversations (fst run) !! other = conversations st !! other)
        /\ conversations_vision (fst run) = conversations_vision st
        /\ last_updated (fst run) = last_updated st
        /\ trace (fst run) = trace st
    end in
  appended (mk_message role content) (add_to_history chat_id role content st)
  /\ appended (mk_function_message function_name text)
       (add_function_call_to_history chat_id function_name text st).
Proof.
  cbv zeta. unfold add_to_history, add_function_call_to_history, bind, history, set_history.
  destruct (conversations st !! chat_id) as [h|]; [|split; reflexivity].
  cbn [fst snd conversations conversations_vision last_updated trace].
  split; (split; [reflexivity|]; split; [apply lookup_insert_eq|];
          split; [|repeat split]; intros other Hother;
          apply lookup_insert_ne; congruence).
Qed.

(** X5.  For a chat that has a conversation, [get_conversation_stats] leaves
    the helper as it is; it fails exactly when the estimate fails; the count
    it returns is the number of stored messages, and the estimate is at
    least 3 for each message and 3 more. *)
Theorem get_conversation_stats_existing (E : Env) (cfg : Config) (chat_id : Z)
    (st : Helper) (h : list Message) :
  conversations st !! chat_id = Some h ->
  fst (get_conversation_stats E cfg chat_id st) = st
  /\ snd (get_conversation_stats E cfg chat_id st)
     = match count_tokens E cfg h with
       | Ok tokens => Returns (len h, tokens)
       | Raise e => Raises e
       end
  /\ forall tokens, count_tokens E cfg h = Ok tokens -> 3 * len h + 3 <= tokens.
Proof.
  intros Hh.
  assert (Hrun : get_conversation_stats E cfg chat_id st
                 = (st, match count_tokens E cfg h with
                        | Ok tokens => Returns (len h, tokens)
                        | Raise e => Raises e
                        end)).
  { unfold get_conversation_stats, bind, get_state. rewrite Hh.
    unfold ret, history, lift. cbn. rewrite !Hh. cbn.
    destruct (count_tokens E cfg h); reflexivity. }
  rewrite Hrun. split; [reflexivity|]. split; [reflexivity|].
  intros tokens. unfold count_tokens. fold (selected_encoding E cfg).
  destruct (py_in (model cfg) GPT_ALL_MODELS); [|discriminate].
  rewrite count_tokens_loop_sum.
  destruct (sum_costs (message_cost E cfg) h) as [s|e] eqn:Hs; cbn [res_bind];
    [|discriminate].
  intros [= <-].
  enough (3 * len h <= s) by lia.
  clear Hh Hrun. revert s Hs. induction h as [|m h IH]; cbn [sum_costs]; intros s Hs.
  - injection Hs as <-. unfold len. cbn [length]. lia.
  - destruct (message_cost E cfg m) as [c|e] eqn:Hc; cbn [res_bind] in Hs; [|discriminate].
    destruct (sum_costs (message_cost E cfg) h) as [s'|e]; cbn [res_bind] in Hs;
      [|discriminate].
    injection Hs as <-. apply message_cost_lower_bound in Hc.
    specialize (IH s' eq_refl). unfold len in *. cbn [length]. lia.
Qed.

Lemma get_conversation_stats_existing_witness :
  conversations helper_two_turns !! 7 = Some two_turns
  /\ fst (get_conversation_stats demo_env demo_cfg 7 helper_two_turns) = helper_two_turns
  /\ snd (get_conversation_stats demo_env demo_cfg 7 helper_two_turns) = Returns (2, 49).
Proof.
  split; [reflexivity|].
  destruct (get_conversation_stats_existing demo_env demo_cfg 7 helper_two_turns two_turns
              eq_refl) as (Hst & Hout & _).
  split; [exact Hst|]. rewrite Hout. reflexivity.
Defined.

(** ** Protocol adapter *)

(** X6.  The plugin specifications offered to the Responses API: a tool is
    listed exactly when some specification has a non-empty name; the tool
    is a function tool of that name, with the description of the
    specification (the empty string when it has none) and its parameters
    (the empty object schema when it has none). *)
Theorem responses_tools_lists_valid_specs (specs : list FunctionSpec) (tool : Tool) :
  In tool (responses_tools specs)
  <-> exists spec name,
        In spec specs /\ spec_name spec = Some name /\ name <> ""
        /\ tool = ToolFunction name (cfg_get (spec_description spec) "")
                    (cfg_get (spec_parameters spec) default_parameters).
Proof.
  induction specs as [|spec rest IH]; cbn [responses_tools].
  - split; [contradiction|]. intros (spec & name & [] & _).
  - assert (Hrest : In tool (responses_tools rest) ->
                    exists spec0 name,
                      In spec0 (spec :: rest) /\ spec_name spec0 = Some name /\ name <> ""
                      /\ tool = ToolFunction name (cfg_get (spec_description spec0) "")
                                  (cfg_get (spec_parameters spec0) default_parameters)).
    { intros Hin. apply IH in Hin. destruct Hin as (spec0 & name & Hin & Hrest).
      exists spec0, name. split; [right; exact Hin | exact Hrest]. }
    destruct (spec_name spec) as [name|] eqn:Hname.
    + destruct (String.eqb_spec name "") as [->|Hne].
      * split; [exact Hrest|].
        intros (spec0 & name0 & [<-|Hin] & Hname0 & Hne0 & ->).
        -- congruence.
        -- apply IH. eauto 6.
      * split.
        -- intros [<-|Hin]; [|exact (Hrest Hin)].
           exists spec, name. split; [left; reflexivity|]. auto.
        -- intros (spec0 & name0 & [<-|Hin] & Hname0 & Hne0 & ->).
           ++ left. congruence.
           ++ right. apply IH. eauto 6.
    + split; [exact Hrest|].
      intros (spec0 & name0 & [<-|Hin] & Hname0 & Hne0 & ->).
      * congruence.
      * apply IH. eauto 6.
Qed.

(** ** Legacy tool-call resolver *)

(** X7.  Reading a streamed response, the resolver builds the name and the
    arguments of the call by appending the pieces that the chunks carry, in
    their order.  When the chunks end, or when the next chunk finishes with
    the reason ['function_call'], the call is made with what has been
    gathered; any other chunk ends the reading with no call, and the stream
    is handed back without the chunks read so far. *)
Theorem scan_stream_accumulates (items : list (list ChunkChoice))
    (calls : list FunctionCall) (tail : list (list ChunkChoice))
    (function_name arguments : string) :
  Forall2 (fun item fc => chunk_call item = Some fc) items calls ->
  let name := fold_left append_opt (map fc_name calls) function_name in
  let args := fold_left append_opt (map fc_arguments calls) arguments in
  scan_stream (items ++ tail) function_name arguments = scan_stream tail name args
  /\ (tail = [] -> scan_stream (items ++ tail) function_name arguments = Call name args)
  /\ (forall closing rest,
         tail = closing :: rest ->
         chunk_call closing = None ->
         scan_stream (items ++ tail) function_name arguments
         = match chunk_finish closing with
           | Some reason =>
               if String.eqb reason "function_call" then Call name args
               else NoCall (RStream rest)
           | None => NoCall (RStream rest)
           end).
Proof.
  intros Hitems name args.
  assert (Hrun : scan_stream (items ++ tail) function_name arguments
                 = scan_stream tail name args).
  { subst name args. revert function_name arguments.
    induction Hitems as [|item fc items calls Hitem _ IH]; intros function_name arguments.
    - reflexivity.
    - cbn [app map fold_left scan_stream].
      destruct item as [|first_choice others]; [discriminate|].
      cbn [chunk_call] in Hitem. rewrite Hitem. apply IH. }
  split; [exact Hrun|]. split.
  - intros ->. rewrite Hrun. reflexivity.
  - intros closing rest -> Hclosing. rewrite Hrun. cbn [scan_stream].
    destruct closing as [|first_choice others]; [reflexivity|].
    cbn [chunk_call chunk_finish] in *. rewrite Hclosing. reflexivity.
Qed.

Lemma scan_stream_accumulates_witness :
  let piece (name arguments : option string) : list ChunkChoice :=
    [ {| delta_content := None;
         delta_function_call := Some {| fc_name := name; fc_arguments := arguments |};
         finish_reason := None |} ] in
  let closing : list ChunkChoice :=
    [ {| delta_content := None; delta_function_call := None;
         finish_reason := Some "function_call" |} ] in
  scan_stream [piece (Some "wea") None; piece (Some "ther") (Some "{"); piece None (Some "}");
               closing; []] "" ""
  = Call "weather" "{}".
Proof.
  intros piece closing.
  destruct (scan_stream_accumulates
              [piece (Some "wea") None; piece (Some "ther") (Some "{"); piece None (Some "}")]
              [ {| fc_name := Some "wea"; fc_arguments := None |};
                {| fc_name := Some "ther"; fc_arguments := Some "{" |};
                {| fc_name := None; fc_arguments := Some "}" |} ]
              [closing; []] "" "")
    as (_ & _ & Hclosing).
  - repeat constructor.
  - exact (Hclosing closing [[]] eq_refl eq_refl).
Defined.

(** ** Request stage *)

Lemma wrap_errors_raises {A} (E : Env) (cfg : Config) (c : M A) (st : Helper) (e : exn) :
  snd (wrap_errors E cfg c st) = Raises e -> request_error E cfg e.
Proof.
  unfold wrap_errors, try_except, request_error, error_banner.
  destruct (c st) as [st1 [a|e0|]]; cbn [snd]; [discriminate| |discriminate].
  destruct e0; cbn [raise snd]; intros [= <-]; eauto.
Qed.

Lemma wrap_errors_returns {A} (E : Env) (cfg : Config) (c : M A) (st : Helper) (a : A) :
  snd (wrap_errors E cfg c st) = Returns a -> snd (c st) = Returns a.
Proof.
  unfold wrap_errors, try_except.
  destruct (c st) as [st1 [a0|e0|]]; cbn [snd]; [trivial| |discriminate].
  destruct e0; cbn [raise snd]; discriminate.
Qed.

Lemma wrap_errors_state {A} (E : Env) (cfg : Config) (c : M A) (st : Helper) :
  fst (wrap_errors E cfg c st) = fst (c st).
Proof.
  unfold wrap_errors, try_except.
  destruct (c st) as [st1 [a0|e0|]]; cbn [fst]; [reflexivity| |reflexivity].
  destruct e0; reflexivity.
Qed.

(** Whatever the decorator hands on was the outcome of one of the attempts. *)
Lemma with_retry_attempt {A} (c : M A) (st : Helper) :
  exists st0, with_retry c st = c st0.
Proof.
  unfold with_retry, try_except.
  destruct (c st) as [st1 [a|e|]] eqn:H1; [eauto| |eauto].
  destruct (is_rate_limit e); [|exists st; symmetry; exact H1].
  destruct (c st1) as [st2 [a|e'|]] eqn:H2; [eauto| |eauto].
  destruct (is_rate_limit e'); [eauto|]. exists st1. symmetry. exact H2.
Qed.

(** X8.  The request stage, [__common_get_chat_response] under its [@retry]
    decorator, lets only two kinds of exception out: a rate-limit error, or
    an [Exception] whose text is the warning banner with the localized
    label, followed by the text of the error that caused it.  No
    [KeyError], [NotImplementedError] or upstream error leaves it as it
    is. *)
Theorem request_stage_errors (E : Env) (cfg : Config) (fuel : nat) (now chat_id : Z)
    (query : string) (stream : bool) (st : Helper) (e : exn) :
  snd (with_retry (common_get_chat_response E cfg fuel now chat_id query stream) st)
  = Raises e ->
  request_error E cfg e.
Proof.
  destruct (with_retry_attempt
              (common_get_chat_response E cfg fuel now chat_id query stream) st)
    as [st0 ->].
  unfold common_get_chat_response. apply wrap_errors_raises.
Qed.

Lemma request_stage_errors_witness :
  let cfg := with_model "gpt-5" demo_cfg in
  exists e,
    snd (with_retry (common_get_chat_response demo_env cfg 1 0 7 "Hi" false) empty_helper)
    = Raises e
    /\ request_error demo_env cfg e.
Proof.
  intros cfg. eexists. split.
  - vm_compute. reflexivity.
  - apply (request_stage_errors demo_env cfg 1 0 7 "Hi" false empty_helper).
    vm_compute. reflexivity.
Defined.

(** What a bind returns is what its continuation returned. *)
Lemma bind_returns_only {A B} (P : B -> Prop) (c : M A) (f : A -> M B) (st : Helper) (b : B) :
  (forall a st1, snd (f a st1) = Returns b -> P b) ->
  snd (bind c f st) = Returns b -> P b.
Proof.
  unfold bind. intros Hf.
  destruct (c st) as [st1 [a|e|]]; cbn [snd]; [apply Hf|discriminate|discriminate].
Qed.

(** On the Responses path the request stage returns the pair of the answer
    and the usage. *)
Lemma common_get_chat_response_answer (E : Env) (cfg : Config) (fuel : nat) (now chat_id : Z)
    (query : string) (stream : bool) (st : Helper) (r : CommonResult) :
  cfg_get (use_responses_api cfg) false = true ->
  snd (common_get_chat_response E cfg fuel now chat_id query stream st) = Returns r ->
  exists answer usage, r = CRAnswer answer usage.
Proof.
  intros Hpath Hr. apply wrap_errors_returns in Hr. revert Hr. rewrite Hpath. cbn [negb].
  set (P := fun r : CommonResult => exists answer usage, r = CRAnswer answer usage).
  change (exists answer usage, r = CRAnswer answer usage) with (P r).
  repeat first
    [ apply bind_returns_only; intros ? ?
    | match goal with
      | |- context [let '(_, _) := ?looped in _] => destruct looped
      end ].
  cbn [ret snd]. intros [= <-]. unfold P. eauto.
Qed.

(** What [get_chat_response] returns on the Responses path. *)
Lemma get_chat_response_responses_run (E : Env) (cfg : Config) (fuel : nat)
    (now chat_id : Z) (query : string) (st st' : Helper) (full : PyVal * PyVal) :
  cfg_get (use_responses_api cfg) false = true ->
  get_chat_response E cfg fuel now chat_id query st = (st', Returns full) ->
  exists h tokens,
    conversations st' !! chat_id = Some h
    /\ count_tokens E cfg h = Ok tokens
    /\ full = (VStr (if show_usage cfg then usage_line E cfg tokens else ""),
               VStr (py_str_int E tokens)).
Proof.
  intros Hpath. unfold get_chat_response. rewrite Hpath. cbn [negb].
  unfold bind, history, lift, ret.
  destruct (with_retry_attempt
              (common_get_chat_response E cfg fuel now chat_id query false) st)
    as [st0 Hattempt].
  destruct (with_retry (common_get_chat_response E cfg fuel now chat_id query false) st)
    as [st1 [r|e|]]; [|discriminate|discriminate].
  assert (Hr : snd (common_get_chat_response E cfg fuel now chat_id query false st0)
               = Returns r) by (rewrite <- Hattempt; reflexivity).
  destruct (common_get_chat_response_answer E cfg fuel now chat_id query false st0 r
              Hpath Hr) as (a & u & ->).
  destruct (conversations st1 !! chat_id) as [h|] eqn:Hh; [|discriminate].
  destruct (count_tokens E cfg h) as [tokens|e] eqn:Htokens; [|discriminate].
  cbn [outcome_of_res]. intros [= <- <-].
  exists h, tokens. split; [exact Hh|]. split; [exact Htokens|].
  unfold usage_line. destruct (show_usage cfg); reflexivity.
Qed.

(** X9.  On the Responses path [get_chat_response] does not hand on the
    answer that the request stage computed: the value it reads, a pair, has
    no [output_text].  The text it returns is empty, or is the usage line
    alone when [show_usage] is on, and the usage it reports is the token
    estimate of the stored conversation. *)
Theorem get_chat_response_responses_path (E : Env) (cfg : Config) (fuel : nat)
    (now chat_id : Z) (query : string) (st : Helper) (answer usage : PyVal) :
  cfg_get (use_responses_api cfg) false = true ->
  snd (get_chat_response E cfg fuel now chat_id query st) = Returns (answer, usage) ->
  exists h tokens,
    conversations (fst (get_chat_response E cfg fuel now chat_id query st)) !! chat_id
    = Some h
    /\ count_tokens E cfg h = Ok tokens
    /\ usage = VStr (py_str_int E tokens)
    /\ answer = VStr (if show_usage cfg then usage_line E cfg tokens else "").
Proof.
  intros Hpath Hout.
  destruct (get_chat_response E cfg fuel now chat_id query st) as [st' out] eqn:Hrun.
  cbn [fst snd] in *. subst out.
  destruct (get_chat_response_responses_run E cfg fuel now chat_id query st st' _ Hpath Hrun)
    as (h & tokens & Hh & Htokens & [= -> ->]).
  exists h, tokens. auto.
Qed.

Lemma get_chat_response_responses_path_witness :
  let E := scripted_env "sunny" in
  let cfg := with_responses_api demo_cfg in
  let run := get_chat_response E cfg 4 0 7 "What is the weather?" empty_helper in
  cfg_get (use_responses_api cfg) false = true
  /\ snd run = Returns (VStr "", VStr "91")
  /\ exists h tokens,
      conversations (fst run) !! 7 = Some h
      /\ last h = Some (mk_message "assistant" (CStr "It is sunny."))
      /\ count_tokens E cfg h = Ok tokens
      /\ VStr "91" = VStr (py_str_int E tokens)
      /\ VStr "" = VStr (if show_usage cfg then usage_line E cfg tokens else "").
Proof.
  intros E cfg run.
  assert (Hrun : snd run = Returns (VStr "", VStr "91")) by (vm_compute; reflexivity).
  split; [reflexivity|]. split; [exact Hrun|].
  destruct (get_chat_response_responses_path E cfg 4 0 7 "What is the weather?" empty_helper
              (VStr "") (VStr "91") eq_refl Hrun) as (h & tokens & Hh & Htokens & Hu & Ha).
  exists h, tokens. split; [exact Hh|]. split; [|auto].
  revert Hh. vm_compute. intros [= <-]. reflexivity.
Defined.

(** ** Streaming *)

Lemma g_bind_lift_returns_inv {A B} (c : M A) (k : A -> G B) (st st' : Helper)
    (ys : list Yield) (b : B) :
  g_bind (g_lift c) k st = (st', (ys, Returns b)) ->
  exists a st1, c st = (st1, Returns a) /\ k a st1 = (st', (ys, Returns b)).
Proof.
  unfold g_bind, g_lift.
  destruct (c st) as [st1 [a|e|]]; [|discriminate|discriminate].
  destruct (k a st1) as [st2 [ys2 out2]] eqn:Hk. cbn [app].
  intros [= <- <- ->]. eauto.
Qed.

Lemma g_bind_returns_inv {A B} (g : G A) (k : A -> G B) (st st' : Helper)
    (ys : list Yield) (b : B) :
  g_bind g k st = (st', (ys, Returns b)) ->
  exists a st1 ys1 ys2,
    g st = (st1, (ys1, Returns a)) /\ k a st1 = (st', (ys2, Returns b)) /\ ys = ys1 ++ ys2.
Proof.
  unfold g_bind.
  destruct (g st) as [st1 [ys1 [a|e|]]]; [|discriminate|discriminate].
  destruct (k a st1) as [st2 [ys2 out2]] eqn:Hk.
  intros [= <- <- ->]. exists a, st1, ys1, ys2. auto.
Qed.

Lemma partial_yields_cons (piece : string) (pieces : list string) (answer : string) :
  partial_yields (piece :: pieces) answer
  = (VStr (answer +:+ piece), VStr "not_finished")
    :: partial_yields pieces (answer +:+ piece).
Proof. reflexivity. Qed.

(** The loop over the chunks of a stream leaves the helper alone, yields
    the partial answers and ends with the whole text. *)
Lemma stream_chunks_run (chunks : list (list ChunkChoice)) :
  forall (answer : string) (st : Helper),
    stream_chunks chunks answer st
    = (st, (partial_yields (omap chunk_text chunks) answer,
            Returns (joined (omap chunk_text chunks) answer))).
Proof.
  induction chunks as [|chunk rest IH]; intros answer st; [reflexivity|].
  cbn [stream_chunks omap list_omap].
  destruct chunk as [|first_choice others]; cbn [chunk_text]; [apply IH|].
  destruct (delta_content first_choice) as [content|]; [|apply IH].
  destruct (String.eqb content ""); [apply IH|].
  unfold g_bind, g_yield. rewrite IH. reflexivity.
Qed.

Lemma stream_events_run (events : list StreamEvent) :
  forall (answer : string) (st : Helper),
    stream_events events answer st
    = (st, (partial_yields (omap event_text events) answer,
            Returns (joined (omap event_text events) answer))).
Proof.
  induction events as [|event rest IH]; intros answer st; [reflexivity|].
  cbn [stream_events omap list_omap]. unfold event_text.
  destruct (se_type event) as [et|]; [|apply IH].
  destruct (String.eqb et "response.output_text.delta"); [|apply IH].
  destruct (se_delta event) as [delta|]; [|apply IH].
  destruct (String.eqb delta ""); [apply IH|].
  unfold g_bind, g_yield. rewrite IH. reflexivity.
Qed.

Section GKeeps.

Context (R : Helper -> Helper -> Prop) `{!PreOrder R}.
Context {A B : Type}.

Lemma gkeeps_bind (g : G A) (k : A -> G B) (st : Helper) :
  gkeeps R g st ->
  (forall a st1, gkeeps R (k a) st1) ->
  gkeeps R (g_bind g k) st.
Proof.
  unfold gkeeps, g_bind. intros Hg Hk.
  destruct (g st) as [st1 [ys [a|e|]]]; cbn [fst] in *; [|exact Hg|exact Hg].
  specialize (Hk a st1). destruct (k a st1) as [st2 [ys2 out2]]. cbn [fst] in *.
  etransitivity; eassumption.
Qed.

Lemma gkeeps_try (g : G A) (h : exn -> G A) (st : Helper) :
  gkeeps R g st ->
  (forall e st1, gkeeps R (h e) st1) ->
  gkeeps R (g_try g h) st.
Proof.
  unfold gkeeps, g_try. intros Hg Hh.
  destruct (g st) as [st1 [ys [a|e|]]]; cbn [fst] in *; [exact Hg| |exact Hg].
  specialize (Hh e st1). destruct (h e st1) as [st2 [ys2 out2]]. cbn [fst] in *.
  etransitivity; eassumption.
Qed.

Lemma gkeeps_lift (c : M A) (st : Helper) : keeps R c st -> gkeeps R (g_lift c) st.
Proof. unfold gkeeps, keeps, g_lift. destruct (c st) as [st1 out]. trivial. Qed.

Lemma gkeeps_ret (a : A) (st : Helper) : gkeeps R (g_ret a) st.
Proof. unfold gkeeps. cbn. reflexivity. Qed.

End GKeeps.

Lemma gkeeps_yield (R : Helper -> Helper -> Prop) `{!PreOrder R} (y : Yield) (st : Helper) :
  gkeeps R (g_yield y) st.
Proof. unfold gkeeps. cbn. reflexivity. Qed.

Lemma gkeeps_stream_chunks (R : Helper -> Helper -> Prop) `{!PreOrder R}
    (chunks : list (list ChunkChoice)) (answer : string) (st : Helper) :
  gkeeps R (stream_chunks chunks answer) st.
Proof. unfold gkeeps. rewrite stream_chunks_run. reflexivity. Qed.

Lemma gkeeps_stream_events (R : Helper -> Helper -> Prop) `{!PreOrder R}
    (events : list StreamEvent) (answer : string) (st : Helper) :
  gkeeps R (stream_events events answer) st.
Proof. unfold gkeeps. rewrite stream_events_run. reflexivity. Qed.

(** ** Invariants of a request *)

Section Keeps.

Context (R : Helper -> Helper -> Prop) `{!PreOrder R}.
Context {A B : Type}.

Lemma keeps_bind (c : M A) (f : A -> M B) (st : Helper) :
  keeps R c st ->
  (forall a, snd (c st) = Returns a -> keeps R (f a) (fst (c st))) ->
  keeps R (bind c f) st.
Proof.
  unfold keeps, bind. intros Hc Hf.
  destruct (c st) as [st1 [a|e|]]; cbn [fst snd] in *; [|exact Hc|exact Hc].
  etransitivity; [exact Hc | exact (Hf a eq_refl)].
Qed.

Lemma keeps_try_except (c : M A) (h : exn -> M A) (st : Helper) :
  keeps R c st ->
  (forall e, snd (c st) = Raises e -> keeps R (h e) (fst (c st))) ->
  keeps R (try_except c h) st.
Proof.
  unfold keeps, try_except. intros Hc Hh.
  destruct (c st) as [st1 [a|e|]]; cbn [fst snd] in *; [exact Hc| |exact Hc].
  etransitivity; [exact Hc | exact (Hh e eq_refl)].
Qed.

(** A step that leaves the helper as it is. *)
Lemma keeps_pure (c : M A) (st : Helper) : fst (c st) = st -> keeps R c st.
Proof. unfold keeps. intros ->. reflexivity. Qed.

End Keeps.

(** The steps of the engine keep every relation that the ways of changing
    the helper keep: a call logged, a time stamp set, a conversation reset,
    a function result appended to a stored conversation, a stored
    conversation replaced, and what a plugin has done to the helper it was
    handed. *)
Section KeepsEngine.

Context (R : Helper -> Helper -> Prop) `{!PreOrder R}.
Context (E : Env) (cfg : Config) (chat_id : Z).

Hypothesis R_log : forall ev st, R st (log_event ev st).
Hypothesis R_time : forall now st, R st (fst (set_last_updated chat_id now st)).
Hypothesis R_reset :
  forall content st, R st (fst (reset_chat_history cfg chat_id content st)).
Hypothesis R_function_result :
  forall function_name content h st,
    conversations st !! chat_id = Some h ->
    R st (fst (set_history chat_id (h ++ [mk_function_message function_name content]) st)).
Hypothesis R_store :
  forall h h' st,
    conversations st !! chat_id = Some h -> R st (fst (set_history chat_id h' st)).
Hypothesis R_plugin :
  forall function_name arguments st,
    R st (after_plugin st (fst (call_function E st function_name arguments))).

Lemma keeps_ret {A} (a : A) (st : Helper) : keeps R (ret a) st.
Proof. apply keeps_pure; [assumption|reflexivity]. Qed.

Lemma keeps_raise {A} (e : exn) (st : Helper) : keeps R (raise (A := A) e) st.
Proof. apply keeps_pure; [assumption|reflexivity]. Qed.

Lemma keeps_out_of_fuel {A} (st : Helper) : keeps R (out_of_fuel (A := A)) st.
Proof. apply keeps_pure; [assumption|reflexivity]. Qed.

Lemma keeps_lift {A} (r : res A) (st : Helper) : keeps R (lift r) st.
Proof. apply keeps_pure; [assumption|reflexivity]. Qed.

Lemma keeps_get_state (st : Helper) : keeps R get_state st.
Proof. apply keeps_pure; [assumption|reflexivity]. Qed.

Lemma keeps_history (id : Z) (st : Helper) : keeps R (history id) st.
Proof.
  apply keeps_pure; [assumption|]. unfold history.
  destruct (conversations st !! id); reflexivity.
Qed.

Lemma keeps_vision_flag (id : Z) (st : Helper) : keeps R (vision_flag id) st.
Proof.
  apply keeps_pure; [assumption|]. unfold vision_flag.
  destruct (conversations_vision st !! id); reflexivity.
Qed.

Lemma keeps_max_age_reached (now : Z) (st : Helper) :
  keeps R (max_age_reached cfg now chat_id) st.
Proof.
  apply keeps_pure; [assumption|]. unfold max_age_reached.
  destruct (last_updated st !! chat_id); reflexivity.
Qed.

Lemma keeps_set_last_updated (now : Z) (st : Helper) :
  keeps R (set_last_updated chat_id now) st.
Proof. apply R_time. Qed.

Lemma keeps_reset (content : Content) (st : Helper) :
  keeps R (reset_chat_history cfg chat_id content) st.
Proof. apply R_reset. Qed.

(** Reading the conversation and storing one in its place. *)
Lemma keeps_replace (g : list Message -> list Message) (st : Helper) :
  keeps R (bind (history chat_id) (fun h => set_history chat_id (g h))) st.
Proof.
  unfold keeps, bind, history.
  destruct (conversations st !! chat_id) as [h|] eqn:Hh; [|reflexivity].
  exact (R_store h (g h) st Hh).
Qed.

Lemma keeps_add_to_history (role : string) (content : Content) (st : Helper) :
  keeps R (add_to_history chat_id role content) st.
Proof. exact (keeps_replace (fun h => h ++ [mk_message role content]) st). Qed.

Lemma keeps_add_function_call (function_name content : string) (st : Helper) :
  keeps R (add_function_call_to_history chat_id function_name content) st.
Proof.
  unfold keeps, add_function_call_to_history, bind, history.
  destruct (conversations st !! chat_id) as [h|] eqn:Hh; [|reflexivity].
  exact (R_function_result function_name content h st Hh).
Qed.

Lemma keeps_upstream_chat (rq : ChatRequest) (st : Helper) :
  keeps R (upstream_chat E rq) st.
Proof. apply R_log. Qed.

Lemma keeps_upstream_responses (rq : ResponsesRequest) (st : Helper) :
  keeps R (upstream_responses E rq) st.
Proof. apply R_log. Qed.

Lemma keeps_upstream_submit (response_id : string) (tool_outputs : list ToolOutput)
    (st : Helper) :
  keeps R (upstream_submit E response_id tool_outputs) st.
Proof. apply R_log. Qed.

Lemma keeps_plugin_call (function_name arguments : string) (st : Helper) :
  keeps R (plugin_call E function_name arguments) st.
Proof.
  unfold keeps, plugin_call.
  pose proof (R_plugin function_name arguments st) as Hplugin.
  destruct (call_function E st function_name arguments) as [touched result].
  cbn [fst] in *. etransitivity; [exact Hplugin|apply R_log].
Qed.

Ltac keeps_steps_with tac :=
  repeat first
    [ tac
    | apply keeps_out_of_fuel
    | apply keeps_ret | apply keeps_raise | apply keeps_lift | apply keeps_get_state
    | apply keeps_history | apply keeps_vision_flag | apply keeps_max_age_reached
    | apply keeps_set_last_updated | apply keeps_reset
    | apply keeps_add_function_call | apply keeps_add_to_history | apply keeps_replace
    | apply keeps_upstream_chat | apply keeps_upstream_responses
    | apply keeps_upstream_submit | apply keeps_plugin_call
    | assumption
    | (apply keeps_bind; [assumption| |intros ? _])
    | (apply keeps_try_except; [assumption| |intros ? _])
    | match goal with
      | |- keeps _ (if ?b then _ else _) _ => destruct b
      | |- keeps _ (match ?x with _ => _ end) _ => destruct x
      end ].

Ltac keeps_steps := keeps_steps_with fail.

Lemma keeps_summarise (conversation : list Message) (st : Helper) :
  keeps R (summarise E cfg conversation) st.
Proof. unfold summarise. keeps_steps. Qed.

Lemma keeps_summarise_if_too_long (query : string) (st : Helper) :
  keeps R (summarise_if_too_long E cfg chat_id query) st.
Proof.
  unfold summarise_if_too_long. keeps_steps_with ltac:(apply keeps_summarise).
Qed.

Lemma keeps_run_tools (tool_calls : list ToolCall) :
  forall (tool_outputs : list ToolOutput) (plugins_used : list string) (st : Helper),
    keeps R (run_tools E tool_calls tool_outputs plugins_used) st.
Proof.
  induction tool_calls as [|tool rest IH]; intros tool_outputs plugins_used st;
    cbn [run_tools]; keeps_steps_with ltac:(apply IH).
Qed.

Lemma keeps_tool_loop (fuel : nat) :
  forall (max_calls : Z) (resp : RResponse) (calls : Z) (plugins_used : list string)
         (st : Helper),
    keeps R (tool_loop E fuel max_calls resp calls plugins_used) st.
Proof.
  induction fuel as [|fuel IH]; intros max_calls resp calls plugins_used st;
    cbn [tool_loop].
  - keeps_steps.
  - keeps_steps_with ltac:(first [apply keeps_run_tools | apply IH]).
Qed.

Lemma keeps_handle_function_call (fuel : nat) :
  forall (response : Response) (stream : bool) (times : Z) (plugins_used : list string)
         (st : Helper),
    keeps R (handle_function_call E cfg fuel chat_id response stream times plugins_used) st.
Proof.
  induction fuel as [|fuel IH]; intros response stream times plugins_used st;
    cbn [handle_function_call].
  - apply keeps_out_of_fuel.
  - keeps_steps_with ltac:(apply IH).
Qed.

Lemma keeps_render_choices (cs : list ChatMessage) :
  forall (index : Z) (answer : string) (st : Helper),
    keeps R (render_choices E chat_id cs index answer) st.
Proof.
  induction cs as [|choice rest IH]; intros index answer st; cbn [render_choices];
    keeps_steps_with ltac:(apply IH).
Qed.

Lemma keeps_common_get_chat_response (fuel : nat) (now : Z) (query : string)
    (stream : bool) (st : Helper) :
  keeps R (common_get_chat_response E cfg fuel now chat_id query stream) st.
Proof.
  unfold common_get_chat_response, wrap_errors.
  keeps_steps_with ltac:(first [apply keeps_summarise_if_too_long | apply keeps_tool_loop]).
Qed.

Lemma keeps_with_retry {A} (c : M A) (st : Helper) :
  (forall st', keeps R c st') -> keeps R (with_retry c) st.
Proof. intros Hc. unfold with_retry. keeps_steps_with ltac:(apply Hc). Qed.

Lemma keeps_get_chat_response (fuel : nat) (now : Z) (query : string) (st : Helper) :
  keeps R (get_chat_response E cfg fuel now chat_id query) st.
Proof.
  unfold get_chat_response.
  apply keeps_bind; [assumption| |].
  { apply keeps_with_retry. intros st'. apply keeps_common_get_chat_response. }
  intros response _.
  keeps_steps_with
    ltac:(first [apply keeps_handle_function_call | apply keeps_render_choices]).
Qed.

Lemma keeps_get_conversation_stats (st : Helper) :
  keeps R (get_conversation_stats E cfg chat_id) st.
Proof. unfold get_conversation_stats. keeps_steps. Qed.

Lemma keeps_upstream_stream
    (responses_stream : list Event -> ResponsesRequest -> res StreamRun)
    (rq : ResponsesRequest) (st : Helper) :
  keeps R (upstream_stream responses_stream rq) st.
Proof. apply R_log. Qed.

Ltac gkeeps_steps :=
  repeat first
    [ apply gkeeps_yield; assumption
    | apply gkeeps_ret; assumption
    | apply gkeeps_stream_chunks; assumption
    | apply gkeeps_stream_events; assumption
    | (apply gkeeps_lift;
       keeps_steps_with
         ltac:(first [ apply keeps_with_retry; intros ?
                     | apply keeps_common_get_chat_response
                     | apply keeps_handle_function_call
                     | apply keeps_summarise_if_too_long
                     | apply keeps_upstream_stream
                     | apply keeps_get_chat_response ]))
    | (apply gkeeps_bind; [assumption| |intros ? ?])
    | (apply gkeeps_try; [assumption| |intros ? ?])
    | match goal with
      | |- gkeeps _ (if ?b then _ else _) _ => destruct b
      | |- gkeeps _ (match ?x with _ => _ end) _ => destruct x
      end ].

Lemma gkeeps_get_chat_response_stream
    (responses_stream : list Event -> ResponsesRequest -> res StreamRun) (fuel : nat)
    (now now_fallback : Z) (query : string) (st : Helper) :
  gkeeps R (get_chat_response_stream E cfg responses_stream fuel now now_fallback chat_id
              query) st.
Proof. unfold get_chat_response_stream, responses_stream_attempt. gkeeps_steps. Qed.

(** The vision methods also set the vision flag of the chat. *)
Section KeepsVision.

Context (vcfg : VisionConfig) {FileObj : Type}.
Context (encode_image : list Event -> FileObj -> res string).
Context (responses_stream : list Event -> ResponsesRequest -> res StreamRun).
Context (unbound_local_error : string -> exn).

Hypothesis R_flag : forall b st, R st (fst (set_vision_flag chat_id b st)).

Lemma keeps_set_vision_flag (b : bool) (st : Helper) :
  keeps R (set_vision_flag chat_id b) st.
Proof. apply R_flag. Qed.

Lemma keeps_encode (fileobj : FileObj) (st : Helper) :
  keeps R (encode encode_image fileobj) st.
Proof. apply keeps_pure; [assumption|reflexivity]. Qed.

Lemma keeps_summarise_if_too_long_vision (st : Helper) :
  keeps R (summarise_if_too_long_vision E cfg chat_id) st.
Proof.
  unfold summarise_if_too_long_vision. keeps_steps_with ltac:(apply keeps_summarise).
Qed.

Lemma keeps_common_get_chat_response_vision (now : Z) (content : list Part) (stream : bool)
    (st : Helper) :
  keeps R (common_get_chat_response_vision E cfg vcfg unbound_local_error now chat_id
             content stream) st.
Proof.
  unfold common_get_chat_response_vision, wrap_errors.
  keeps_steps_with
    ltac:(first [apply keeps_summarise_if_too_long_vision | apply keeps_set_vision_flag]).
Qed.

Lemma keeps_vision_content (fileobj : FileObj) (prompt : option string) (st : Helper) :
  keeps R (vision_content cfg vcfg encode_image fileobj prompt) st.
Proof. unfold vision_content. keeps_steps_with ltac:(apply keeps_encode). Qed.

Lemma keeps_interpret_image (now : Z) (fileobj : FileObj) (prompt : option string)
    (st : Helper) :
  keeps R (interpret_image E cfg vcfg encode_image unbound_local_error now chat_id fileobj
             prompt) st.
Proof.
  unfold interpret_image.
  keeps_steps_with
    ltac:(first [ apply keeps_vision_content
                | apply keeps_with_retry; intros ?
                | apply keeps_common_get_chat_response_vision
                | apply keeps_render_choices ]).
Qed.

Lemma gkeeps_interpret_image_stream (now now_fallback : Z) (fileobj : FileObj)
    (prompt : option string) (st : Helper) :
  gkeeps R (interpret_image_stream E cfg vcfg encode_image responses_stream
              unbound_local_error now now_fallback chat_id fileobj prompt) st.
Proof.
  unfold interpret_image_stream, vision_stream_attempt.
  repeat first
    [ apply gkeeps_yield; assumption
    | apply gkeeps_ret; assumption
    | apply gkeeps_stream_chunks; assumption
    | apply gkeeps_stream_events; assumption
    | (apply gkeeps_lift;
       keeps_steps_with
         ltac:(first [ apply keeps_vision_content
                     | apply keeps_with_retry; intros ?
                     | apply keeps_common_get_chat_response_vision
                     | apply keeps_upstream_stream
                     | apply keeps_interpret_image ]))
    | (apply gkeeps_bind; [assumption| |intros ? ?])
    | (apply gkeeps_try; [assumption| |intros ? ?])
    | match goal with
      | |- gkeeps _ (if ?b then _ else _) _ => destruct b
      | |- gkeeps _ (match ?x with _ => _ end) _ => destruct x
      | |- gkeeps _ (let '(_, _) := ?x in _) _ => destruct x
      end ].
Qed.

End KeepsVision.

End KeepsEngine.

Lemma same_elsewhere_preorder (chat_id : Z) : PreOrder (same_elsewhere chat_id).
Proof.
  split.
  - intros st other _. auto.
  - intros st1 st2 st3 H12 H23 other Hother.
    destruct (H12 other Hother) as (Hc & Hv & Hl).
    destruct (H23 other Hother) as (Hc' & Hv' & Hl').
    rewrite Hc', Hv', Hl'. auto.
Qed.

Lemma same_elsewhere_log (chat_id : Z) (ev : Event) (st : Helper) :
  same_elsewhere chat_id st (log_event ev st).
Proof. intros other _. auto. Qed.

Lemma same_elsewhere_time (chat_id now : Z) (st : Helper) :
  same_elsewhere chat_id st (fst (set_last_updated chat_id now st)).
Proof.
  intros other Hother. cbn. repeat split. apply lookup_insert_ne. congruence.
Qed.

Lemma same_elsewhere_reset (cfg : Config) (chat_id : Z) (content : Content) (st : Helper) :
  same_elsewhere chat_id st (fst (reset_chat_history cfg chat_id content st)).
Proof.
  intros other Hother. cbn. repeat split; apply lookup_insert_ne; congruence.
Qed.

Lemma same_elsewhere_store (chat_id : Z) (h' : list Message) (st : Helper) :
  same_elsewhere chat_id st (fst (set_history chat_id h' st)).
Proof.
  intros other Hother. cbn. repeat split. apply lookup_insert_ne. congruence.
Qed.

(** X10.  A request for one chat leaves every other chat alone, as far as
    the plugins do.  The plugins are handed the helper and may reach any
    chat; when they leave the other chats as they find them, then after
    [get_chat_response], on either path and whatever its outcome, the
    conversation, the vision flag and the time stamp of every other chat
    id are what they were.  [get_conversation_stats] calls no plugin and
    leaves the other chats alone in any case. *)
Theorem requests_leave_other_chats (E : Env) (cfg : Config) (fuel : nat) (now chat_id : Z)
    (query : string) (st : Helper) :
  (plugins_keep E (same_elsewhere chat_id) ->
   same_elsewhere chat_id st (fst (get_chat_response E cfg fuel now chat_id query st)))
  /\ same_elsewhere chat_id st (fst (get_conversation_stats E cfg chat_id st)).
Proof.
  pose proof (same_elsewhere_preorder chat_id) as Hpre.
  split.
  - intros Hplugins. apply (keeps_get_chat_response (same_elsewhere chat_id)).
    + apply same_elsewhere_log.
    + apply same_elsewhere_time.
    + apply same_elsewhere_reset.
    + intros name content h st' _. apply same_elsewhere_store.
    + intros h h' st' _. apply same_elsewhere_store.
    + intros name arguments st'. exact (Hplugins name arguments st').
  - apply (keeps_get_conversation_stats (same_elsewhere chat_id)).
    apply same_elsewhere_reset.
Qed.

Lemma requests_leave_other_chats_witness :
  let E := scripted_env "sunny" in
  let run := get_chat_response E (with_ceiling 1 demo_cfg) 4 0 8 "What is the weather?"
               helper_two_turns in
  plugins_keep E (same_elsewhere 8)
  /\ plugin_invocations (trace (fst run)) = 2%nat
  /\ conversations (fst run) !! 7 = Some two_turns
  /\ same_elsewhere 8 helper_two_turns (fst run).
Proof.
  intros E run.
  assert (Hplugins : plugins_keep E (same_elsewhere 8)).
  { intros name arguments st other _. cbn. auto. }
  split; [exact Hplugins|]. split; [vm_compute; reflexivity|].
  split; [vm_compute; reflexivity|].
  exact (proj1 (requests_leave_other_chats E (with_ceiling 1 demo_cfg) 4 0 8
                  "What is the weather?" helper_two_turns) Hplugins).
Defined.

(** The assumption on the plugins is needed: a plugin that empties the
    dictionaries of the helper it is handed takes the other chats with
    it. *)
Lemma meddling_plugin_reaches_other_chats :
  let run := get_chat_response meddling_env demo_cfg 4 0 8 "What is the weather?"
               helper_two_turns in
  conversations helper_two_turns !! 7 = Some two_turns
  /\ conversations (fst run) !! 7 = None
  /\ ~ same_elsewhere 8 helper_two_turns (fst run).
Proof.
  intros run.
  assert (Hgone : conversations (fst run) !! 7 = None) by (vm_compute; reflexivity).
  split; [reflexivity|]. split; [exact Hgone|].
  intros Hsame. destruct (Hsame 7 ltac:(lia)) as [Hconv _].
  rewrite Hgone in Hconv. discriminate.
Qed.

Lemma stays_flagged_preorder : PreOrder stays_flagged.
Proof. split; unfold stays_flagged; [intros st; auto | intros st1 st2 st3; auto]. Qed.

Lemma stays_flagged_reset (cfg : Config) (chat_id : Z) (content : Content) (st : Helper) :
  stays_flagged st (fst (reset_chat_history cfg chat_id content st)).
Proof.
  intros Hst id. cbn. destruct (decide (id = chat_id)) as [->|Hid].
  - rewrite !lookup_insert_eq. eauto.
  - rewrite !lookup_insert_ne by congruence. apply Hst.
Qed.

Lemma stays_flagged_store (chat_id : Z) (h h' : list Message) (st : Helper) :
  conversations st !! chat_id = Some h ->
  stays_flagged st (fst (set_history chat_id h' st)).
Proof.
  intros Hh Hst id. cbn. destruct (decide (id = chat_id)) as [->|Hid].
  - intros _. apply Hst. rewrite Hh. eauto.
  - rewrite lookup_insert_ne by congruence. apply Hst.
Qed.

(** X11.  The helper keeps its two dictionaries in step: when every chat
    that has a conversation has a vision flag, the same holds after
    [reset_chat_history] and after [get_conversation_stats], and, when the
    plugins, which are handed the helper, keep the two dictionaries in
    step as well, after [get_chat_response], on either path and whatever
    the outcome.  A helper that starts empty therefore never meets a
    conversation without its flag, unless a plugin has made one. *)
Theorem vision_flags_cover_conversations (E : Env) (cfg : Config) (fuel : nat)
    (now chat_id : Z) (query : string) (content : Content) (st : Helper) :
  flagged empty_helper
  /\ (flagged st ->
      flagged (fst (reset_chat_history cfg chat_id content st))
      /\ flagged (fst (get_conversation_stats E cfg chat_id st))
      /\ (plugins_keep E stays_flagged ->
          flagged (fst (get_chat_response E cfg fuel now chat_id query st)))).
Proof.
  split.
  { intros id. cbn. rewrite lookup_empty. intros [h Hh]. discriminate. }
  pose proof stays_flagged_preorder as Hpre.
  intros Hst. split; [|split].
  - exact (stays_flagged_reset cfg chat_id content st Hst).
  - refine (keeps_get_conversation_stats stays_flagged E cfg chat_id _ st Hst).
    apply stays_flagged_reset.
  - intros Hplugins.
    refine (keeps_get_chat_response stays_flagged E cfg chat_id _ _ _ _ _ _ fuel now query
              st Hst).
    + intros ev st' H. exact H.
    + intros now' st' H. exact H.
    + apply stays_flagged_reset.
    + intros name text h st'. apply stays_flagged_store.
    + intros h h' st'. apply stays_flagged_store.
    + intros name arguments st'. exact (Hplugins name arguments st').
Qed.

Lemma vision_flags_cover_conversations_witness :
  let E := scripted_env "sunny" in
  let run := get_chat_response E (with_ceiling 1 demo_cfg) 4 0 7 "What is the weather?"
               helper_two_turns in
  flagged helper_two_turns
  /\ plugins_keep E stays_flagged
  /\ plugin_invocations (trace (fst run)) = 2%nat
  /\ flagged (fst run).
Proof.
  intros E run.
  assert (Hst : flagged helper_two_turns).
  { intros id. cbn. destruct (decide (id = 7)) as [->|Hid].
    - intros _. rewrite lookup_singleton_eq. eauto.
    - rewrite lookup_singleton_ne by congruence. intros [h Hh]. discriminate. }
  assert (Hplugins : plugins_keep E stays_flagged).
  { intros name arguments st H. exact H. }
  split; [exact Hst|]. split; [exact Hplugins|]. split; [vm_compute; reflexivity|].
  destruct (vision_flags_cover_conversations E (with_ceiling 1 demo_cfg) 4 0 7
              "What is the weather?" (CStr "") helper_two_turns) as [_ Hkeeps].
  destruct (Hkeeps Hst) as (_ & _ & Hrun). exact (Hrun Hplugins).
Defined.

(** ** Legacy tool-call resolver, continued *)

Lemma grows_by_function_results_preorder (chat_id : Z) :
  PreOrder (grows_by_function_results chat_id).
Proof.
  split.
  - intros st h Hh. exists []. rewrite app_nil_r. split; [exact Hh|constructor].
  - intros st1 st2 st3 H12 H23 h Hh.
    destruct (H12 h Hh) as (added1 & Hh2 & Hadded1).
    destruct (H23 _ Hh2) as (added2 & Hh3 & Hadded2).
    exists (added1 ++ added2). rewrite app_assoc. split; [exact Hh3|].
    apply Forall_app. split; assumption.
Qed.

(** X12.  The legacy resolver itself only ever appends function results
    to the conversation: when the plugins it invokes, which are handed the
    helper, leave the conversation of the chat as they find it, then,
    whatever the outcome, the conversation that the resolver leaves is the
    one it found followed by messages of the role ["function"]; no earlier
    message is changed or dropped. *)
Theorem handle_function_call_appends_function_results (E : Env) (cfg : Config)
    (fuel : nat) (chat_id : Z) (response : Response) (stream : bool) (times : Z)
    (plugins_used : list string) (st : Helper) (h : list Message) :
  plugins_keep E (same_conversation chat_id) ->
  conversations st !! chat_id = Some h ->
  exists added,
    conversations
      (fst (handle_function_call E cfg fuel chat_id response stream times plugins_used st))
    !! chat_id = Some (h ++ added)
    /\ Forall (fun m => msg_role m = "function") added.
Proof.
  intros Hplugins Hh.
  pose proof (grows_by_function_results_preorder chat_id) as Hpre.
  assert (Hkeeps : keeps (grows_by_function_results chat_id)
                     (handle_function_call E cfg fuel chat_id response stream times
                        plugins_used) st).
  { apply keeps_handle_function_call.
    - exact Hpre.
    - intros ev st' h' Hh'. exists []. rewrite app_nil_r. split; [exact Hh'|constructor].
    - intros function_name content h0 st' Hh0 h' Hh'.
      exists [mk_function_message function_name content]. cbn.
      rewrite lookup_insert_eq. split; [congruence|].
      constructor; [reflexivity|constructor].
    - intros function_name arguments st' h' Hh'.
      exists []. rewrite app_nil_r. split; [|constructor].
      cbn [after_plugin conversations].
      rewrite (Hplugins function_name arguments st'). exact Hh'. }
  destruct (Hkeeps h Hh) as (added & Hadded & Hroles).
  exists added. split; [exact Hadded|].
  eapply Forall_impl; [exact Hroles|].
  intros m Hm. apply String.eqb_eq. exact Hm.
Qed.

Lemma handle_function_call_appends_function_results_witness :
  let E := scripted_env "sunny" in
  let run := handle_function_call E (with_ceiling 1 demo_cfg) 4 7
               tool_request false 0 [] helper_two_turns in
  plugins_keep E (same_conversation 7)
  /\ conversations helper_two_turns !! 7 = Some two_turns
  /\ conversations (fst run) !! 7
     = Some (two_turns ++ [mk_function_message "weather" "sunny";
                           mk_function_message "weather" "sunny"])
  /\ exists added,
      conversations (fst run) !! 7 = Some (two_turns ++ added)
      /\ Forall (fun m => msg_role m = "function") added.
Proof.
  intros E run.
  assert (Hplugins : plugins_keep E (same_conversation 7)).
  { intros name arguments st. reflexivity. }
  split; [exact Hplugins|]. split; [reflexivity|]. split; [vm_compute; reflexivity|].
  exact (handle_function_call_appends_function_results E (with_ceiling 1 demo_cfg) 4 7
           tool_request false 0 [] helper_two_turns two_turns Hplugins eq_refl).
Defined.

(** X13.  The legacy resolver names each plugin once: when the tuple
    [plugins_used] it is given has no repetition, the tuple it returns
    extends it and has no repetition either, however often a plugin was
    invoked. *)
Theorem handle_function_call_names_plugins_once (E : Env) (cfg : Config) (fuel : nat)
    (chat_id : Z) :
  forall (response : Response) (stream : bool) (times : Z) (plugins_used : list string)
         (st : Helper) (handled : Handled) (used : list string),
    NoDup plugins_used ->
    snd (handle_function_call E cfg fuel chat_id response stream times plugins_used st)
    = Returns (handled, used) ->
    NoDup used /\ exists more, used = plugins_used ++ more.
Proof.
  induction fuel as [|fuel IH];
    intros response stream times plugins_used st handled used Hnodup;
    cbn [handle_function_call]; [discriminate|].
  set (P := fun _ : Handled * list string =>
              NoDup used /\ exists more, used = plugins_used ++ more).
  change (NoDup used /\ exists more, used = plugins_used ++ more) with (P (handled, used)).
  apply bind_returns_only. intros [r|function_name arguments] st1.
  { cbn [ret snd]. intros [= <- <-]. unfold P. split; [exact Hnodup|].
    exists []. rewrite app_nil_r. reflexivity. }
  apply bind_returns_only. intros function_response st2.
  set (used' := if py_in function_name plugins_used then plugins_used
                else plugins_used ++ [function_name]).
  assert (Hused' : NoDup used' /\ exists more, used' = plugins_used ++ more).
  { subst used'. destruct (py_in function_name plugins_used) eqn:Hin.
    - split; [exact Hnodup|]. exists []. rewrite app_nil_r. reflexivity.
    - split; [|eauto]. apply NoDup_app. split; [exact Hnodup|]. split.
      + intros x Hx ->%list_elem_of_singleton.
        apply list_elem_of_In, py_in_In in Hx. congruence.
      + apply NoDup_singleton. }
  destruct Hused' as [Hnodup' (more' & Hmore')].
  destruct (is_direct_result E (HPlugin function_response)).
  { apply bind_returns_only. intros _ st3. cbn [ret snd]. intros [= <- <-].
    unfold P. split; [exact Hnodup'|]. eauto. }
  do 4 (apply bind_returns_only; intros ? ?).
  intros Hrec. apply IH in Hrec; [|exact Hnodup'].
  destruct Hrec as [Hfinal (more & ->)]. unfold P. split; [exact Hfinal|].
  rewrite Hmore', <- app_assoc. eauto.
Qed.

Lemma handle_function_call_names_plugins_once_witness :
  let run := handle_function_call (scripted_env "sunny") (with_ceiling 2 demo_cfg) 4 7
               tool_request false 0 [] helper_two_turns in
  NoDup ([] : list string)
  /\ plugin_invocations (trace (fst run)) = 3%nat
  /\ snd run = Returns (HResponse (plain_answer "It is sunny."), ["weather"])
  /\ NoDup ["weather"].
Proof.
  intros run.
  assert (Hrun : snd run = Returns (HResponse (plain_answer "It is sunny."), ["weather"]))
    by (vm_compute; reflexivity).
  split; [constructor|]. split; [vm_compute; reflexivity|]. split; [exact Hrun|].
  exact (proj1 (handle_function_call_names_plugins_once (scripted_env "sunny")
                  (with_ceiling 2 demo_cfg) 4 7 tool_request false 0 [] helper_two_turns
                  _ _ (NoDup_nil_2 (A := string)) Hrun)).
Defined.

(** ** Context budgeter, continued *)

Lemma py_slice_from_length {A} (n : Z) (l : list A) :
  0 < n -> len (py_slice_from (- n) l) <= n.
Proof.
  intros Hn. rewrite py_slice_from_last by exact Hn.
  unfold len. rewrite length_drop. lia.
Qed.

(** X14.  With a positive [max_history_size], whenever the budget check
    returns, the conversation it leaves has at most [max_history_size]
    messages, or the three messages of a summarised conversation: the check
    either found the history within the size limit, or replaced it by the
    priming message, the summary and the user turn, or cut it down to its
    last [max_history_size] messages. *)
Theorem summarise_if_too_long_bounds_history (E : Env) (cfg : Config) (chat_id : Z)
    (query : string) (st : Helper) (h : list Message) :
  conversations st !! chat_id = Some h ->
  0 < max_history_size cfg ->
  snd (summarise_if_too_long E cfg chat_id query st) = Returns tt ->
  exists h',
    conversations (fst (summarise_if_too_long E cfg chat_id query st)) !! chat_id = Some h'
    /\ len h' <= Z.max 3 (max_history_size cfg).
Proof.
  intros Hh Hsize. unfold summarise_if_too_long, bind, history, lift.
  rewrite Hh. destruct (count_tokens E cfg h) as [t|e]; cbn [outcome_of_res];
    [|discriminate].
  destruct (max_model_tokens cfg) as [limit|e]; cbn [outcome_of_res]; [|discriminate].
  rewrite Hh.
  destruct ((t + max_tokens cfg >? limit) || (len h >? max_history_size cfg)) eqn:Hover.
  2:{ intros _. exists h. split; [exact Hh|].
      apply orb_false_elim in Hover. destruct Hover as [_ Hlen]. lia. }
  unfold try_except. rewrite Hh.
  pose proof (summarise_frame E cfg (py_slice_to (-1) h) st) as (Hconv & _ & _ & _ & _).
  destruct (summarise E cfg (py_slice_to (-1) h) st) as [st1 out]. cbn [fst snd] in Hconv.
  assert (Hcut : exists h',
             conversations
               (fst (set_history chat_id (py_slice_from (- max_history_size cfg) h) st1))
             !! chat_id = Some h'
             /\ len h' <= Z.max 3 (max_history_size cfg)).
  { eexists. split; [apply lookup_insert_eq|].
    pose proof (py_slice_from_length (max_history_size cfg) h Hsize). lia. }
  destruct out as [summary|e|]; [| |discriminate].
  - rewrite Hconv, Hh. destruct h as [|first rest].
    + cbn [py_first outcome_of_res]. rewrite Hconv, Hh. intros _. exact Hcut.
    + intros _.
      unfold reset_chat_history, add_to_history, bind, history, set_history. cbn.
      rewrite !lookup_insert_eq. cbn. rewrite !lookup_insert_eq. cbn.
      rewrite lookup_insert_eq. eexists. split; [reflexivity|].
      unfold len. cbn [length]. lia.
  - rewrite Hconv, Hh. intros _. exact Hcut.
Qed.

Lemma summarise_if_too_long_bounds_history_witness :
  let cfg := with_max_history_size 1 demo_cfg in
  conversations helper_two_turns !! 7 = Some two_turns
  /\ conversations (fst (summarise_if_too_long demo_env cfg 7 "Hi" helper_two_turns)) !! 7
     = Some [mk_message "user" (CStr "Hi")]
  /\ exists h',
      conversations (fst (summarise_if_too_long demo_env cfg 7 "Hi" helper_two_turns)) !! 7
      = Some h'
      /\ len h' <= Z.max 3 (max_history_size cfg).
Proof.
  intros cfg. split; [reflexivity|]. split; [vm_compute; reflexivity|].
  apply (summarise_if_too_long_bounds_history demo_env cfg 7 "Hi" helper_two_turns two_turns).
  - reflexivity.
  - reflexivity.
  - vm_compute. reflexivity.
Defined.

(** ** The legacy request *)

Lemma add_to_history_run (chat_id : Z) (role : string) (content : Content) (st : Helper)
    (h : list Message) :
  conversations st !! chat_id = Some h ->
  add_to_history chat_id role content st
  = (fst (set_history chat_id (h ++ [mk_message role content]) st), Returns tt).
Proof. intros Hh. unfold add_to_history, bind, history. rewrite Hh. reflexivity. Qed.

Section Prepared.

Context (E : Env) (cfg : Config) (now chat_id : Z) (query : string) (st : Helper).

Let base := starting_history cfg now chat_id st.
Let trigger := mk_message "user" (CStr query).

(** The conversation that the request settles on, before the user turn. *)
Lemma settled_conversation :
  let st1 := if starts_afresh cfg now chat_id st
             then fst (reset_chat_history cfg chat_id (CStr "") st)
             else st in
  conversations (fst (set_last_updated chat_id now st1)) !! chat_id = Some base.
Proof.
  unfold base, starting_history, starts_afresh. cbv zeta.
  destruct (conversations st !! chat_id) as [h|] eqn:Hh.
  - destruct (last_updated st !! chat_id) as [last|].
    + destruct (last <? _); cbn; [apply lookup_insert_eq | exact Hh].
    + cbn. exact Hh.
  - cbn. apply lookup_insert_eq.
Qed.

Lemma prepared_run :
  let st1 := if starts_afresh cfg now chat_id st
             then fst (reset_chat_history cfg chat_id (CStr "") st)
             else st in
  add_to_history chat_id "user" (CStr query) (fst (set_last_updated chat_id now st1))
  = (prepared cfg now chat_id query st, Returns tt).
Proof.
  cbv zeta. rewrite (add_to_history_run _ _ _ _ base settled_conversation).
  unfold prepared. rewrite (add_to_history_run _ _ _ _ base settled_conversation).
  reflexivity.
Qed.

Lemma prepared_conversation :
  conversations (prepared cfg now chat_id query st) !! chat_id = Some (base ++ [trigger]).
Proof.
  unfold prepared. rewrite (add_to_history_run _ _ _ _ base settled_conversation).
  cbn. apply lookup_insert_eq.
Qed.

Lemma prepared_vision :
  conversations_vision (prepared cfg now chat_id query st) !! chat_id
  = starting_vision cfg now chat_id st.
Proof.
  unfold prepared. rewrite (add_to_history_run _ _ _ _ base settled_conversation).
  unfold starting_vision. cbn.
  destruct (starts_afresh cfg now chat_id st); cbn; [apply lookup_insert_eq|reflexivity].
Qed.

Lemma prepared_trace : trace (prepared cfg now chat_id query st) = trace st.
Proof.
  unfold prepared. rewrite (add_to_history_run _ _ _ _ base settled_conversation).
  cbn. destruct (starts_afresh cfg now chat_id st); reflexivity.
Qed.

Lemma prepared_last_updated :
  last_updated (prepared cfg now chat_id query st) !! chat_id = Some now.
Proof.
  unfold prepared. rewrite (add_to_history_run _ _ _ _ base settled_conversation).
  cbn. apply lookup_insert_eq.
Qed.

(** The staleness check of line 340. *)
Lemma stale_check_run :
  (match conversations st !! chat_id with
   | None => ret true
   | Some _ => max_age_reached cfg now chat_id
   end) st = (st, Returns (starts_afresh cfg now chat_id st)).
Proof.
  unfold starts_afresh, max_age_reached, ret.
  destruct (conversations st !! chat_id); [|reflexivity].
  destruct (last_updated st !! chat_id); reflexivity.
Qed.

(** Within budget the request stage on the legacy path sends one chat
    completion, built from the prepared conversation. *)
Lemma common_get_chat_response_within_budget (fuel : nat) (stream vision enable : bool) :
  cfg_get (use_responses_api cfg) false = false ->
  within_budget E cfg (base ++ [trigger]) ->
  starting_vision cfg now chat_id st = Some vision ->
  enable_functions cfg = Some enable ->
  let rq := legacy_request E cfg vision (base ++ [trigger]) stream enable in
  common_get_chat_response E cfg fuel now chat_id query stream st
  = (log_event (EvChat rq) (prepared cfg now chat_id query st),
     match chat_completions_create E (trace st) rq with
     | Ok r => Returns (CRResponse r)
     | Raise e => Raises (wrapped_error E cfg e)
     end).
Proof.
  intros Hlegacy (t & limit & Ht & Hlimit & Htokens & Hsize) Hvision Henable rq.
  unfold common_get_chat_response, wrap_errors. rewrite Hlegacy. cbn [negb].
  assert (Hbody :
    forall body : M CommonResult,
      body st = (log_event (EvChat rq) (prepared cfg now chat_id query st),
                 outcome_of_res
                   (match chat_completions_create E (trace st) rq with
                    | Ok r => Ok (CRResponse r)
                    | Raise e => Raise e
                    end)) ->
      wrap_errors E cfg body st
      = (log_event (EvChat rq) (prepared cfg now chat_id query st),
         match chat_completions_create E (trace st) rq with
         | Ok r => Returns (CRResponse r)
         | Raise e => Raises (wrapped_error E cfg e)
         end)).
  { intros body Hrun. unfold wrap_errors, try_except. rewrite Hrun.
    destruct (chat_completions_create E (trace st) rq) as [r|e]; cbn [outcome_of_res];
      [reflexivity|].
    destruct e; reflexivity. }
  apply Hbody.
  rewrite (bind_run get_state _ st st st eq_refl).
  rewrite (bind_run _ _ st st _ stale_check_run).
  set (st1 := if starts_afresh cfg now chat_id st
              then fst (reset_chat_history cfg chat_id (CStr "") st) else st).
  assert (Hreset : (if starts_afresh cfg now chat_id st
                    then reset_chat_history cfg chat_id (CStr "") else ret tt) st
                   = (st1, Returns tt)).
  { subst st1. destruct (starts_afresh cfg now chat_id st); reflexivity. }
  rewrite (bind_run _ _ st st1 tt Hreset).
  rewrite (bind_run (set_last_updated chat_id now) _ st1
             (fst (set_last_updated chat_id now st1)) tt eq_refl).
  rewrite (bind_run _ _ _ _ tt prepared_run).
  set (st4 := prepared cfg now chat_id query st).
  assert (Hbudget : summarise_if_too_long E cfg chat_id query st4 = (st4, Returns tt)).
  { pose proof prepared_conversation as Hconv. fold st4 in Hconv.
    assert (exists first rest, first :: rest = base ++ [trigger])
      as (first & rest & Hsplit) by (destruct base; cbn; eauto).
    rewrite <- Hsplit in Hconv, Ht, Hsize.
    rewrite (summarise_if_too_long_run E cfg chat_id query st4 first rest base t limit
               Hsplit Hconv Ht Hlimit).
    replace (t + max_tokens cfg >? limit) with false by (symmetry; rewrite Z.gtb_ltb; apply Z.ltb_ge; lia).
    replace (len (first :: rest) >? max_history_size cfg) with false
      by (symmetry; rewrite Z.gtb_ltb; apply Z.ltb_ge; lia).
    reflexivity. }
  rewrite (bind_run _ _ _ _ tt Hbudget).
  assert (Hflag : vision_flag chat_id st4 = (st4, Returns vision)).
  { unfold vision_flag. subst st4. rewrite prepared_vision, Hvision. reflexivity. }
  rewrite (bind_run _ _ _ _ _ Hflag).
  assert (Hhistory : history chat_id st4 = (st4, Returns (base ++ [trigger]))).
  { unfold history. subst st4. rewrite prepared_conversation. reflexivity. }
  rewrite (bind_run _ _ _ _ _ Hhistory).
  rewrite Henable.
  rewrite (bind_run (lift (cfg_item (Some enable))) _ st4 st4 enable eq_refl).
  transitivity (bind (upstream_chat E rq) (fun response => ret (CRResponse response)) st4);
    [reflexivity|].
  unfold bind, upstream_chat. subst st4. rewrite prepared_trace.
  destruct (chat_completions_create E (trace st) rq); reflexivity.
Qed.

End Prepared.

(** X15.  A request on the legacy path that is within budget sends one chat
    completion whose messages are the conversation followed by the new user
    turn, stamps the chat with the time of the request and stores those
    messages.  The conversation is the stored one, unless the chat has none
    or the stored one was last updated more than
    [max_conversation_age_minutes] before the request: then it is the
    priming message alone, and what was stored is forgotten. *)
Theorem legacy_request_messages (E : Env) (cfg : Config) (fuel : nat) (now chat_id : Z)
    (query : string) (stream : bool) (st : Helper) (vision enable : bool) :
  let trigger := mk_message "user" (CStr query) in
  let priming := mk_message (priming_role cfg) (CStr (assistant_prompt cfg)) in
  let base := starting_history cfg now chat_id st in
  let run := common_get_chat_response E cfg fuel now chat_id query stream st in
  cfg_get (use_responses_api cfg) false = false ->
  within_budget E cfg (base ++ [trigger]) ->
  starting_vision cfg now chat_id st = Some vision ->
  enable_functions cfg = Some enable ->
  (exists rq, trace (fst run) = trace st ++ [EvChat rq]
              /\ rq_messages rq = base ++ [trigger])
  /\ conversations (fst run) !! chat_id = Some (base ++ [trigger])
  /\ last_updated (fst run) !! chat_id = Some now
  /\ (conversations st !! chat_id = None -> base = [priming])
  /\ (forall h last,
         conversations st !! chat_id = Some h ->
         last_updated st !! chat_id = Some last ->
         base = if last <? now - max_conversation_age_minutes cfg * 60000000
                then [priming] else h)
  /\ (forall h,
         conversations st !! chat_id = Some h ->
         last_updated st !! chat_id = None ->
         base = h).
Proof.
  intros trigger priming base run Hlegacy Hbudget Hvision Henable.
  subst run.
  rewrite (common_get_chat_response_within_budget E cfg now chat_id query st fuel stream
             vision enable Hlegacy Hbudget Hvision Henable).
  cbn [fst log_event trace conversations last_updated].
  split; [|split; [|split; [|split; [|split]]]].
  - eexists. rewrite prepared_trace. split; reflexivity.
  - apply prepared_conversation.
  - apply prepared_last_updated.
  - intros Hnone. subst base. unfold starting_history, starts_afresh. rewrite Hnone.
    reflexivity.
  - intros h last Hh Hlast. subst base. unfold starting_history, starts_afresh.
    rewrite Hh, Hlast. reflexivity.
  - intros h Hh Hlast. subst base. unfold starting_history, starts_afresh.
    rewrite Hh, Hlast. reflexivity.
Qed.

Lemma demo_within_budget (h : list Message) (t : Z) :
  count_tokens (scripted_env "sunny") demo_cfg h = Ok t ->
  t <= 100000 ->
  len h <= 15 ->
  within_budget (scripted_env "sunny") demo_cfg h.
Proof.
  intros Ht Hsmall Hlen. exists t, 126976.
  split; [exact Ht|]. split; [reflexivity|]. split; [|exact Hlen].
  change (max_tokens demo_cfg) with 4096. lia.
Qed.

Lemma legacy_request_messages_witness :
  let E := scripted_env "sunny" in
  let old := {| conversations := {[ 7 := two_turns ]};
                conversations_vision := {[ 7 := false ]};
                last_updated := {[ 7 := 0 ]};
                trace := [] |} in
  let later := 180 * 60000000 + 1 in
  (exists rq,
      trace (fst (common_get_chat_response E demo_cfg 1 later 7 "Again" false old))
      = trace old ++ [EvChat rq]
      /\ rq_messages rq
         = [mk_message "system" (CStr "You are a helpful assistant.");
            mk_message "user" (CStr "Again")])
  /\ conversations (fst (common_get_chat_response E demo_cfg 1 later 7 "Again" false old))
     !! 7
     = Some [mk_message "system" (CStr "You are a helpful assistant.");
             mk_message "user" (CStr "Again")].
Proof.
  intros E old later.
  destruct (legacy_request_messages E demo_cfg 1 later 7 "Again" false old false true)
    as (Hrq & Hconv & _).
  - reflexivity.
  - apply (demo_within_budget _ 52); [reflexivity|lia|vm_compute; discriminate].
  - reflexivity.
  - reflexivity.
  - split; [exact Hrq | exact Hconv].
Defined.

(** X16.  The request of the legacy path goes to the vision model exactly
    when the vision flag of the chat is set, and to the configured model
    otherwise; it offers the functions of the plugin manager, with
    [function_call='auto'], exactly when functions are enabled, the flag is
    not set and the manager has specifications.  A chat that starts afresh
    never has the flag set. *)
Theorem legacy_request_routing (E : Env) (cfg : Config) (fuel : nat) (now chat_id : Z)
    (query : string) (stream : bool) (st : Helper) (vision enable : bool) :
  let trigger := mk_message "user" (CStr query) in
  let base := starting_history cfg now chat_id st in
  let run := common_get_chat_response E cfg fuel now chat_id query stream st in
  let offered := enable && negb vision && (len (get_functions_specs E) >? 0) in
  cfg_get (use_responses_api cfg) false = false ->
  within_budget E cfg (base ++ [trigger]) ->
  starting_vision cfg now chat_id st = Some vision ->
  enable_functions cfg = Some enable ->
  (exists rq,
      trace (fst run) = trace st ++ [EvChat rq]
      /\ rq_model rq = (if vision then vision_model cfg else model cfg)
      /\ rq_functions rq = (if offered then Some (get_functions_specs E) else None)
      /\ rq_function_call rq = (if offered then Some "auto" else None)
      /\ rq_stream rq = stream)
  /\ (vision = true -> offered = false)
  /\ (starts_afresh cfg now chat_id st = true -> vision = false).
Proof.
  intros trigger base run offered Hlegacy Hbudget Hvision Henable.
  subst run.
  rewrite (common_get_chat_response_within_budget E cfg now chat_id query st fuel stream
             vision enable Hlegacy Hbudget Hvision Henable).
  cbn [fst log_event trace].
  split; [|split].
  - eexists. rewrite prepared_trace. split; [reflexivity|].
    cbn. destruct vision; repeat split; reflexivity.
  - intros ->. subst offered. rewrite andb_false_r. reflexivity.
  - intros Hafresh. unfold starting_vision in Hvision. rewrite Hafresh in Hvision.
    congruence.
Qed.

Lemma legacy_request_routing_witness :
  let E := scripted_env "sunny" in
  let seen := {| conversations := {[ 7 := two_turns ]};
                 conversations_vision := {[ 7 := true ]};
                 last_updated := ∅;
                 trace := [] |} in
  let cfg := with_vision "gpt-4-vision" "high" demo_cfg in
  exists rq,
    trace (fst (common_get_chat_response E cfg 1 0 7 "And now?" false seen))
    = trace seen ++ [EvChat rq]
    /\ rq_model rq = "gpt-4-vision"
    /\ rq_functions rq = None.
Proof.
  intros E seen cfg.
  destruct (legacy_request_routing E cfg 1 0 7 "And now?" false seen true true)
    as ((rq & Htrace & Hmodel & Hfunctions & _) & _).
  - reflexivity.
  - exists 64, 126976. repeat split; try reflexivity; vm_compute; discriminate.
  - reflexivity.
  - reflexivity.
  - exists rq. split; [exact Htrace|]. split; [exact Hmodel | exact Hfunctions].
Defined.

(** X17.  The request stage does not take the user turn back: after an
    attempt within budget, whatever its outcome, the conversation ends with
    the user turn, so that a second attempt with the same query, made
    before the conversation has expired (by the [@retry] decorator after a
    rate-limit error, or by the caller after a failure), sends the user
    turn twice. *)
Theorem second_attempt_repeats_user_turn (E : Env) (cfg : Config) (fuel : nat)
    (now now' chat_id : Z) (query : string) (stream : bool) (st : Helper)
    (vision enable : bool) :
  let trigger := mk_message "user" (CStr query) in
  let base := starting_history cfg now chat_id st in
  let first := common_get_chat_response E cfg fuel now chat_id query stream st in
  let second := common_get_chat_response E cfg fuel now' chat_id query stream (fst first) in
  cfg_get (use_responses_api cfg) false = false ->
  within_budget E cfg (base ++ [trigger]) ->
  within_budget E cfg (base ++ [trigger; trigger]) ->
  starting_vision cfg now chat_id st = Some vision ->
  enable_functions cfg = Some enable ->
  now' - max_conversation_age_minutes cfg * 60000000 <= now ->
  conversations (fst first) !! chat_id = Some (base ++ [trigger])
  /\ exists rq1 rq2,
      trace (fst second) = trace st ++ [EvChat rq1; EvChat rq2]
      /\ rq_messages rq1 = base ++ [trigger]
      /\ rq_messages rq2 = base ++ [trigger; trigger].
Proof.
  intros trigger base first second Hlegacy Hbudget Hbudget2 Hvision Henable Hfresh.
  subst second first.
  rewrite (common_get_chat_response_within_budget E cfg now chat_id query st fuel stream
             vision enable Hlegacy Hbudget Hvision Henable).
  cbn [fst].
  set (rq1 := legacy_request E cfg vision _ stream enable).
  set (st' := log_event (EvChat rq1) (prepared cfg now chat_id query st)).
  assert (Hconv : conversations st' !! chat_id = Some (base ++ [trigger]))
    by apply prepared_conversation.
  assert (Hafresh : starts_afresh cfg now' chat_id st' = false).
  { unfold starts_afresh. rewrite Hconv.
    change (last_updated st') with (last_updated (prepared cfg now chat_id query st)).
    rewrite prepared_last_updated. apply Z.ltb_ge. exact Hfresh. }
  assert (Hbase' : starting_history cfg now' chat_id st' = base ++ [trigger]).
  { unfold starting_history. rewrite Hafresh, Hconv. reflexivity. }
  assert (Hvision' : starting_vision cfg now' chat_id st' = Some vision).
  { unfold starting_vision. rewrite Hafresh.
    change (conversations_vision st')
      with (conversations_vision (prepared cfg now chat_id query st)).
    rewrite prepared_vision. exact Hvision. }
  split; [exact Hconv|].
  assert (Hbudget' : within_budget E cfg
                       (starting_history cfg now' chat_id st' ++ [trigger])).
  { rewrite Hbase', <- app_assoc. exact Hbudget2. }
  rewrite (common_get_chat_response_within_budget E cfg now' chat_id query st' fuel stream
             vision enable Hlegacy Hbudget' Hvision' Henable).
  cbn [fst log_event trace]. rewrite prepared_trace. subst st'.
  cbn [log_event trace]. rewrite prepared_trace.
  do 2 eexists. split; [rewrite <- app_assoc; reflexivity|].
  split; [reflexivity|]. cbn [legacy_request rq_messages].
  rewrite Hbase', <- app_assoc. reflexivity.
Qed.

Lemma second_attempt_repeats_user_turn_witness :
  let first := common_get_chat_response demo_env demo_cfg 1 0 7 "Hi" false empty_helper in
  let second := common_get_chat_response demo_env demo_cfg 1 20000000 7 "Hi" false
                  (fst first) in
  (exists msg, snd first = Raises (Exception msg))
  /\ exists rq1 rq2,
      trace (fst second) = [EvChat rq1; EvChat rq2]
      /\ rq_messages rq2
         = [mk_message "system" (CStr "You are a helpful assistant.");
            mk_message "user" (CStr "Hi"); mk_message "user" (CStr "Hi")].
Proof.
  intros first second.
  split; [eexists; vm_compute; reflexivity|].
  destruct (second_attempt_repeats_user_turn demo_env demo_cfg 1 0 20000000 7 "Hi" false
              empty_helper false true)
    as (_ & rq1 & rq2 & Htrace & _ & Hmessages).
  - reflexivity.
  - exists 49, 126976. repeat split; try reflexivity; vm_compute; discriminate.
  - exists 58, 126976. repeat split; try reflexivity; vm_compute; discriminate.
  - reflexivity.
  - reflexivity.
  - vm_compute. discriminate.
  - exists rq1, rq2. split; [exact Htrace | exact Hmessages].
Defined.

(** ** Direct results on the legacy path *)

(** Events none of which is a direct result cannot be split at one. *)
Lemma no_direct_event (E : Env) (new pre post : list Event) (ev : Event) :
  Forall (fun ev => is_direct_event E ev = false) new ->
  new = pre ++ ev :: post ->
  is_direct_event E ev = true ->
  False.
Proof.
  intros Hnew -> Hev. apply Forall_app in Hnew. destruct Hnew as [_ Hnew].
  apply Forall_cons in Hnew. destruct Hnew as [Hev' _]. congruence.
Qed.

Lemma direct_split (E : Env) (e1 : Event) (rest pre post : list Event) (ev : Event) :
  e1 :: rest = pre ++ ev :: post ->
  is_direct_event E e1 = false ->
  is_direct_event E ev = true ->
  exists pre', pre = e1 :: pre' /\ rest = pre' ++ ev :: post.
Proof.
  destruct pre as [|x pre']; cbn [app]; intros [= -> ->] He1 Hev; [congruence|eauto].
Qed.

(** X18.  A plugin result marked as a direct result ends the legacy
    resolver at once: among the calls that the resolver makes, such a
    plugin invocation is the last one and no resubmission follows it.  The
    resolver then returns the result itself in place of a response of the
    model, unless the plugin, which is handed the helper, has removed the
    conversation of the chat, in which case the note for the history finds
    no conversation and the resolver fails with [KeyError].  On a chat that
    has a conversation, with plugins that leave a chat its conversation,
    the resolver returns the result. *)
Theorem direct_result_ends_chain (E : Env) (cfg : Config) (fuel : nat) (chat_id : Z) :
  forall (response : Response) (stream : bool) (times : Z) (plugins_used : list string)
         (st : Helper),
    let run := handle_function_call E cfg fuel chat_id response stream times plugins_used
                 st in
    exists new,
      trace (fst run) = trace st ++ new
      /\ forall pre ev post,
          new = pre ++ ev :: post ->
          is_direct_event E ev = true ->
          post = []
          /\ exists function_name arguments function_response used,
              ev = EvPlugin function_name arguments (Ok function_response)
              /\ (snd run = Returns (HPlugin function_response, used)
                  \/ (snd run = Raises KeyError
                      /\ conversations (fst run) !! chat_id = None))
              /\ (is_Some (conversations st !! chat_id) ->
                  plugins_keep E (keeps_conversation chat_id) ->
                  snd run = Returns (HPlugin function_response, used)).
Proof.
  induction fuel as [|fuel IH]; intros response stream times plugins_used st; cbv zeta.
  { exists []. cbn. rewrite app_nil_r. split; [reflexivity|].
    intros pre ev post Hsplit. destruct pre; discriminate. }
  cbn [handle_function_call].
  destruct (inspect_response stream response) as [[r|function_name arguments]|e].
  3:{ exists []. cbn. rewrite app_nil_r. split; [reflexivity|].
      intros pre ev post Hsplit. destruct pre; discriminate. }
  { exists []. cbn. rewrite app_nil_r. split; [reflexivity|].
    intros pre ev post Hsplit. destruct pre; discriminate. }
  rewrite (bind_run (lift (Ok (Call function_name arguments))) _ st st _ eq_refl).
  destruct (call_function E st function_name arguments) as [touched result] eqn:Hcall.
  set (e1 := EvPlugin function_name arguments result).
  set (st1 := log_event e1 (after_plugin st touched)).
  assert (Hplugin : plugin_call E function_name arguments st = (st1, outcome_of_res result)).
  { unfold plugin_call. rewrite Hcall. reflexivity. }
  destruct result as [function_response|e] eqn:Hresult.
  2:{ rewrite (bind_raises_run _ _ _ _ _ Hplugin). cbn [fst snd].
      exists [e1]. split; [reflexivity|]. intros pre ev post Hsplit Hev. exfalso.
      refine (no_direct_event E [e1] pre post ev _ Hsplit Hev).
      repeat constructor. }
  rewrite (bind_run _ _ _ _ _ Hplugin).
  set (used := if py_in function_name plugins_used then plugins_used
               else plugins_used ++ [function_name]).
  destruct (conversations st1 !! chat_id) as [h|] eqn:Hh1.
  2:{ assert (Hfail : forall content,
                add_function_call_to_history chat_id function_name content st1
                = (st1, Raises KeyError)).
      { intros content. unfold add_function_call_to_history, bind, history.
        rewrite Hh1. reflexivity. }
      destruct (is_direct_result E (HPlugin function_response)) eqn:Hdirect;
        rewrite (bind_raises_run _ _ _ _ _ (Hfail _)); cbn [fst snd];
        (exists [e1]); (split; [reflexivity|]); intros pre ev post Hsplit Hev.
      - destruct pre as [|x pre]; [|destruct pre; discriminate].
        injection Hsplit as <- <-. split; [reflexivity|].
        exists function_name, arguments, function_response, used.
        split; [reflexivity|]. split; [right; split; [reflexivity|exact Hh1]|].
        intros Hsome Hplugins. exfalso.
        pose proof (Hplugins function_name arguments st Hsome) as Hkept.
        rewrite Hcall in Hkept. cbn [fst] in Hkept.
        change (conversations touched !! chat_id = None) in Hh1.
        rewrite Hh1 in Hkept. destruct Hkept as [h Hkept]. discriminate.
      - exfalso. refine (no_direct_event E [e1] pre post ev _ Hsplit Hev).
        constructor; [exact Hdirect|constructor]. }
  destruct (is_direct_result E (HPlugin function_response)) eqn:Hdirect.
  { rewrite (bind_run _ _ _ _ _
               (add_function_call_run chat_id function_name direct_result_note st1 h Hh1)).
    cbn [ret fst snd set_history trace log_event].
    exists [e1]. split; [reflexivity|]. intros pre ev post Hsplit Hev.
    destruct pre as [|x pre]; [|destruct pre; discriminate].
    injection Hsplit as <- <-. split; [reflexivity|].
    exists function_name, arguments, function_response, used.
    split; [reflexivity|]. split; [left; reflexivity|]. intros _ _. reflexivity. }
  assert (He1 : is_direct_event E e1 = false) by exact Hdirect.
  rewrite (bind_run _ _ _ _ _
             (add_function_call_run chat_id function_name function_response st1 h Hh1)).
  set (h2 := h ++ [mk_function_message function_name function_response]).
  set (st2 := fst (set_history chat_id h2 st1)).
  assert (Hh2 : conversations st2 !! chat_id = Some h2) by apply lookup_insert_eq.
  assert (Hhistory : history chat_id st2 = (st2, Returns h2))
    by (unfold history; rewrite Hh2; reflexivity).
  rewrite (bind_run _ _ _ _ _ Hhistory).
  destruct (functions_max_consecutive_calls cfg) as [limit|].
  2:{ rewrite (bind_raises_run (lift (cfg_item None)) _ st2 st2 KeyError eq_refl).
      cbn [fst snd]. exists [e1]. split; [reflexivity|].
      intros pre ev post Hsplit Hev. exfalso.
      refine (no_direct_event E [e1] pre post ev _ Hsplit Hev).
      constructor; [exact He1|constructor]. }
  rewrite (bind_run (lift (cfg_item (Some limit))) _ st2 st2 limit eq_refl).
  set (rq := resubmission E cfg h2 stream times limit).
  set (e2 := EvChat rq).
  set (st3 := log_event e2 st2).
  assert (Hchat : upstream_chat E rq st2
                  = (st3, outcome_of_res (chat_completions_create E (trace st2) rq)))
    by reflexivity.
  destruct (chat_completions_create E (trace st2) rq) as [response'|e].
  2:{ rewrite (bind_raises_run _ _ _ _ _ Hchat). cbn [fst snd].
      exists [e1; e2]. split; [cbn; rewrite <- app_assoc; reflexivity|].
      intros pre ev post Hsplit Hev. exfalso.
      refine (no_direct_event E [e1; e2] pre post ev _ Hsplit Hev).
      constructor; [exact He1|]. constructor; [reflexivity|constructor]. }
  rewrite (bind_run _ _ _ _ _ Hchat).
  destruct (IH response' stream (times + 1) used st3) as (new' & Htrace' & Hends').
  exists (e1 :: e2 :: new'). split.
  { rewrite Htrace'. cbn. rewrite <- !app_assoc. reflexivity. }
  intros pre ev post Hsplit Hev.
  destruct (direct_split E e1 (e2 :: new') pre post ev Hsplit He1 Hev)
    as (pre1 & -> & Hsplit1).
  destruct (direct_split E e2 new' pre1 post ev Hsplit1 eq_refl Hev)
    as (pre2 & -> & Hsplit2).
  destruct (Hends' pre2 ev post Hsplit2 Hev)
    as (Hpost & fn & args & fr & used' & Hev' & Hout & Hkept).
  split; [exact Hpost|]. exists fn, args, fr, used'.
  split; [exact Hev'|]. split; [exact Hout|].
  intros _ Hplugins. apply Hkept; [|exact Hplugins]. exists h2. exact Hh2.
Qed.

Lemma direct_result_ends_chain_witness :
  let E := scripted_env "direct" in
  let run := handle_function_call E demo_cfg 4 7 tool_request false 0 [] helper_two_turns in
  let lost := handle_function_call meddling_env demo_cfg 4 7 tool_request false 0 []
                helper_two_turns in
  is_Some (conversations helper_two_turns !! 7)
  /\ plugins_keep E (keeps_conversation 7)
  /\ trace (fst run) = [EvPlugin "weather" "{}" (Ok "direct")]
  /\ snd run = Returns (HPlugin "direct", ["weather"])
  /\ trace (fst lost) = [EvPlugin "weather" "{}" (Ok "direct")]
  /\ snd lost = Raises KeyError.
Proof.
  intros E run lost.
  assert (Hconv : is_Some (conversations helper_two_turns !! 7)) by (eexists; reflexivity).
  assert (Hplugins : plugins_keep E (keeps_conversation 7)).
  { intros name arguments st H. exact H. }
  split; [exact Hconv|]. split; [exact Hplugins|].
  destruct (direct_result_ends_chain E demo_cfg 4 7 tool_request false 0 []
              helper_two_turns) as (new & Htrace & Hends).
  assert (Hrun : trace (fst run) = [EvPlugin "weather" "{}" (Ok "direct")])
    by (vm_compute; reflexivity).
  split; [exact Hrun|].
  fold run in Htrace, Hends. rewrite Hrun in Htrace. cbn [trace helper_two_turns app] in Htrace.
  destruct (Hends [] (EvPlugin "weather" "{}" (Ok "direct")) [] (eq_sym Htrace) eq_refl)
    as (_ & fn & args & d & used & Hev & _ & Hkept).
  injection Hev as <- <- <-. specialize (Hkept Hconv Hplugins).
  split; [|split; vm_compute; reflexivity].
  rewrite Hkept. f_equal. f_equal.
  revert Hkept. vm_compute. intros [= <-]. reflexivity.
Defined.

(** ** The answer of a request *)

Lemma bind_returns_inv {A B} (c : M A) (f : A -> M B) (st st' : Helper) (b : B) :
  bind c f st = (st', Returns b) ->
  exists a st1, c st = (st1, Returns a) /\ f a st1 = (st', Returns b).
Proof.
  unfold bind. destruct (c st) as [st1 [a|e|]]; [eauto|discriminate|discriminate].
Qed.

Lemma add_to_history_returns (chat_id : Z) (role : string) (content : Content)
    (st st' : Helper) (u : unit) :
  add_to_history chat_id role content st = (st', Returns u) ->
  exists h, conversations st' !! chat_id = Some (h ++ [mk_message role content]).
Proof.
  unfold add_to_history, bind, history.
  destruct (conversations st !! chat_id) as [h|]; [|discriminate].
  intros [= <- _]. exists h. apply lookup_insert_eq.
Qed.


Ltac peel H :=
  let a := fresh "a" in
  let st1 := fresh "st" in
  let Hc := fresh "Hc" in
  apply bind_returns_inv in H; destruct H as (a & st1 & Hc & H).




Lemma add_to_history_trace (chat_id : Z) (role : string) (content : Content)
    (st st' : Helper) (out : outcome unit) :
  add_to_history chat_id role content st = (st', out) -> trace st' = trace st.
Proof.
  unfold add_to_history, bind, history.
  destruct (conversations st !! chat_id) as [h|]; intros [= <- _]; reflexivity.
Qed.

(** On the legacy path the request stage hands on what the upstream has
    answered to its last call. *)
Lemma common_get_chat_response_answered (E : Env) (cfg : Config) (fuel : nat)
    (now chat_id : Z) (query : string) (stream : bool) (st st' : Helper)
    (result : CommonResult) :
  cfg_get (use_responses_api cfg) false = false ->
  common_get_chat_response E cfg fuel now chat_id query stream st = (st', Returns result) ->
  exists r, result = CRResponse r /\ answered E st' r.
Proof.
  intros Hpath Hrun.
  pose proof (wrap_errors_returns E cfg _ st result
                ltac:(unfold common_get_chat_response in Hrun; rewrite Hrun;
                      reflexivity)) as Hout.
  pose proof (wrap_errors_state E cfg (A := CommonResult)) as Hstate.
  unfold common_get_chat_response in Hrun.
  match type of Hrun with
  | wrap_errors E cfg ?body st = _ =>
      specialize (Hstate body st); rewrite Hrun in Hstate; cbn [fst] in Hstate;
      destruct (body st) as [st0 out] eqn:Hbody
  end.
  cbn [fst snd] in *. subst st0 out. clear Hrun.
  rewrite Hpath in Hbody. cbn [negb] in Hbody.
  do 9 peel Hbody.
  apply bind_returns_inv in Hbody. destruct Hbody as (response & st9 & Hcall & Hbody).
  injection Hbody as <- <-.
  unfold upstream_chat in Hcall. injection Hcall as <- Hcall.
  exists response. split; [reflexivity|].
  eexists _, _. split; [reflexivity|].
  destruct (chat_completions_create E _ _) as [r|e]; [|discriminate].
  injection Hcall as <-. reflexivity.
Qed.




(** ** Streaming, continued *)

Ltac gpeel H :=
  let a := fresh "a" in
  let st1 := fresh "st" in
  let Hc := fresh "Hc" in
  apply g_bind_lift_returns_inv in H; destruct H as (a & st1 & Hc & H).

(** What the resolver hands back of a stream is what it has not read. *)
Lemma scan_stream_rest (chunks : list (list ChunkChoice)) :
  forall (function_name arguments : string) (response : Response),
    scan_stream chunks function_name arguments = NoCall response ->
    exists read rest, response = RStream rest /\ chunks = read ++ rest.
Proof.
  induction chunks as [|item rest IH]; intros function_name arguments response;
    cbn [scan_stream]; [discriminate|].
  assert (Hrest : NoCall (RStream rest) = NoCall response ->
                  exists read rest', response = RStream rest' /\ item :: rest = read ++ rest').
  { intros [= <-]. exists [item], rest. split; reflexivity. }
  destruct item as [|first_choice others]; [exact Hrest|].
  destruct (delta_function_call first_choice) as [fc|].
  { intros Hscan. apply IH in Hscan. destruct Hscan as (read & rest' & -> & ->).
    exists ((first_choice :: others) :: read), rest'. split; reflexivity. }
  destruct (finish_reason first_choice) as [reason|]; [|exact Hrest].
  destruct (String.eqb reason "function_call"); [discriminate|exact Hrest].
Qed.

Lemma plugin_call_returns (E : Env) (function_name arguments : string) (st st' : Helper)
    (function_response : string) :
  plugin_call E function_name arguments st = (st', Returns function_response) ->
  trace st' = trace st ++ [EvPlugin function_name arguments (Ok function_response)].
Proof.
  unfold plugin_call.
  destruct (call_function E st function_name arguments) as [touched [result|e]];
    [|discriminate].
  intros [= <- <-]. reflexivity.
Qed.

Lemma add_function_call_returns (chat_id : Z) (function_name content : string)
    (st st' : Helper) (u : unit) :
  add_function_call_to_history chat_id function_name content st = (st', Returns u) ->
  trace st' = trace st
  /\ exists h,
      conversations st' !! chat_id = Some (h ++ [mk_function_message function_name content]).
Proof.
  unfold add_function_call_to_history, bind, history.
  destruct (conversations st !! chat_id) as [h|]; [|discriminate].
  intros [= <- _]. split; [reflexivity|]. exists h. apply lookup_insert_eq.
Qed.

(** What the legacy resolver returns of a streamed response: the rest of
    the stream that the upstream has answered to the last call, or the
    direct result of the plugin invocation that is the last call, with its
    note at the end of the conversation. *)
Lemma handle_function_call_streamed (E : Env) (cfg : Config) (fuel : nat) (chat_id : Z) :
  forall (response : Response) (times : Z) (plugins_used : list string) (st st' : Helper)
         (handled : Handled) (used : list string),
    (forall chunks, response = RStream chunks -> streamed E st chunks) ->
    handle_function_call E cfg fuel chat_id response true times plugins_used st
    = (st', Returns (handled, used)) ->
    match handled with
    | HResponse r => exists chunks, r = RStream chunks /\ streamed E st' chunks
    | HPlugin function_response =>
        exists function_name arguments calls h,
          trace st' = calls ++ [EvPlugin function_name arguments (Ok function_response)]
          /\ is_direct_result E (HPlugin function_response) = true
          /\ conversations st' !! chat_id
             = Some (h ++ [mk_function_message function_name direct_result_note])
    end.
Proof.
  induction fuel as [|fuel IH];
    intros response times plugins_used st st' handled used Hstreamed;
    cbn [handle_function_call]; [discriminate|].
  intros Hrun.
  apply bind_returns_inv in Hrun. destruct Hrun as (inspected & st1 & Hinspect & Hrun).
  unfold lift in Hinspect.
  destruct response as [c|chunks]; cbn [inspect_response outcome_of_res] in Hinspect;
    [discriminate|].
  injection Hinspect as <- <-.
  destruct (scan_stream chunks "" "") as [response'|function_name arguments] eqn:Hscan.
  { injection Hrun as <- <- _.
    destruct (scan_stream_rest chunks "" "" response' Hscan) as (read & rest & -> & ->).
    exists rest. split; [reflexivity|].
    destruct (Hstreamed _ eq_refl) as (calls & rq & read0 & Htrace & Hcreate).
    exists calls, rq, (read0 ++ read). split; [exact Htrace|].
    rewrite <- app_assoc. exact Hcreate. }
  apply bind_returns_inv in Hrun.
  destruct Hrun as (function_response & st2 & Hplugin & Hrun).
  apply plugin_call_returns in Hplugin.
  destruct (is_direct_result E (HPlugin function_response)) eqn:Hdirect.
  { apply bind_returns_inv in Hrun. destruct Hrun as (u & st3 & Hnote & Hrun).
    injection Hrun as <- <- _.
    apply add_function_call_returns in Hnote. destruct Hnote as (Hkept & h & Hh).
    exists function_name, arguments, (trace st), h.
    split; [rewrite Hkept; exact Hplugin|]. split; [exact Hdirect|exact Hh]. }
  do 3 peel Hrun.
  apply bind_returns_inv in Hrun. destruct Hrun as (response' & st6 & Hcall & Hrun).
  apply (IH _ _ _ _ _ _ _) with (2 := Hrun).
  intros chunks' Hchunks. subst response'.
  unfold upstream_chat in Hcall. injection Hcall as <- Hcall.
  eexists _, _, []. split; [reflexivity|].
  destruct (chat_completions_create E _ _) as [r'|e]; [|discriminate].
  injection Hcall as ->. reflexivity.
Qed.

(** X20.  On the legacy path, with an [is_direct_result] that takes no
    response of the model for a direct result, the generator
    [get_chat_response_stream] comes to its end in one of two ways, which
    the last call of the request tells apart.  Either that call is a plugin
    invocation whose result is a direct result: then the generator has
    yielded exactly one pair, that result with ['0'], and the conversation
    ends with the note of the direct result.  Or it is a chat request that
    the upstream has answered with a stream: then the generator has yielded
    the partial answers of the chunks left to read, each being the one
    before with one more piece of text and each tagged ['not_finished'],
    followed by exactly one last pair, the stripped whole text with its
    footer and the token estimate of the conversation as a string, and the
    conversation ends with the assistant turn that holds the stripped whole
    text. *)
Theorem legacy_stream_yields (E : Env) (cfg : Config)
    (responses_stream : list Event -> ResponsesRequest -> res StreamRun) (fuel : nat)
    (now now_fallback chat_id : Z) (query : string) (st : Helper) :
  let run := get_chat_response_stream E cfg responses_stream fuel now now_fallback chat_id
               query st in
  cfg_get (use_responses_api cfg) false = false ->
  (forall r, is_direct_result E (HResponse r) = false) ->
  snd (snd run) = Returns tt ->
  (exists function_name arguments function_response calls h,
      trace (fst run) = calls ++ [EvPlugin function_name arguments (Ok function_response)]
      /\ is_direct_result E (HPlugin function_response) = true
      /\ fst (snd run) = [(VStr function_response, VStr "0")]
      /\ conversations (fst run) !! chat_id
         = Some (h ++ [mk_function_message function_name direct_result_note]))
  \/ (exists calls rq read chunks h tokens show_plugins plugins_used,
         let pieces := omap chunk_text chunks in
         let answer := py_strip E (joined pieces "") in
         let spoken := h ++ [mk_message "assistant" (CStr answer)] in
         trace (fst run) = calls ++ [EvChat rq]
         /\ chat_completions_create E calls rq = Ok (RStream (read ++ chunks))
         /\ fst (snd run)
            = partial_yields pieces ""
              ++ [(VStr (stream_footer E cfg answer (py_str_int E tokens) show_plugins
                           plugins_used),
                   VStr (py_str_int E tokens))]
         /\ conversations (fst run) !! chat_id = Some spoken
         /\ count_tokens E cfg spoken = Ok tokens).
Proof.
  intros run Hlegacy Hresponses Hout.
  destruct run as [st' [ys out]] eqn:Hrun. cbn [fst snd] in *. subst out run.
  unfold get_chat_response_stream in Hrun. rewrite Hlegacy in Hrun. cbn [negb] in Hrun.
  apply g_bind_lift_returns_inv in Hrun. destruct Hrun as (result & st1 & Hretry & Hrun).
  destruct (with_retry_attempt
              (common_get_chat_response E cfg fuel now chat_id query true) st)
    as [st0 Hattempt].
  rewrite Hattempt in Hretry.
  destruct (common_get_chat_response_answered E cfg fuel now chat_id query true st0 st1
              result Hlegacy Hretry) as (r0 & -> & Hanswered).
  apply g_bind_lift_returns_inv in Hrun. destruct Hrun as (enable & st2 & Henable & Hrun).
  assert (Hst2 : st2 = st1) by (unfold lift in Henable; injection Henable as <- _; reflexivity).
  subst st2.
  apply g_bind_lift_returns_inv in Hrun. destruct Hrun as (resolve & st3 & Hresolve & Hrun).
  assert (Hst3 : st3 = st1).
  { destruct enable; [|injection Hresolve as <- _; reflexivity].
    apply bind_returns_inv in Hresolve. destruct Hresolve as (vision & st2 & Hflag & Hret).
    injection Hret as <- _. unfold vision_flag in Hflag.
    destruct (conversations_vision st1 !! chat_id); [|discriminate].
    injection Hflag as <- _. reflexivity. }
  subst st3.
  apply g_bind_lift_returns_inv in Hrun. destruct Hrun as (r & st4 & Hr & Hrun).
  injection Hr as <- <-.
  apply g_bind_lift_returns_inv in Hrun. destruct Hrun as (handled & st5 & Hhandled & Hrun).
  destruct handled as [response plugins_used].
  assert (Hfirst : forall chunks, r0 = RStream chunks -> streamed E st1 chunks).
  { intros chunks ->. destruct Hanswered as (calls & rq & Htrace & Hcreate).
    exists calls, rq, []. split; [exact Htrace|exact Hcreate]. }
  assert (Hlast : match response with
                  | HResponse r => exists chunks, r = RStream chunks /\ streamed E st5 chunks
                  | HPlugin function_response =>
                      resolve = true
                      /\ exists function_name arguments calls h,
                          trace st5
                          = calls ++ [EvPlugin function_name arguments (Ok function_response)]
                          /\ is_direct_result E (HPlugin function_response) = true
                          /\ conversations st5 !! chat_id
                             = Some (h ++ [mk_function_message function_name
                                             direct_result_note])
                  end \/ exists c, response = HResponse (RCompletion c)).
  { destruct resolve.
    - pose proof (handle_function_call_streamed E cfg fuel chat_id r0 0 [] st1 st5 response
                    plugins_used Hfirst Hhandled) as Hcases.
      left. destruct response as [r|function_response]; [exact Hcases|].
      split; [reflexivity|exact Hcases].
    - injection Hhandled as <- <- _. destruct r0 as [c|chunks]; [right; eauto|].
      left. exists chunks. split; [reflexivity|]. apply Hfirst. reflexivity. }
  destruct response as [r|function_response].
  - rewrite Hresponses, andb_false_r in Hrun.
    destruct Hlast as [(chunks & -> & calls & rq & read & Htrace & Hcreate) | (c & [= ->])];
      [|discriminate].
    right.
    apply g_bind_returns_inv in Hrun.
    destruct Hrun as (answer & st6 & ys1 & ys2 & Hloop & Hrun & ->).
    rewrite stream_chunks_run in Hloop. injection Hloop as <- <- <-.
    apply g_bind_lift_returns_inv in Hrun. destruct Hrun as (u & st7 & Hadd & Hrun).
    apply g_bind_lift_returns_inv in Hrun. destruct Hrun as (h' & st8 & Hhistory & Hrun).
    apply g_bind_lift_returns_inv in Hrun. destruct Hrun as (tokens & st9 & Hcount & Hrun).
    apply g_bind_lift_returns_inv in Hrun. destruct Hrun as (show & st10 & Hshow & Hrun).
    unfold g_yield in Hrun. injection Hrun as <- <-.
    pose proof (add_to_history_trace _ _ _ _ _ _ Hadd) as Hkept.
    apply add_to_history_returns in Hadd. destruct Hadd as (h & Hh).
    unfold history in Hhistory. rewrite Hh in Hhistory. injection Hhistory as <- <-.
    unfold lift in Hcount.
    destruct (count_tokens E cfg _) as [tokens'|e] eqn:Htokens; [|discriminate].
    injection Hcount as <- <-.
    assert (Hstate : st10 = st7).
    { destruct (len plugins_used >? 0); [|injection Hshow as <-; reflexivity].
      unfold lift in Hshow. injection Hshow as <-. reflexivity. }
    subst st10.
    exists calls, rq, read, chunks, h, tokens', show, plugins_used. cbv zeta.
    split; [rewrite Hkept; exact Htrace|]. split; [exact Hcreate|].
    split; [reflexivity|]. split; [exact Hh|exact Htokens].
  - destruct Hlast as [(-> & name & arguments & calls & h & Htrace & Hdirect & Hh)
                      | (c & [=])].
    rewrite Hdirect in Hrun. cbn [andb] in Hrun.
    unfold g_yield in Hrun. injection Hrun as <- <-.
    left. exists name, arguments, function_response, calls, h.
    split; [exact Htrace|]. split; [exact Hdirect|]. split; [reflexivity|exact Hh].
Qed.

(** The two ways: a streamed text, and a streamed request for a tool whose
    plugin answers with a direct result. *)
Lemma legacy_stream_yields_witness :
  let run := get_chat_response_stream streaming_env demo_cfg demo_stream 4 0 0 7 "Hi"
               empty_helper in
  let direct := get_chat_response_stream streaming_tool_env demo_cfg demo_stream 4 0 0 7
                  "What is the weather?" empty_helper in
  fst (snd run)
  = [(VStr "it is ", VStr "not_finished"); (VStr "it is sunny.", VStr "not_finished");
     (VStr "it is sunny.", VStr "73")]
  /\ fst (snd direct) = [(VStr "direct", VStr "0")]
  /\ (exists calls h,
         trace (fst direct) = calls ++ [EvPlugin "weather" "{}" (Ok "direct")]
         /\ conversations (fst direct) !! 7
            = Some (h ++ [mk_function_message "weather" direct_result_note]))
  /\ (exists calls rq read chunks h tokens show_plugins plugins_used,
         let pieces := omap chunk_text chunks in
         let answer := py_strip streaming_env (joined pieces "") in
         let spoken := h ++ [mk_message "assistant" (CStr answer)] in
         trace (fst run) = calls ++ [EvChat rq]
         /\ chat_completions_create streaming_env calls rq = Ok (RStream (read ++ chunks))
         /\ fst (snd run)
            = partial_yields pieces ""
              ++ [(VStr (stream_footer streaming_env demo_cfg answer
                           (py_str_int streaming_env tokens) show_plugins plugins_used),
                   VStr (py_str_int streaming_env tokens))]
         /\ conversations (fst run) !! 7 = Some spoken
         /\ count_tokens streaming_env demo_cfg spoken = Ok tokens).
Proof.
  intros run direct.
  assert (Hyields : fst (snd run)
                    = [(VStr "it is ", VStr "not_finished");
                       (VStr "it is sunny.", VStr "not_finished");
                       (VStr "it is sunny.", VStr "73")]) by (vm_compute; reflexivity).
  assert (Hdirect : fst (snd direct) = [(VStr "direct", VStr "0")])
    by (vm_compute; reflexivity).
  split; [exact Hyields|]. split; [exact Hdirect|]. split.
  - destruct (legacy_stream_yields streaming_tool_env demo_cfg demo_stream 4 0 0 7
                "What is the weather?" empty_helper eq_refl
                ltac:(intros r; reflexivity) ltac:(vm_compute; reflexivity))
      as [(name & arguments & result & calls & h & Htrace & _ & Hys & Hh)
         | (calls & rq & read & chunks & h & tokens & show & used & Htrace & _)];
      assert (Hlast : last (trace (fst direct)) = Some (EvPlugin "weather" "{}" (Ok "direct")))
        by (vm_compute; reflexivity);
      fold direct in Htrace; rewrite Htrace, last_snoc in Hlast.
    + fold direct in Hys, Hh. rewrite Hdirect in Hys. injection Hys as <-.
      injection Hlast as -> ->.
      exists calls, h. split; [exact Htrace|exact Hh].
    + discriminate.
  - destruct (legacy_stream_yields streaming_env demo_cfg demo_stream 4 0 0 7 "Hi"
                empty_helper eq_refl ltac:(intros r; reflexivity)
                ltac:(vm_compute; reflexivity))
      as [(name & arguments & result & calls & h & _ & _ & Hys & _) | Hstreamed].
    + fold run in Hys. rewrite Hyields in Hys. discriminate.
    + exact Hstreamed.
Defined.

Lemma with_retry_returns {A} (c : M A) (st st' : Helper) (a : A) :
  c st = (st', Returns a) -> with_retry c st = (st', Returns a).
Proof. unfold with_retry, try_except. intros ->. reflexivity. Qed.

Lemma g_bind_lift_run {A B} (c : M A) (k : A -> G B) (st st1 : Helper) (a : A) :
  c st = (st1, Returns a) -> g_bind (g_lift c) k st = k a st1.
Proof.
  unfold g_bind, g_lift. intros ->. destruct (k a st1) as [st2 [ys out]]. reflexivity.
Qed.

Lemma g_bind_lift_raises {A B} (c : M A) (k : A -> G B) (st st1 : Helper) (e : exn) :
  c st = (st1, Raises e) -> g_bind (g_lift c) k st = (st1, ([], Raises e)).
Proof. unfold g_bind, g_lift. intros ->. reflexivity. Qed.

(** A chunk without a function call that does not finish with one ends
    the scan of the resolver, which hands back the rest of the stream. *)
Lemma scan_stream_plain (chunk : list ChunkChoice) (rest : list (list ChunkChoice))
    (function_name arguments : string) :
  chunk_call chunk = None ->
  chunk_finish chunk <> Some "function_call" ->
  scan_stream (chunk :: rest) function_name arguments = NoCall (RStream rest).
Proof.
  intros Hcall Hfinish. cbn [scan_stream].
  destruct chunk as [|first_choice others]; [reflexivity|].
  cbn [chunk_call chunk_finish] in *. rewrite Hcall.
  destruct (finish_reason first_choice) as [reason|]; [|reflexivity].
  destruct (String.eqb_spec reason "function_call") as [->|_]; [congruence|reflexivity].
Qed.

(** X21.  On the legacy path, when function calling is on and the
    conversation is not a vision conversation, the resolver reads the first
    chunk of the streamed answer to look for a function call, and the text
    of that chunk reaches neither the partial answers nor the stored
    assistant turn: both are made of the chunks after the first.  With
    function calling off, or in a vision conversation, they are made of all
    the chunks. *)
Theorem resolver_takes_first_chunk (E : Env) (cfg : Config)
    (responses_stream : list Event -> ResponsesRequest -> res StreamRun) (fuel : nat)
    (now now_fallback chat_id : Z) (query : string) (st : Helper) (vision enable : bool)
    (chunk : list ChunkChoice) (rest : list (list ChunkChoice)) :
  let trigger := mk_message "user" (CStr query) in
  let base := starting_history cfg now chat_id st in
  let rq := legacy_request E cfg vision (base ++ [trigger]) true enable in
  let run := get_chat_response_stream E cfg responses_stream (S fuel) now now_fallback
               chat_id query st in
  let shown := omap chunk_text (if enable && negb vision then rest else chunk :: rest) in
  cfg_get (use_responses_api cfg) false = false ->
  within_budget E cfg (base ++ [trigger]) ->
  starting_vision cfg now chat_id st = Some vision ->
  enable_functions cfg = Some enable ->
  chat_completions_create E (trace st) rq = Ok (RStream (chunk :: rest)) ->
  chunk_call chunk = None ->
  chunk_finish chunk <> Some "function_call" ->
  is_direct_result E (HResponse (RStream rest)) = false ->
  exists last,
    fst (snd run) = partial_yields shown "" ++ last
    /\ conversations (fst run) !! chat_id
       = Some (base ++ [trigger; mk_message "assistant"
                                   (CStr (py_strip E (joined shown "")))]).
Proof.
  intros trigger base rq run shown Hlegacy Hbudget Hvision Henable Hchat Hcall Hfinish
    Hdirect.
  pose proof (common_get_chat_response_within_budget E cfg now chat_id query st (S fuel)
                true vision enable Hlegacy Hbudget Hvision Henable) as Hrequest.
  cbv zeta in Hrequest. fold trigger base rq in Hrequest. rewrite Hchat in Hrequest.
  set (st1 := log_event (EvChat rq) (prepared cfg now chat_id query st)) in *.
  assert (Hconv : conversations st1 !! chat_id = Some (base ++ [trigger]))
    by apply prepared_conversation.
  assert (Hflag : conversations_vision st1 !! chat_id = Some vision).
  { rewrite <- Hvision. apply prepared_vision. }
  set (chunks := if enable && negb vision then rest else chunk :: rest) in *.
  set (answer := py_strip E (joined shown "")).
  set (spoken := (base ++ [trigger]) ++ [mk_message "assistant" (CStr answer)]).
  set (st2 := fst (set_history chat_id spoken st1)).
  assert (Hspoken : conversations st2 !! chat_id = Some spoken) by apply lookup_insert_eq.
  assert (Hrun : exists last out, run = (st2, (partial_yields shown "" ++ last, out))).
  { subst run. unfold get_chat_response_stream. rewrite Hlegacy. cbn [negb].
    rewrite (g_bind_lift_run _ _ _ _ _ (with_retry_returns _ _ _ _ Hrequest)).
    rewrite (g_bind_lift_run (lift (cfg_item (enable_functions cfg))) _ st1 st1 enable)
      by (rewrite Henable; reflexivity).
    rewrite (g_bind_lift_run _ _ st1 st1 (enable && negb vision)).
    2:{ destruct enable; [|reflexivity].
        unfold bind, vision_flag. rewrite Hflag. reflexivity. }
    rewrite (g_bind_lift_run (ret (RStream (chunk :: rest))) _ st1 st1 _ eq_refl).
    rewrite (g_bind_lift_run _ _ st1 st1 (HResponse (RStream chunks), [])).
    2:{ subst chunks. destruct (enable && negb vision); [|reflexivity].
        cbn [handle_function_call inspect_response].
        rewrite (scan_stream_plain chunk rest "" "" Hcall Hfinish). reflexivity. }
    assert (Hnot : (enable && negb vision) && is_direct_result E (HResponse (RStream chunks))
                   = false).
    { subst chunks. destruct (enable && negb vision); [exact Hdirect|reflexivity]. }
    rewrite Hnot.
    unfold g_bind at 1. rewrite stream_chunks_run. fold shown. fold answer.
    rewrite (g_bind_lift_run _ _ st1 st2 tt
               (add_to_history_run chat_id "assistant" (CStr answer) st1 _ Hconv)).
    rewrite (g_bind_lift_run (history chat_id) _ st2 st2 spoken)
      by (unfold history; rewrite Hspoken; reflexivity).
    destruct (count_tokens E cfg spoken) as [tokens|e] eqn:Htokens.
    - rewrite (g_bind_lift_run (lift (Ok tokens)) _ st2 st2 tokens eq_refl).
      change (len (@nil string) >? 0) with false. cbv iota.
      rewrite (g_bind_lift_run (ret false) _ st2 st2 false eq_refl).
      eexists _, _. reflexivity.
    - rewrite (g_bind_lift_raises (lift (Raise e)) _ st2 st2 e eq_refl).
      exists [], (Raises e). reflexivity. }
  destruct Hrun as (last & out & ->). cbn [fst snd]. exists last.
  split; [reflexivity|]. rewrite Hspoken. unfold spoken. rewrite <- app_assoc. reflexivity.
Qed.

Lemma resolver_takes_first_chunk_witness :
  let run := get_chat_response_stream streaming_env demo_cfg demo_stream 4 0 0 7 "Hi"
               empty_helper in
  let shown := omap chunk_text [text_chunk "it is "; text_chunk ""; text_chunk "sunny."] in
  joined shown "" = "it is sunny."
  /\ exists last,
      fst (snd run) = partial_yields shown "" ++ last
      /\ conversations (fst run) !! 7
         = Some ([mk_message "system" (CStr "You are a helpful assistant.")]
                 ++ [mk_message "user" (CStr "Hi");
                     mk_message "assistant"
                       (CStr (py_strip streaming_env (joined shown "")))]).
Proof.
  intros run shown. split; [reflexivity|].
  apply (resolver_takes_first_chunk streaming_env demo_cfg demo_stream 3 0 0 7 "Hi"
           empty_helper false true (text_chunk "Dear user, ")
           [text_chunk "it is "; text_chunk ""; text_chunk "sunny."]).
  - reflexivity.
  - exists 49, 126976. repeat split; try reflexivity; vm_compute; discriminate.
  - reflexivity.
  - reflexivity.
  - reflexivity.
  - reflexivity.
  - discriminate.
  - reflexivity.
Defined.

(** ** Streaming on the Responses path *)

Lemma g_try_returns_inv {A} (g : G A) (h : exn -> G A) (st st' : Helper)
    (ys : list Yield) (a : A) :
  g_try g h st = (st', (ys, Returns a)) ->
  g st = (st', (ys, Returns a))
  \/ exists e st1 ys1 ys2,
      g st = (st1, (ys1, Raises e)) /\ h e st1 = (st', (ys2, Returns a)) /\ ys = ys1 ++ ys2.
Proof.
  unfold g_try. destruct (g st) as [st1 [ys1 [a1|e|]]]; [auto| |discriminate].
  destruct (h e st1) as [st2 [ys2 out2]] eqn:Hh. intros [= <- <- ->].
  right. exists e, st1, ys1, ys2. auto.
Qed.

Lemma g_try_raises_inv {A} (g : G A) (h : exn -> G A) (st st' : Helper)
    (ys : list Yield) (e : exn) :
  g_try g h st = (st', (ys, Raises e)) ->
  exists e0 st1 ys1 ys2,
    g st = (st1, (ys1, Raises e0)) /\ h e0 st1 = (st', (ys2, Raises e)) /\ ys = ys1 ++ ys2.
Proof.
  unfold g_try. destruct (g st) as [st1 [ys1 [a1|e0|]]]; [discriminate| |discriminate].
  destruct (h e0 st1) as [st2 [ys2 out2]] eqn:Hh. intros [= <- <- ->].
  exists e0, st1, ys1, ys2. auto.
Qed.

(** The attempt to stream yields the partial answers of the pieces that
    arrive; it then either fails, or stores the whole text and yields it
    with the usage. *)
Lemma responses_stream_attempt_run (E : Env) (cfg : Config)
    (responses_stream : list Event -> ResponsesRequest -> res StreamRun) (chat_id : Z)
    (use_web_search : bool) (input_messages : list RMessage) (tools : list Tool)
    (st : Helper) :
  let run := responses_stream_attempt E cfg responses_stream chat_id use_web_search
               input_messages tools st in
  exists pieces,
    let answer := py_strip E (joined pieces "") in
    (exists e, snd run = (partial_yields pieces "", Raises e))
    \/ (exists h tokens,
           snd run
           = (partial_yields pieces ""
              ++ [(VStr (if show_usage cfg then answer +:+ usage_line E cfg tokens
                         else answer),
                   VStr (py_str_int E tokens))],
              Returns tt)
           /\ conversations (fst run) !! chat_id
              = Some (h ++ [mk_message "assistant" (CStr answer)])).
Proof.
  intros run.
  destruct run as [st' [ys out]] eqn:Hrun. subst run. cbn [fst snd].
  unfold responses_stream_attempt in Hrun.
  match type of Hrun with
  | context [upstream_stream responses_stream ?request] => set (rq := request) in Hrun
  end.
  set (st1 := log_event (EvResponses rq) st).
  assert (Hopen : upstream_stream responses_stream rq st
                  = (st1, outcome_of_res (responses_stream (trace st) rq))) by reflexivity.
  destruct (responses_stream (trace st) rq) as [[events final]|e]; cbn [outcome_of_res] in Hopen.
  2:{ rewrite (g_bind_lift_raises _ _ _ _ _ Hopen) in Hrun. injection Hrun as <- <- <-.
      exists []. left. exists e. reflexivity. }
  rewrite (g_bind_lift_run _ _ _ _ _ Hopen) in Hrun.
  exists (omap event_text events).
  set (pieces := omap event_text events) in *.
  set (answer := py_strip E (joined pieces "")) in *.
  unfold g_bind at 1 in Hrun. rewrite stream_events_run in Hrun. fold pieces answer in Hrun.
  destruct final as [total|e].
  2:{ rewrite (g_bind_lift_raises (lift (Raise e)) _ st1 st1 e eq_refl) in Hrun.
      injection Hrun as <- <- <-. left. exists e. rewrite app_nil_r. reflexivity. }
  rewrite (g_bind_lift_run (lift (Ok total)) _ st1 st1 total eq_refl) in Hrun.
  destruct (conversations st1 !! chat_id) as [h|] eqn:Hh.
  2:{ rewrite (g_bind_lift_raises _ _ st1 st1 KeyError) in Hrun.
      - injection Hrun as <- <- <-. left. exists KeyError. rewrite app_nil_r. reflexivity.
      - unfold add_to_history, bind, history. rewrite Hh. reflexivity. }
  set (spoken := h ++ [mk_message "assistant" (CStr answer)]).
  set (st2 := fst (set_history chat_id spoken st1)).
  assert (Hspoken : conversations st2 !! chat_id = Some spoken) by apply lookup_insert_eq.
  rewrite (g_bind_lift_run _ _ st1 st2 tt
             (add_to_history_run chat_id "assistant" (CStr answer) st1 h Hh)) in Hrun.
  destruct total as [tokens|].
  { rewrite (g_bind_lift_run (ret tokens) _ st2 st2 tokens eq_refl) in Hrun.
    cbn [g_yield] in Hrun. injection Hrun as <- <- <-.
    right. exists h, tokens. split; [|exact Hspoken].
    unfold usage_line. destruct (show_usage cfg); reflexivity. }
  destruct (count_tokens E cfg spoken) as [tokens|e] eqn:Htokens.
  - rewrite (g_bind_lift_run _ _ st2 st2 tokens) in Hrun.
    2:{ unfold bind, history. rewrite Hspoken. unfold lift. rewrite Htokens. reflexivity. }
    cbn [g_yield] in Hrun. injection Hrun as <- <- <-.
    right. exists h, tokens. split; [|exact Hspoken].
    unfold usage_line. destruct (show_usage cfg); reflexivity.
  - rewrite (g_bind_lift_raises _ _ st2 st2 e) in Hrun.
    2:{ unfold bind, history. rewrite Hspoken. unfold lift. rewrite Htokens. reflexivity. }
    injection Hrun as <- <- <-. left. exists e. rewrite app_nil_r. reflexivity.
Qed.

(** X22.  On the Responses path, when the generator
    [get_chat_response_stream] comes to its end, it has yielded the partial
    answers of the pieces of text that arrived, each tagged
    ['not_finished'], and then exactly one last pair, whose second part is
    a token count written as a string.  Either the stream came to its end:
    the last text is the stripped whole text, with the usage line when
    [show_usage] is on, and that stripped text is the assistant turn stored
    last.  Or the stream failed and the last pair is the one of the
    fallback [get_chat_response]: its text is empty, or the usage line
    alone, whatever was shown before, and its count is the token estimate
    of the stored conversation. *)
Theorem responses_stream_yields (E : Env) (cfg : Config)
    (responses_stream : list Event -> ResponsesRequest -> res StreamRun) (fuel : nat)
    (now now_fallback chat_id : Z) (query : string) (st : Helper) :
  let run := get_chat_response_stream E cfg responses_stream fuel now now_fallback chat_id
               query st in
  cfg_get (use_responses_api cfg) false = true ->
  snd (snd run) = Returns tt ->
  exists pieces tokens text,
    let answer := py_strip E (joined pieces "") in
    fst (snd run) = partial_yields pieces "" ++ [(VStr text, VStr (py_str_int E tokens))]
    /\ ((text = (if show_usage cfg then answer +:+ usage_line E cfg tokens else answer)
         /\ exists h,
             conversations (fst run) !! chat_id
             = Some (h ++ [mk_message "assistant" (CStr answer)]))
        \/ (text = (if show_usage cfg then usage_line E cfg tokens else "")
            /\ exists h,
                conversations (fst run) !! chat_id = Some h
                /\ count_tokens E cfg h = Ok tokens)).
Proof.
  intros run Hpath Hout.
  destruct run as [st' [ys out]] eqn:Hrun. cbn [fst snd] in *. subst out run.
  unfold get_chat_response_stream in Hrun. rewrite Hpath in Hrun. cbn [negb] in Hrun.
  do 8 gpeel Hrun.
  apply g_try_returns_inv in Hrun.
  match type of Hrun with
  | context [responses_stream_attempt _ _ _ _ ?web ?input ?tools ?state] =>
      destruct (responses_stream_attempt_run E cfg responses_stream chat_id web input tools
                  state) as (pieces & Hattempt)
  end.
  cbv zeta in Hattempt.
  destruct Hrun as [Hrun | (e & st9 & ys1 & ys2 & Hrun & Hfallback & ->)];
    rewrite Hrun in Hattempt; cbn [fst snd] in Hattempt.
  - destruct Hattempt as [(e & [=]) | (h & tokens & [= ->] & Hconv)].
    exists pieces, tokens. eexists. cbv zeta. split; [reflexivity|].
    left. split; [reflexivity|]. exists h. exact Hconv.
  - destruct Hattempt as [(e' & [= -> _]) | (h & tokens & [=] & _)].
    gpeel Hfallback. unfold g_yield in Hfallback. injection Hfallback as <- <-.
    destruct (get_chat_response_responses_run E cfg fuel now_fallback chat_id query _ _ _
                Hpath Hc7) as (h & tokens & Hh & Htokens & ->).
    exists pieces, tokens. eexists. cbv zeta. split; [reflexivity|].
    right. split; [reflexivity|]. exists h. auto.
Qed.

Lemma responses_stream_yields_witness :
  let E := scripted_env "sunny" in
  let cfg := with_responses_api demo_cfg in
  let run := get_chat_response_stream E cfg broken_stream 4 0 0 7 "Hi" empty_helper in
  fst (snd run) = [(VStr "It is ", VStr "not_finished"); (VStr "", VStr "82")]
  /\ exists pieces tokens text,
      let answer := py_strip E (joined pieces "") in
      fst (snd run) = partial_yields pieces "" ++ [(VStr text, VStr (py_str_int E tokens))]
      /\ ((text = (if show_usage cfg then answer +:+ usage_line E cfg tokens else answer)
           /\ exists h,
               conversations (fst run) !! 7
               = Some (h ++ [mk_message "assistant" (CStr answer)]))
          \/ (text = (if show_usage cfg then usage_line E cfg tokens else "")
              /\ exists h,
                  conversations (fst run) !! 7 = Some h
                  /\ count_tokens E cfg h = Ok tokens)).
Proof.
  intros E cfg run. split; [vm_compute; reflexivity|].
  apply (responses_stream_yields E cfg broken_stream 4 0 0 7 "Hi" empty_helper).
  - reflexivity.
  - vm_compute. reflexivity.
Defined.

Lemma keeps_conversation_preorder (chat_id : Z) : PreOrder (keeps_conversation chat_id).
Proof.
  split; unfold keeps_conversation; [intros st; auto | intros st1 st2 st3; auto].
Qed.

(** The budget check of the streaming path, whose errors are passed over,
    leaves a conversation where there was one. *)
Lemma passed_budget_check_keeps_conversation (E : Env) (cfg : Config) (chat_id : Z)
    (query : string) (st : Helper) :
  keeps (keeps_conversation chat_id)
    (try_except (summarise_if_too_long E cfg chat_id query) (fun _ => ret tt)) st.
Proof.
  pose proof (keeps_conversation_preorder chat_id) as Hpre.
  apply keeps_try_except; [exact Hpre| |].
  - apply keeps_summarise_if_too_long; [exact Hpre| | |].
    + intros ev st0 H. exact H.
    + intros content st0 _. cbn. rewrite lookup_insert_eq. eauto.
    + intros h h' st0 _ _. cbn. rewrite lookup_insert_eq. eauto.
  - intros e _ H. exact H.
Qed.

(** X23.  On the Responses path the generator [get_chat_response_stream]
    raises only what its fallback raises: a failure of the budget check is
    passed over, and a failure to open the stream, of the stream itself or
    of the token count leads to the fallback [get_chat_response].  When the
    generator raises, it has yielded partial answers only. *)
Theorem responses_stream_raises_from_fallback (E : Env) (cfg : Config)
    (responses_stream : list Event -> ResponsesRequest -> res StreamRun) (fuel : nat)
    (now now_fallback chat_id : Z) (query : string) (st : Helper) (e : exn) :
  let run := get_chat_response_stream E cfg responses_stream fuel now now_fallback chat_id
               query st in
  cfg_get (use_responses_api cfg) false = true ->
  snd (snd run) = Raises e ->
  exists pieces st1,
    fst (snd run) = partial_yields pieces ""
    /\ get_chat_response E cfg fuel now_fallback chat_id query st1 = (fst run, Raises e).
Proof.
  intros run Hpath Hout.
  destruct run as [st' [ys out]] eqn:Hrun. cbn [fst snd] in *. subst out run.
  unfold get_chat_response_stream in Hrun. rewrite Hpath in Hrun. cbn [negb] in Hrun.
  rewrite (g_bind_lift_run get_state _ st st st eq_refl) in Hrun.
  rewrite (g_bind_lift_run _ _ st st _ (stale_check_run cfg now chat_id st)) in Hrun.
  pose proof (prepared_run cfg now chat_id query st) as Hprepared. cbv zeta in Hprepared.
  set (st1 := if starts_afresh cfg now chat_id st
              then fst (reset_chat_history cfg chat_id (CStr "") st) else st) in *.
  rewrite (g_bind_lift_run _ _ st st1 tt) in Hrun
    by (subst st1; destruct (starts_afresh cfg now chat_id st); reflexivity).
  rewrite (g_bind_lift_run (set_last_updated chat_id now) _ st1
             (fst (set_last_updated chat_id now st1)) tt eq_refl) in Hrun.
  rewrite (g_bind_lift_run _ _ _ _ _ Hprepared) in Hrun.
  pose proof (passed_budget_check_keeps_conversation E cfg chat_id query
                (prepared cfg now chat_id query st)) as Hkeeps.
  unfold keeps, keeps_conversation in Hkeeps.
  destruct (try_except (summarise_if_too_long E cfg chat_id query) (fun _ => ret tt)
              (prepared cfg now chat_id query st)) as [st6 [u|e'|]] eqn:Hcheck.
  - rewrite (g_bind_lift_run _ _ _ _ _ Hcheck) in Hrun. cbn [fst] in Hkeeps.
    destruct Hkeeps as [h6 Hh6].
    { rewrite prepared_conversation. eauto. }
    rewrite (g_bind_lift_run (history chat_id) _ st6 st6 h6) in Hrun
      by (unfold history; rewrite Hh6; reflexivity).
    rewrite (g_bind_lift_run get_state _ st6 st6 st6 eq_refl) in Hrun.
    apply g_try_raises_inv in Hrun.
    destruct Hrun as (e0 & st7 & ys1 & ys2 & Hbody & Hfallback & ->).
    match type of Hbody with
    | context [responses_stream_attempt _ _ _ _ ?web ?input ?tools ?state] =>
        destruct (responses_stream_attempt_run E cfg responses_stream chat_id web input
                    tools state) as (pieces & Hattempt)
    end.
    cbv zeta in Hattempt. rewrite Hbody in Hattempt. cbn [fst snd] in Hattempt.
    destruct Hattempt as [(e1 & [= -> _]) | (h & tokens & [=] & _)].
    unfold g_bind, g_lift in Hfallback.
    destruct (get_chat_response E cfg fuel now_fallback chat_id query st7)
      as [st8 [full|e8|]] eqn:Hfull; cbn in Hfallback; [discriminate| |discriminate].
    injection Hfallback as <- <- <-.
    exists pieces, st7. rewrite app_nil_r. split; [reflexivity|exact Hfull].
  - exfalso. revert Hcheck. unfold try_except.
    destruct (summarise_if_too_long E cfg chat_id query _) as [st5 [u|e5|]]; discriminate.
  - unfold g_bind, g_lift in Hrun. rewrite Hcheck in Hrun. discriminate.
Qed.

Lemma responses_stream_raises_from_fallback_witness :
  let cfg := with_responses_api demo_cfg in
  let run := get_chat_response_stream streaming_env cfg broken_stream 4 0 0 7 "Hi"
               empty_helper in
  exists e,
    snd (snd run) = Raises e
    /\ fst (snd run) = [(VStr "It is ", VStr "not_finished")]
    /\ exists pieces st1,
        fst (snd run) = partial_yields pieces ""
        /\ get_chat_response streaming_env cfg 4 0 7 "Hi" st1 = (fst run, Raises e).
Proof.
  intros cfg run. eexists. split; [vm_compute; reflexivity|].
  split; [vm_compute; reflexivity|].
  apply (responses_stream_raises_from_fallback streaming_env cfg broken_stream 4 0 0 7 "Hi"
           empty_helper).
  - reflexivity.
  - vm_compute. reflexivity.
Defined.

(** X24.  The generator [get_chat_response_stream] leaves every other chat
    alone, as far as the plugins do: the plugins are handed the helper, and
    when they leave the other chats as they find them, then on either path
    and however the generator ends, the conversation, the vision flag and
    the time stamp of every other chat id are what they were.  It also
    keeps the two dictionaries in step when the plugins do: when every chat
    that has a conversation has a vision flag, the same holds after it. *)
Theorem stream_leaves_other_chats (E : Env) (cfg : Config)
    (responses_stream : list Event -> ResponsesRequest -> res StreamRun) (fuel : nat)
    (now now_fallback chat_id : Z) (query : string) (st : Helper) :
  let st' := fst (get_chat_response_stream E cfg responses_stream fuel now now_fallback
                    chat_id query st) in
  (plugins_keep E (same_elsewhere chat_id) -> same_elsewhere chat_id st st')
  /\ (plugins_keep E stays_flagged -> flagged st -> flagged st').
Proof.
  cbv zeta. split; intros Hplugins.
  - pose proof (same_elsewhere_preorder chat_id) as Hpre.
    apply (gkeeps_get_chat_response_stream (same_elsewhere chat_id)).
    + apply same_elsewhere_log.
    + apply same_elsewhere_time.
    + apply same_elsewhere_reset.
    + intros name content h st0 _. apply same_elsewhere_store.
    + intros h h' st0 _. apply same_elsewhere_store.
    + intros name arguments st0. exact (Hplugins name arguments st0).
  - pose proof stays_flagged_preorder as Hpre.
    apply (gkeeps_get_chat_response_stream stays_flagged).
    + intros ev st0 H. exact H.
    + intros now0 st0 H. exact H.
    + apply stays_flagged_reset.
    + intros name text h st0. apply stays_flagged_store.
    + intros h h' st0. apply stays_flagged_store.
    + intros name arguments st0. exact (Hplugins name arguments st0).
Qed.

(** A stream that breaks, so that the fallback runs the tool loop and a
    plugin is invoked. *)
Lemma stream_leaves_other_chats_witness :
  let E := scripted_env "sunny" in
  let st' := fst (get_chat_response_stream E (with_responses_api demo_cfg) broken_stream
                    4 0 0 8 "Hi" helper_two_turns) in
  flagged helper_two_turns
  /\ plugins_keep E (same_elsewhere 8)
  /\ plugins_keep E stays_flagged
  /\ plugin_invocations (trace st') = 1%nat
  /\ conversations st' !! 7 = Some two_turns
  /\ flagged st'.
Proof.
  intros E st'.
  assert (Hst : flagged helper_two_turns).
  { intros id. cbn. destruct (decide (id = 7)) as [->|Hid].
    - intros _. rewrite lookup_singleton_eq. eauto.
    - rewrite lookup_singleton_ne by congruence. intros [h Hh]. discriminate. }
  assert (Hothers : plugins_keep E (same_elsewhere 8)).
  { intros name arguments st other _. cbn. auto. }
  assert (Hflags : plugins_keep E stays_flagged).
  { intros name arguments st H. exact H. }
  split; [exact Hst|]. split; [exact Hothers|]. split; [exact Hflags|].
  split; [vm_compute; reflexivity|].
  destruct (stream_leaves_other_chats E (with_responses_api demo_cfg) broken_stream
              4 0 0 8 "Hi" helper_two_turns) as [Hsame Hflagged].
  split; [|exact (Hflagged Hflags Hst)].
  destruct (Hsame Hothers 7 ltac:(discriminate)) as (Hconv & _). exact Hconv.
Defined.

(** ** Vision *)

Lemma summarise_if_too_long_vision_within_budget (E : Env) (cfg : Config) (chat_id : Z)
    (st : Helper) (h : list Message) :
  conversations st !! chat_id = Some h ->
  within_budget E cfg h ->
  summarise_if_too_long_vision E cfg chat_id st = (st, Returns tt).
Proof.
  intros Hh (t & limit & Ht & Hlimit & Htokens & Hsize).
  unfold summarise_if_too_long_vision, bind, history, lift.
  rewrite Hh, Ht. cbn [outcome_of_res]. rewrite Hlimit. cbn [outcome_of_res]. rewrite Hh.
  replace (t + max_tokens cfg >? limit) with false
    by (symmetry; rewrite Z.gtb_ltb; apply Z.ltb_ge; lia).
  replace (len h >? max_history_size cfg) with false
    by (symmetry; rewrite Z.gtb_ltb; apply Z.ltb_ge; lia).
  reflexivity.
Qed.

(** X25.  Within budget on the legacy path, the vision request stage sends
    one chat completion to the vision model, without functions, whose
    messages are the conversation followed by a user message with the whole
    content list, the text and the image.  What it stores depends on
    [enable_vision_follow_up_questions]: with it, the content list, and the
    chat is flagged as a vision conversation; without it, only the text of
    the first text part, so that the image is sent but not kept, and the
    flag stays as it was. *)
Theorem vision_request_carries_image (E : Env) (cfg : Config) (vcfg : VisionConfig)
    (unbound_local_error : string -> exn) (now chat_id : Z) (content : list Part)
    (stream : bool) (st : Helper) (follow_up : bool) (query : string) :
  let base := starting_history cfg now chat_id st in
  let stored := vision_turn follow_up content query in
  let run := common_get_chat_response_vision E cfg vcfg unbound_local_error now chat_id
               content stream st in
  cfg_get (use_responses_api cfg) false = false ->
  enable_vision_follow_up_questions vcfg = Some follow_up ->
  (follow_up = false -> first_text content = Some query) ->
  within_budget E cfg (base ++ [stored]) ->
  exists rq,
    trace (fst run) = trace st ++ [EvChat rq]
    /\ rq_model rq = vision_model cfg
    /\ rq_messages rq = base ++ [mk_message "user" (CParts content)]
    /\ rq_functions rq = None
    /\ rq_stream rq = stream
    /\ conversations (fst run) !! chat_id = Some (base ++ [stored])
    /\ conversations_vision (fst run) !! chat_id
       = (if follow_up then Some true else starting_vision cfg now chat_id st)
    /\ snd run = match chat_completions_create E (trace st) rq with
                 | Ok r => Returns (VLegacy r)
                 | Raise e => Raises (wrapped_error E cfg e)
                 end.
Proof.
  intros base stored run Hlegacy Hfollow Htext Hbudget.
  set (st1 := if starts_afresh cfg now chat_id st
              then fst (reset_chat_history cfg chat_id (CStr "") st) else st).
  set (st2 := fst (set_last_updated chat_id now st1)).
  assert (Hbase : conversations st2 !! chat_id = Some base)
    by apply settled_conversation.
  assert (Hflag2 : conversations_vision st2 !! chat_id = starting_vision cfg now chat_id st).
  { unfold starting_vision. subst st2 st1.
    destruct (starts_afresh cfg now chat_id st); cbn; [apply lookup_insert_eq|reflexivity]. }
  assert (Htrace2 : trace st2 = trace st).
  { subst st2 st1. destruct (starts_afresh cfg now chat_id st); reflexivity. }
  set (st3 := if follow_up then fst (set_vision_flag chat_id true st2) else st2).
  assert (Hbase3 : conversations st3 !! chat_id = Some base).
  { subst st3. destruct follow_up; exact Hbase. }
  set (st4 := fst (set_history chat_id (base ++ [stored]) st3)).
  assert (Hconv : conversations st4 !! chat_id = Some (base ++ [stored]))
    by apply lookup_insert_eq.
  assert (Hflag4 : conversations_vision st4 !! chat_id
                   = if follow_up then Some true else starting_vision cfg now chat_id st).
  { subst st4 st3. destruct follow_up; cbn; [apply lookup_insert_eq|exact Hflag2]. }
  assert (Htrace4 : trace st4 = trace st).
  { subst st4 st3. destruct follow_up; exact Htrace2. }
  set (rq := {| rq_model := vision_model cfg;
                rq_messages := base ++ [mk_message "user" (CParts content)];
                rq_temperature := Some (temperature cfg);
                rq_n := Some 1;
                rq_max_tokens := Some ("max_tokens", vision_max_tokens cfg);
                rq_presence_penalty := Some (presence_penalty cfg);
                rq_frequency_penalty := Some (frequency_penalty cfg);
                rq_stream := stream;
                rq_functions := None;
                rq_function_call := None |}).
  assert (Hrun : run = (log_event (EvChat rq) st4,
                        match chat_completions_create E (trace st) rq with
                        | Ok r => Returns (VLegacy r)
                        | Raise e => Raises (wrapped_error E cfg e)
                        end)).
  { subst run. unfold common_get_chat_response_vision.
    assert (Hbody :
      forall body : M VisionResult,
        body st = (log_event (EvChat rq) st4,
                   outcome_of_res
                     (match chat_completions_create E (trace st) rq with
                      | Ok r => Ok (VLegacy r)
                      | Raise e => Raise e
                      end)) ->
        wrap_errors E cfg body st
        = (log_event (EvChat rq) st4,
           match chat_completions_create E (trace st) rq with
           | Ok r => Returns (VLegacy r)
           | Raise e => Raises (wrapped_error E cfg e)
           end)).
    { intros body Hrun. unfold wrap_errors, try_except. rewrite Hrun.
      destruct (chat_completions_create E (trace st) rq) as [r|e]; cbn [outcome_of_res];
        [reflexivity|].
      destruct e; reflexivity. }
    apply Hbody. rewrite Hlegacy. cbn [negb].
    rewrite (bind_run get_state _ st st st eq_refl).
    rewrite (bind_run _ _ st st _ (stale_check_run cfg now chat_id st)).
    rewrite (bind_run _ _ st st1 tt)
      by (subst st1; destruct (starts_afresh cfg now chat_id st); reflexivity).
    rewrite (bind_run (set_last_updated chat_id now) _ st1 st2 tt eq_refl).
    rewrite Hfollow.
    rewrite (bind_run (lift (cfg_item (Some follow_up))) _ st2 st2 follow_up eq_refl).
    rewrite (bind_run _ _ st2 st4 tt).
    2:{ subst st4 st3 stored. unfold vision_turn. destruct follow_up.
        - rewrite (bind_run (set_vision_flag chat_id true) _ st2
                     (fst (set_vision_flag chat_id true st2)) tt eq_refl).
          apply add_to_history_run. exact Hbase.
        - rewrite (Htext eq_refl).
          rewrite (bind_run (ret query) _ st2 st2 query eq_refl).
          apply add_to_history_run. exact Hbase. }
    rewrite (bind_run _ _ st4 st4 tt
               (summarise_if_too_long_vision_within_budget E cfg chat_id st4 _ Hconv
                  Hbudget)).
    rewrite (bind_run (history chat_id) _ st4 st4 (base ++ [stored]))
      by (unfold history; rewrite Hconv; reflexivity).
    rewrite py_slice_to_drop_last. fold rq.
    unfold bind, upstream_chat. rewrite Htrace4.
    destruct (chat_completions_create E (trace st) rq); reflexivity. }
  exists rq. rewrite Hrun. cbn [fst snd log_event trace]. rewrite Htrace4.
  repeat split; [exact Hconv|exact Hflag4].
Qed.

Lemma vision_request_carries_image_witness :
  let E := scripted_env "sunny" in
  let content := [PText "What is it?"; PImage "square" "high"] in
  let run := common_get_chat_response_vision E demo_cfg demo_vcfg demo_unbound_local_error
               0 7 content false empty_helper in
  exists rq,
    trace (fst run) = [EvChat rq]
    /\ rq_messages rq
       = [mk_message "system" (CStr "You are a helpful assistant.");
          mk_message "user" (CParts content)]
    /\ conversations (fst run) !! 7
       = Some [mk_message "system" (CStr "You are a helpful assistant.");
               mk_message "user" (CStr "What is it?")]
    /\ conversations_vision (fst run) !! 7 = Some false.
Proof.
  intros E content run.
  destruct (vision_request_carries_image E demo_cfg demo_vcfg demo_unbound_local_error 0 7
              content false empty_helper false "What is it?")
    as (rq & Htrace & _ & Hmessages & _ & _ & Hconv & Hflag & _).
  - reflexivity.
  - reflexivity.
  - reflexivity.
  - exists 58, 126976. repeat split; try reflexivity; vm_compute; discriminate.
  - exists rq. split; [exact Htrace|]. split; [exact Hmessages|].
    split; [exact Hconv|exact Hflag].
Defined.

Tactic Notation "gstep" hyp(H) "as" ident(a) ident(s) ident(Hc) :=
  apply g_bind_lift_returns_inv in H; destruct H as (a & s & Hc & H).

Lemma g_bind_yield_returns_inv {B} (y : Yield) (k : unit -> G B) (st st' : Helper)
    (ys : list Yield) (b : B) :
  g_bind (g_yield y) k st = (st', (ys, Returns b)) ->
  exists ys2, k tt st = (st', (ys2, Returns b)) /\ ys = y :: ys2.
Proof.
  intros H. apply g_bind_returns_inv in H.
  destruct H as ([] & st1 & ys1 & ys2 & Hy & Hk & ->).
  unfold g_yield in Hy. injection Hy as <- <-. eauto.
Qed.

(** X26.  On the legacy path, when the generator [interpret_image_stream]
    comes to its end, it has yielded its last answer twice: after the
    partial answers comes the stripped whole text with the token estimate
    of the conversation, and then the same pair once more, from the lines
    after the branch; with [show_usage] on, the first carries the usage
    line and the second carries it twice. *)
Theorem vision_stream_yields_answer_twice (E : Env) (cfg : Config) (vcfg : VisionConfig)
    {FileObj : Type} (encode_image : list Event -> FileObj -> res string)
    (responses_stream : list Event -> ResponsesRequest -> res StreamRun)
    (unbound_local_error : string -> exn) (now now_fallback chat_id : Z)
    (fileobj : FileObj) (prompt : option string) (st : Helper) :
  let run := interpret_image_stream E cfg vcfg encode_image responses_stream
               unbound_local_error now now_fallback chat_id fileobj prompt st in
  cfg_get (use_responses_api cfg) false = false ->
  snd (snd run) = Returns tt ->
  exists pieces h tokens,
    let answer := py_strip E (joined pieces "") in
    let spoken := h ++ [mk_message "assistant" (CStr answer)] in
    let shown := if show_usage cfg then answer +:+ usage_line E cfg tokens else answer in
    let shown_again :=
      if show_usage cfg then shown +:+ usage_line E cfg tokens else shown in
    fst (snd run)
    = partial_yields pieces ""
      ++ [(VStr shown, VStr (py_str_int E tokens));
          (VStr shown_again, VStr (py_str_int E tokens))]
    /\ conversations (fst run) !! chat_id = Some spoken
    /\ count_tokens E cfg spoken = Ok tokens.
Proof.
  intros run Hlegacy Hout.
  destruct run as [st' [ys out]] eqn:Hrun. cbn [fst snd] in *. subst out run.
  unfold interpret_image_stream in Hrun. rewrite Hlegacy in Hrun. cbn [negb] in Hrun.
  gstep Hrun as made st1 Hmade. destruct made as [[image prompt_text] content].
  gstep Hrun as response st2 Hrequest.
  apply g_bind_returns_inv in Hrun.
  destruct Hrun as (locals & st3 & ys1 & ys2 & Hbranch & Htail & ->).
  destruct response as [[c|chunks]|resp]; [discriminate| |discriminate].
  apply g_bind_returns_inv in Hbranch.
  destruct Hbranch as (answer & st4 & ys3 & ys4 & Hloop & Hbranch & ->).
  rewrite stream_chunks_run in Hloop. injection Hloop as <- <- <-.
  gstep Hbranch as u st5 Hadd. gstep Hbranch as h' st6 Hhistory.
  gstep Hbranch as tokens st7 Hcount.
  apply g_bind_yield_returns_inv in Hbranch. destruct Hbranch as (ys5 & Hbranch & ->).
  unfold g_ret in Hbranch. injection Hbranch as <- <- <-.
  unfold g_yield in Htail. injection Htail as <- <-.
  apply add_to_history_returns in Hadd. destruct Hadd as (h & Hh).
  unfold history in Hhistory. rewrite Hh in Hhistory. injection Hhistory as <- <-.
  unfold lift in Hcount.
  destruct (count_tokens E cfg _) as [tokens'|e] eqn:Htokens; [|discriminate].
  injection Hcount as <- <-.
  exists (omap chunk_text chunks), h, tokens'. cbv zeta.
  split; [|split; [exact Hh|exact Htokens]].
  rewrite <- app_assoc. unfold usage_line. cbn [format_tokens app].
  destruct (show_usage cfg); reflexivity.
Qed.

Lemma vision_stream_yields_answer_twice_witness :
  let run := interpret_image_stream streaming_env demo_cfg demo_vcfg demo_encode_image
               demo_stream demo_unbound_local_error 0 0 7 "square" None empty_helper in
  fst (snd run)
  = [(VStr "Dear user, ", VStr "not_finished");
     (VStr "Dear user, it is ", VStr "not_finished");
     (VStr "Dear user, it is sunny.", VStr "not_finished");
     (VStr "Dear user, it is sunny.", VStr "103");
     (VStr "Dear user, it is sunny.", VStr "103")]
  /\ exists pieces h tokens,
      let answer := py_strip streaming_env (joined pieces "") in
      let spoken := h ++ [mk_message "assistant" (CStr answer)] in
      let shown :=
        if show_usage demo_cfg then answer +:+ usage_line streaming_env demo_cfg tokens
        else answer in
      let shown_again :=
        if show_usage demo_cfg then shown +:+ usage_line streaming_env demo_cfg tokens
        else shown in
      fst (snd run)
      = partial_yields pieces ""
        ++ [(VStr shown, VStr (py_str_int streaming_env tokens));
            (VStr shown_again, VStr (py_str_int streaming_env tokens))]
      /\ conversations (fst run) !! 7 = Some spoken
      /\ count_tokens streaming_env demo_cfg spoken = Ok tokens.
Proof.
  intros run. split; [vm_compute; reflexivity|].
  apply (vision_stream_yields_answer_twice streaming_env demo_cfg demo_vcfg
           demo_encode_image demo_stream demo_unbound_local_error 0 0 7 "square" None
           empty_helper).
  - reflexivity.
  - vm_compute. reflexivity.
Defined.

(** The request of the vision stream (lines 820-825). *)
Lemma vision_stream_attempt_run (E : Env) (cfg : Config)
    (responses_stream : list Event -> ResponsesRequest -> res StreamRun) (chat_id : Z)
    (input_messages : list RMessage) (st : Helper) :
  let run := vision_stream_attempt E cfg responses_stream chat_id input_messages st in
  exists pieces,
    let answer := py_strip E (joined pieces "") in
    (exists e, snd run = (partial_yields pieces "", Raises e))
    \/ (exists h tokens rq events total,
           let shown :=
             if show_usage cfg then answer +:+ usage_line E cfg tokens else answer in
           snd run
           = (partial_yields pieces "" ++ [(VStr shown, VStr (py_str_int E tokens))],
              Returns (shown, VInt tokens))
           /\ conversations (fst run) !! chat_id
              = Some (h ++ [mk_message "assistant" (CStr answer)])
           /\ trace (fst run) = trace st ++ [EvResponses rq]
           /\ rr_model rq = vision_model cfg
           /\ responses_stream (trace st) rq = Ok (events, Ok total)).
Proof.
  intros run.
  destruct run as [st' [ys out]] eqn:Hrun. subst run. cbn [fst snd].
  unfold vision_stream_attempt in Hrun.
  match type of Hrun with
  | context [upstream_stream responses_stream ?request] => set (rq := request) in Hrun
  end.
  set (st1 := log_event (EvResponses rq) st).
  assert (Hopen : upstream_stream responses_stream rq st
                  = (st1, outcome_of_res (responses_stream (trace st) rq))) by reflexivity.
  destruct (responses_stream (trace st) rq) as [[events final]|e] eqn:Hstream;
    cbn [outcome_of_res] in Hopen.
  2:{ rewrite (g_bind_lift_raises _ _ _ _ _ Hopen) in Hrun. injection Hrun as <- <- <-.
      exists []. left. exists e. reflexivity. }
  rewrite (g_bind_lift_run _ _ _ _ _ Hopen) in Hrun.
  exists (omap event_text events).
  set (pieces := omap event_text events) in *.
  set (answer := py_strip E (joined pieces "")) in *.
  unfold g_bind at 1 in Hrun. rewrite stream_events_run in Hrun. fold pieces answer in Hrun.
  destruct final as [total|e].
  2:{ rewrite (g_bind_lift_raises (lift (Raise e)) _ st1 st1 e eq_refl) in Hrun.
      injection Hrun as <- <- <-. left. exists e. rewrite app_nil_r. reflexivity. }
  rewrite (g_bind_lift_run (lift (Ok total)) _ st1 st1 total eq_refl) in Hrun.
  destruct (conversations st1 !! chat_id) as [h|] eqn:Hh.
  2:{ rewrite (g_bind_lift_raises _ _ st1 st1 KeyError) in Hrun.
      - injection Hrun as <- <- <-. left. exists KeyError. rewrite app_nil_r. reflexivity.
      - unfold add_to_history, bind, history. rewrite Hh. reflexivity. }
  set (spoken := h ++ [mk_message "assistant" (CStr answer)]).
  set (st2 := fst (set_history chat_id spoken st1)).
  assert (Hspoken : conversations st2 !! chat_id = Some spoken) by apply lookup_insert_eq.
  rewrite (g_bind_lift_run _ _ st1 st2 tt
             (add_to_history_run chat_id "assistant" (CStr answer) st1 h Hh)) in Hrun.
  assert (Hdone : forall tokens,
            (st2, (partial_yields pieces ""
                   ++ [(VStr (if show_usage cfg
                              then answer +:+ usage_rule +:+ money_bag +:+ " "
                                   +:+ py_str_int E tokens +:+ " "
                                   +:+ localized_text E "stats_tokens" (bot_language cfg)
                              else answer),
                        VStr (py_str_int E tokens))],
                   Returns (if show_usage cfg
                            then answer +:+ usage_rule +:+ money_bag +:+ " "
                                 +:+ py_str_int E tokens +:+ " "
                                 +:+ localized_text E "stats_tokens" (bot_language cfg)
                            else answer,
                            VInt tokens)))
            = (st', (ys, out)) ->
            (exists e, (ys, out) = (partial_yields pieces "", Raises e))
            \/ (exists h tokens rq events total,
                   (ys, out)
                   = (partial_yields pieces ""
                      ++ [(VStr (if show_usage cfg then answer +:+ usage_line E cfg tokens
                                 else answer),
                           VStr (py_str_int E tokens))],
                      Returns (if show_usage cfg then answer +:+ usage_line E cfg tokens
                               else answer,
                               VInt tokens))
                   /\ conversations st' !! chat_id
                      = Some (h ++ [mk_message "assistant" (CStr answer)])
                   /\ trace st' = trace st ++ [EvResponses rq]
                   /\ rr_model rq = vision_model cfg
                   /\ responses_stream (trace st) rq = Ok (events, Ok total))).
  { intros tokens [= <- <- <-]. right. exists h, tokens, rq, events, total.
    split; [reflexivity|]. split; [exact Hspoken|]. split; [reflexivity|].
    split; [reflexivity|exact Hstream]. }
  destruct total as [tokens|].
  { rewrite (g_bind_lift_run (ret tokens) _ st2 st2 tokens eq_refl) in Hrun.
    apply (Hdone tokens). exact Hrun. }
  destruct (count_tokens E cfg spoken) as [tokens|e] eqn:Htokens.
  - rewrite (g_bind_lift_run _ _ st2 st2 tokens) in Hrun.
    2:{ unfold bind, history. rewrite Hspoken. unfold lift. rewrite Htokens. reflexivity. }
    apply (Hdone tokens). exact Hrun.
  - rewrite (g_bind_lift_raises _ _ st2 st2 e) in Hrun.
    2:{ unfold bind, history. rewrite Hspoken. unfold lift. rewrite Htokens. reflexivity. }
    injection Hrun as <- <- <-. left. exists e. rewrite app_nil_r. reflexivity.
Qed.

Tactic Notation "mstep" hyp(H) "as" ident(a) ident(s) ident(Hc) :=
  apply bind_returns_inv in H; destruct H as (a & s & Hc & H).

(** On the Responses path the vision request stage returns what the
    complete request has answered, which is its last call. *)
Lemma common_get_chat_response_vision_responses (E : Env) (cfg : Config)
    (vcfg : VisionConfig) (unbound_local_error : string -> exn) (now chat_id : Z)
    (content : list Part) (stream : bool) (st st' : Helper) (r : VisionResult) :
  cfg_get (use_responses_api cfg) false = true ->
  common_get_chat_response_vision E cfg vcfg unbound_local_error now chat_id content stream
    st = (st', Returns r) ->
  exists calls rq, trace st' = calls ++ [EvResponses rq] /\ rr_model rq = vision_model cfg.
Proof.
  intros Hpath Hrun.
  pose proof (wrap_errors_returns E cfg _ st r
                ltac:(unfold common_get_chat_response_vision in Hrun; rewrite Hrun;
                      reflexivity)) as Hout.
  pose proof (wrap_errors_state E cfg
                (A := VisionResult)) as Hstate.
  unfold common_get_chat_response_vision in Hrun.
  match type of Hrun with
  | wrap_errors E cfg ?body st = _ =>
      specialize (Hstate body st); rewrite Hrun in Hstate; cbn [fst] in Hstate;
      destruct (body st) as [st0 out] eqn:Hbody
  end.
  cbn [fst snd] in *. subst st0 out. clear Hrun.
  rewrite Hpath in Hbody. cbn [negb] in Hbody.
  do 8 peel Hbody.
  mstep Hbody as response st9 Hcall. injection Hbody as <- _.
  unfold upstream_responses in Hcall. injection Hcall as <- _.
  eexists _, _. split; reflexivity.
Qed.

Lemma history_returns (chat_id : Z) (st st' : Helper) (h : list Message) :
  history chat_id st = (st', Returns h) -> st' = st /\ conversations st !! chat_id = Some h.
Proof.
  unfold history. destruct (conversations st !! chat_id) as [h0|]; [|discriminate].
  intros [= <- <-]. auto.
Qed.

(** X27.  On the Responses path, when the generator
    [interpret_image_stream] ends normally, the stream has come to its
    end.  After the partial answers the generator has yielded the stripped
    whole text with the token count as a string, and then, from the lines
    after the branch, the text once more with the count as an integer;
    with [show_usage] on, the first text carries the usage line and the
    second carries it twice.  The model has been asked twice for the same
    image: the last two calls are the complete request of the request
    stage, whose answer is not used, and the streamed one, both to the
    vision model. *)
Theorem vision_stream_asks_twice (E : Env) (cfg : Config) (vcfg : VisionConfig)
    {FileObj : Type} (encode_image : list Event -> FileObj -> res string)
    (responses_stream : list Event -> ResponsesRequest -> res StreamRun)
    (unbound_local_error : string -> exn) (now now_fallback chat_id : Z)
    (fileobj : FileObj) (prompt : option string) (st : Helper) :
  let run := interpret_image_stream E cfg vcfg encode_image responses_stream
               unbound_local_error now now_fallback chat_id fileobj prompt st in
  cfg_get (use_responses_api cfg) false = true ->
  snd (snd run) = Returns tt ->
  exists pieces h tokens calls rq1 rq2,
    let answer := py_strip E (joined pieces "") in
    let shown := if show_usage cfg then answer +:+ usage_line E cfg tokens else answer in
    let shown_again :=
      if show_usage cfg then shown +:+ usage_line E cfg tokens else shown in
    fst (snd run)
    = partial_yields pieces ""
      ++ [(VStr shown, VStr (py_str_int E tokens)); (VStr shown_again, VInt tokens)]
    /\ conversations (fst run) !! chat_id
       = Some (h ++ [mk_message "assistant" (CStr answer)])
    /\ trace (fst run) = calls ++ [EvResponses rq1; EvResponses rq2]
    /\ rr_model rq1 = vision_model cfg
    /\ rr_model rq2 = vision_model cfg.
Proof.
  intros run Hpath Hout.
  destruct run as [st' [ys out]] eqn:Hrun. cbn [fst snd] in *. subst out run.
  unfold interpret_image_stream in Hrun. rewrite Hpath in Hrun. cbn [negb] in Hrun.
  gstep Hrun as made st1 Hmade. destruct made as [[image prompt_text] content].
  gstep Hrun as response st2 Hrequest.
  apply g_bind_returns_inv in Hrun.
  destruct Hrun as (locals & st3 & ys1 & ys2 & Hbranch & Htail & ->).
  gstep Hbranch as h0 st4 Hhistory.
  apply history_returns in Hhistory. destruct Hhistory as [-> _].
  apply g_try_returns_inv in Hbranch.
  destruct Hbranch as [Hbranch | (e & st5 & ys3 & ys4 & _ & Hhandler & ->)].
  2:{ gstep Hhandler as full st6 Hfull.
      apply g_bind_yield_returns_inv in Hhandler. destruct Hhandler as (ys5 & Hhandler & ->).
      unfold g_ret in Hhandler. injection Hhandler as <- <- <-. discriminate. }
  apply g_bind_returns_inv in Hbranch.
  destruct Hbranch as (left & st5 & ys3 & ys4 & Hattempt & Hret & ->).
  unfold g_ret in Hret. injection Hret as <- <- <-.
  match type of Hattempt with
  | vision_stream_attempt _ _ _ _ ?input _ = _ =>
      destruct (vision_stream_attempt_run E cfg responses_stream chat_id input st2)
        as (pieces & Hcases)
  end.
  cbv zeta in Hcases. rewrite Hattempt in Hcases. cbn [fst snd] in Hcases.
  destruct Hcases
    as [(e & [=]) | (h & tokens & rq2 & events & total & Hsnd & Hconv & Htrace & Hmodel & _)].
  injection Hsnd as -> ->.
  unfold g_yield in Htail. injection Htail as <- <-.
  destruct (with_retry_attempt
              (common_get_chat_response_vision E cfg vcfg unbound_local_error now chat_id
                 content true) st1) as [st0 Hretry].
  rewrite Hretry in Hrequest.
  destruct (common_get_chat_response_vision_responses E cfg vcfg unbound_local_error now
              chat_id content true st0 st2 response Hpath Hrequest)
    as (calls & rq1 & Hcalls & Hmodel1).
  exists pieces, h, tokens, calls, rq1, rq2. cbv zeta.
  split; [|split; [exact Hconv|]].
  - rewrite app_nil_r, <- app_assoc. unfold usage_line. cbn [format_tokens app].
    destruct (show_usage cfg); reflexivity.
  - split; [|split; [exact Hmodel1|exact Hmodel]].
    rewrite Htrace, Hcalls, <- app_assoc. reflexivity.
Qed.

Lemma vision_stream_asks_twice_witness :
  let E := scripted_env "sunny" in
  let cfg := with_responses_api demo_cfg in
  let run := interpret_image_stream E cfg demo_vcfg demo_encode_image demo_stream
               demo_unbound_local_error 0 0 7 "square" None empty_helper in
  fst (snd run)
  = [(VStr "It is ", VStr "not_finished"); (VStr "It is sunny.", VStr "not_finished");
     (VStr "It is sunny.", VStr "42"); (VStr "It is sunny.", VInt 42)]
  /\ exists pieces h tokens calls rq1 rq2,
      let answer := py_strip E (joined pieces "") in
      let shown := if show_usage cfg then answer +:+ usage_line E cfg tokens else answer in
      let shown_again :=
        if show_usage cfg then shown +:+ usage_line E cfg tokens else shown in
      fst (snd run)
      = partial_yields pieces ""
        ++ [(VStr shown, VStr (py_str_int E tokens)); (VStr shown_again, VInt tokens)]
      /\ conversations (fst run) !! 7
         = Some (h ++ [mk_message "assistant" (CStr answer)])
      /\ trace (fst run) = calls ++ [EvResponses rq1; EvResponses rq2]
      /\ rr_model rq1 = vision_model cfg
      /\ rr_model rq2 = vision_model cfg.
Proof.
  intros E cfg run. split; [vm_compute; reflexivity|].
  apply (vision_stream_asks_twice E cfg demo_vcfg demo_encode_image demo_stream
           demo_unbound_local_error 0 0 7 "square" None empty_helper).
  - reflexivity.
  - vm_compute. reflexivity.
Defined.

Lemma g_bind_run {A B} (g : G A) (k : A -> G B) (st st1 : Helper) (ys : list Yield) (a : A) :
  g st = (st1, (ys, Returns a)) ->
  g_bind g k st = (let '(st2, (ys', out)) := k a st1 in (st2, (ys ++ ys', out))).
Proof. unfold g_bind. intros ->. reflexivity. Qed.

Lemma g_bind_failed {A B} (g : G A) (k : A -> G B) (st st1 : Helper) (ys : list Yield)
    (out : outcome A) :
  g st = (st1, (ys, out)) ->
  failed out ->
  exists out' : outcome B, g_bind g k st = (st1, (ys, out')) /\ failed out'.
Proof.
  unfold g_bind. intros -> Hout.
  destruct out as [a|e|]; [destruct Hout| |]; eexists; split; try reflexivity; exact I.
Qed.

Lemma g_lift_run {A} (c : M A) (st st1 : Helper) (out : outcome A) :
  c st = (st1, out) -> g_lift c st = (st1, ([], out)).
Proof. unfold g_lift. intros ->. reflexivity. Qed.

Lemma g_try_raises {A} (g : G A) (h : exn -> G A) (st st1 : Helper) (ys : list Yield)
    (e : exn) :
  g st = (st1, (ys, Raises e)) ->
  g_try g h st = (let '(st2, (ys', out)) := h e st1 in (st2, (ys ++ ys', out))).
Proof. unfold g_try. intros ->. reflexivity. Qed.

Lemma partial_yields_not_finished (pieces : list string) :
  forall (answer : string) (y : Yield),
    In y (partial_yields pieces answer) -> snd y = VStr "not_finished".
Proof.
  induction pieces as [|piece rest IH]; intros answer y; [intros []|].
  rewrite partial_yields_cons. intros [<-|Hy]; [reflexivity|exact (IH _ _ Hy)].
Qed.

(** How [interpret_image_stream] ends on the Responses path when the
    stream does not come to its end. *)
Lemma vision_stream_without_stream (E : Env) (cfg : Config) (vcfg : VisionConfig)
    {FileObj : Type} (encode_image : list Event -> FileObj -> res string)
    (responses_stream : list Event -> ResponsesRequest -> res StreamRun)
    (unbound_local_error : string -> exn) (now now_fallback chat_id : Z)
    (fileobj : FileObj) (prompt : option string) (st : Helper) :
  let run := interpret_image_stream E cfg vcfg encode_image responses_stream
               unbound_local_error now now_fallback chat_id fileobj prompt st in
  cfg_get (use_responses_api cfg) false = true ->
  (forall tr rq events total, responses_stream tr rq <> Ok (events, Ok total)) ->
  exists pieces,
    (fst (snd run) = partial_yields pieces "" /\ failed (snd (snd run)))
    \/ (exists full,
           fst (snd run) = partial_yields pieces "" ++ [full]
           /\ snd (snd run) = Raises (unbound_local_error "tokens_used")).
Proof.
  intros run Hpath Hnever.
  destruct run as [st' [ys out]] eqn:Hrun. subst run. cbn [fst snd].
  unfold interpret_image_stream in Hrun. rewrite Hpath in Hrun. cbn [negb] in Hrun.
  assert (Hearly : forall (B : Type) (g : G B) (k : B -> G unit) st1 (out1 : outcome B),
            g st = (st1, ([], out1)) -> failed out1 ->
            g_bind g k st = (st', (ys, out)) ->
            exists pieces,
              (ys = partial_yields pieces "" /\ failed out)
              \/ (exists full,
                     ys = partial_yields pieces "" ++ [full]
                     /\ out = Raises (unbound_local_error "tokens_used"))).
  { intros B g k st1 out1 Hg Hfailed Hbind.
    destruct (g_bind_failed g k st st1 [] out1 Hg Hfailed) as (out' & Heq & Hout').
    rewrite Heq in Hbind. injection Hbind as <- <- <-. exists []. left. auto. }
  destruct (vision_content cfg vcfg encode_image fileobj prompt st) as [st1 [made|e|]]
    eqn:Hmade.
  2:{ exact (Hearly _ _ _ _ _ (g_lift_run _ _ _ _ Hmade) I Hrun). }
  2:{ exact (Hearly _ _ _ _ _ (g_lift_run _ _ _ _ Hmade) I Hrun). }
  clear Hearly.
  rewrite (g_bind_lift_run _ _ _ _ _ Hmade) in Hrun.
  destruct made as [[image prompt_text] content].
  assert (Hearly : forall (B : Type) (g : G B) (k : B -> G unit) st2 (out1 : outcome B),
            g st1 = (st2, ([], out1)) -> failed out1 ->
            g_bind g k st1 = (st', (ys, out)) ->
            exists pieces,
              (ys = partial_yields pieces "" /\ failed out)
              \/ (exists full,
                     ys = partial_yields pieces "" ++ [full]
                     /\ out = Raises (unbound_local_error "tokens_used"))).
  { intros B g k st2 out1 Hg Hfailed Hbind.
    destruct (g_bind_failed g k st1 st2 [] out1 Hg Hfailed) as (out' & Heq & Hout').
    rewrite Heq in Hbind. injection Hbind as <- <- <-. exists []. left. auto. }
  destruct (with_retry
              (common_get_chat_response_vision E cfg vcfg unbound_local_error now chat_id
                 content true) st1) as [st2 [response|e|]] eqn:Hrequest.
  2:{ exact (Hearly _ _ _ _ _ (g_lift_run _ _ _ _ Hrequest) I Hrun). }
  2:{ exact (Hearly _ _ _ _ _ (g_lift_run _ _ _ _ Hrequest) I Hrun). }
  clear Hearly.
  rewrite (g_bind_lift_run _ _ _ _ _ Hrequest) in Hrun.
  destruct (conversations st2 !! chat_id) as [h|] eqn:Hh.
  2:{ match type of Hrun with
      | g_bind ?branch ?tail st2 = _ =>
          destruct (g_bind_failed branch tail st2 st2 [] (Raises KeyError)) as (out' & Heq & Hout')
      end.
      - apply g_bind_lift_raises. unfold history. rewrite Hh. reflexivity.
      - exact I.
      - rewrite Heq in Hrun. injection Hrun as <- <- <-. exists []. left. auto. }
  destruct (vision_stream_attempt_run E cfg responses_stream chat_id
              (vision_stream_input cfg h prompt_text image) st2) as (pieces & Hcases).
  cbv zeta in Hcases. exists pieces.
  destruct (vision_stream_attempt E cfg responses_stream chat_id
              (vision_stream_input cfg h prompt_text image) st2)
    as [st3 [ys3 out3]] eqn:Hattempt.
  cbn [fst snd] in Hcases.
  destruct Hcases as [(e & [= -> ->]) | (h' & tokens & rq & events & total & _ & _ & _ & _ & Hstream)];
    [|exfalso; exact (Hnever _ _ _ _ Hstream)].
  assert (Hbody : g_bind (vision_stream_attempt E cfg responses_stream chat_id
                            (vision_stream_input cfg h prompt_text image))
                    (fun left => g_ret (Some left)) st2
                  = (st3, (partial_yields pieces "", Raises e))).
  { unfold g_bind. rewrite Hattempt. reflexivity. }
  destruct (interpret_image E cfg vcfg encode_image unbound_local_error now_fallback chat_id
              fileobj (Some prompt_text) st3) as [st4 [full|e'|]] eqn:Hfull.
  - right. exists full.
    rewrite (g_bind_run _ _ st2 st4 (partial_yields pieces "" ++ [full]) None) in Hrun.
    + cbn in Hrun. injection Hrun as <- <- <-. rewrite app_nil_r. auto.
    + rewrite (g_bind_lift_run (history chat_id) _ st2 st2 h)
        by (unfold history; rewrite Hh; reflexivity).
      rewrite (g_try_raises _ _ _ _ _ _ Hbody).
      rewrite (g_bind_lift_run _ _ _ _ _ Hfull). reflexivity.
  - left.
    match type of Hrun with
    | g_bind ?branch ?tail st2 = _ =>
        destruct (g_bind_failed branch tail st2 st4 (partial_yields pieces "") (Raises e'))
          as (out' & Heq & Hout')
    end.
    + rewrite (g_bind_lift_run (history chat_id) _ st2 st2 h)
        by (unfold history; rewrite Hh; reflexivity).
      rewrite (g_try_raises _ _ _ _ _ _ Hbody).
      rewrite (g_bind_lift_raises _ _ _ _ _ Hfull). rewrite app_nil_r. reflexivity.
    + exact I.
    + rewrite Heq in Hrun. injection Hrun as <- <- <-. auto.
  - left.
    match type of Hrun with
    | g_bind ?branch ?tail st2 = _ =>
        destruct (g_bind_failed branch tail st2 st4 (partial_yields pieces "") OutOfFuel)
          as (out' & Heq & Hout')
    end.
    + rewrite (g_bind_lift_run (history chat_id) _ st2 st2 h)
        by (unfold history; rewrite Hh; reflexivity).
      rewrite (g_try_raises _ _ _ _ _ _ Hbody).
      unfold g_bind, g_lift. rewrite Hfull. rewrite app_nil_r. reflexivity.
    + exact I.
    + rewrite Heq in Hrun. injection Hrun as <- <- <-. auto.
Qed.

(** X28.  On the Responses path, when the stream does not come to its end
    (it cannot be opened, or it breaks), [interpret_image_stream] never
    ends normally.  If the fallback [interpret_image] succeeds, its answer
    is yielded and the generator then dies from the reading of
    [tokens_used], which the handler has not assigned: whenever something
    other than a partial answer has been yielded, the generator has ended
    with that error. *)
Theorem vision_stream_failure_raises (E : Env) (cfg : Config) (vcfg : VisionConfig)
    {FileObj : Type} (encode_image : list Event -> FileObj -> res string)
    (responses_stream : list Event -> ResponsesRequest -> res StreamRun)
    (unbound_local_error : string -> exn) (now now_fallback chat_id : Z)
    (fileobj : FileObj) (prompt : option string) (st : Helper) :
  let run := interpret_image_stream E cfg vcfg encode_image responses_stream
               unbound_local_error now now_fallback chat_id fileobj prompt st in
  cfg_get (use_responses_api cfg) false = true ->
  (forall tr rq events total, responses_stream tr rq <> Ok (events, Ok total)) ->
  snd (snd run) <> Returns tt
  /\ forall full,
      In full (fst (snd run)) ->
      snd full <> VStr "not_finished" ->
      snd (snd run) = Raises (unbound_local_error "tokens_used").
Proof.
  intros run Hpath Hnever.
  destruct (vision_stream_without_stream E cfg vcfg encode_image responses_stream
              unbound_local_error now now_fallback chat_id fileobj prompt st Hpath Hnever)
    as (pieces & [(Hys & Hout) | (full & Hys & Hout)]); fold run in Hys, Hout.
  - split.
    + intros Hreturns. rewrite Hreturns in Hout. exact Hout.
    + intros y Hy Hlast. exfalso. apply Hlast. rewrite Hys in Hy.
      exact (partial_yields_not_finished pieces "" y Hy).
  - split; [rewrite Hout; discriminate|]. intros _ _ _. exact Hout.
Qed.

Lemma vision_stream_failure_raises_witness :
  let cfg := with_responses_api demo_cfg in
  let run := interpret_image_stream vision_env cfg demo_vcfg demo_encode_image broken_stream
               demo_unbound_local_error 0 0 7 "square" None empty_helper in
  fst (snd run) = [(VStr "It is ", VStr "not_finished"); (VStr "A square.", VInt 42)]
  /\ snd (snd run) <> Returns tt
  /\ forall full,
      In full (fst (snd run)) ->
      snd full <> VStr "not_finished" ->
      snd (snd run) = Raises (demo_unbound_local_error "tokens_used").
Proof.
  intros cfg run. split; [vm_compute; reflexivity|].
  apply (vision_stream_failure_raises vision_env cfg demo_vcfg demo_encode_image
           broken_stream demo_unbound_local_error 0 0 7 "square" None empty_helper).
  - reflexivity.
  - intros tr rq events total. unfold broken_stream. discriminate.
Defined.

Lemma same_elsewhere_flag (chat_id : Z) (b : bool) (st : Helper) :
  same_elsewhere chat_id st (fst (set_vision_flag chat_id b st)).
Proof.
  intros other Hother. cbn. repeat split. apply lookup_insert_ne. congruence.
Qed.

Lemma stays_flagged_flag (chat_id : Z) (b : bool) (st : Helper) :
  stays_flagged st (fst (set_vision_flag chat_id b st)).
Proof.
  intros Hst id. cbn. destruct (decide (id = chat_id)) as [->|Hid].
  - rewrite lookup_insert_eq. eauto.
  - rewrite lookup_insert_ne by congruence. apply Hst.
Qed.

(** X29.  The vision methods for one chat leave every other chat alone:
    after [interpret_image] and after [interpret_image_stream], on either
    path and however they end, the conversation, the vision flag and the
    time stamp of every other chat id are what they were; and when every
    chat that has a conversation had a vision flag, the same holds
    afterwards. *)
Theorem vision_leaves_other_chats (E : Env) (cfg : Config) (vcfg : VisionConfig)
    {FileObj : Type} (encode_image : list Event -> FileObj -> res string)
    (responses_stream : list Event -> ResponsesRequest -> res StreamRun)
    (unbound_local_error : string -> exn) (now now_fallback chat_id : Z)
    (fileobj : FileObj) (prompt : option string) (st : Helper) :
  let st1 := fst (interpret_image E cfg vcfg encode_image unbound_local_error now chat_id
                    fileobj prompt st) in
  let st2 := fst (interpret_image_stream E cfg vcfg encode_image responses_stream
                    unbound_local_error now now_fallback chat_id fileobj prompt st) in
  same_elsewhere chat_id st st1
  /\ same_elsewhere chat_id st st2
  /\ (flagged st -> flagged st1 /\ flagged st2).
Proof.
  cbv zeta.
  pose proof (same_elsewhere_preorder chat_id) as Hsame.
  pose proof stays_flagged_preorder as Hflagged.
  split; [|split].
  - apply (keeps_interpret_image (same_elsewhere chat_id)).
    + apply same_elsewhere_log.
    + apply same_elsewhere_time.
    + apply same_elsewhere_reset.
    + intros h h' st0 _. apply same_elsewhere_store.
    + apply same_elsewhere_flag.
  - apply (gkeeps_interpret_image_stream (same_elsewhere chat_id)).
    + apply same_elsewhere_log.
    + apply same_elsewhere_time.
    + apply same_elsewhere_reset.
    + intros h h' st0 _. apply same_elsewhere_store.
    + apply same_elsewhere_flag.
  - intros Hst. split.
    + refine (keeps_interpret_image stays_flagged E cfg chat_id _ _ _ _ vcfg encode_image
                unbound_local_error _ now fileobj prompt st Hst).
      * intros ev st0 H. exact H.
      * intros now0 st0 H. exact H.
      * apply stays_flagged_reset.
      * intros h h' st0. apply stays_flagged_store.
      * apply stays_flagged_flag.
    + refine (gkeeps_interpret_image_stream stays_flagged E cfg chat_id _ _ _ _ vcfg
                encode_image responses_stream unbound_local_error _ now now_fallback fileobj
                prompt st Hst).
      * intros ev st0 H. exact H.
      * intros now0 st0 H. exact H.
      * apply stays_flagged_reset.
      * intros h h' st0. apply stays_flagged_store.
      * apply stays_flagged_flag.
Qed.

Lemma vision_leaves_other_chats_witness :
  let st1 := fst (interpret_image vision_env demo_cfg (with_follow_up demo_vcfg)
                    demo_encode_image demo_unbound_local_error 0 8 "square" None
                    helper_two_turns) in
  flagged helper_two_turns
  /\ conversations_vision st1 !! 8 = Some true
  /\ conversations st1 !! 7 = Some two_turns
  /\ conversations_vision st1 !! 7 = Some false
  /\ flagged st1.
Proof.
  intros st1.
  assert (Hst : flagged helper_two_turns).
  { intros id. cbn. destruct (decide (id = 7)) as [->|Hid].
    - intros _. rewrite lookup_singleton_eq. eauto.
    - rewrite lookup_singleton_ne by congruence. intros [h Hh]. discriminate. }
  split; [exact Hst|]. split; [vm_compute; reflexivity|].
  destruct (vision_leaves_other_chats vision_env demo_cfg (with_follow_up demo_vcfg)
              demo_encode_image demo_stream demo_unbound_local_error 0 0 8 "square" None
              helper_two_turns) as (Hsame & _ & Hflagged).
  destruct (Hsame 7 ltac:(discriminate)) as (Hconv & Hflag & _).
  split; [exact Hconv|]. split; [exact Hflag|]. exact (proj1 (Hflagged Hst)).
Defined.

(** ** Images *)

(** X30.  [generate_image] leaves the helper as it is, and the only
    exceptions that it lets out are [Exception]s that carry the error
    banner before the text of their cause: a missing configuration key and
    any error of the image service, a rate-limit error included, which the
    chat request stage would hand on as it is.  When it returns, its
    result is the URL of the first image of the answer with the configured
    size.  When the answer holds no image, the exception raised for that,
    which has the banner already, is caught by the same handler, so that
    the banner comes twice. *)
Theorem generate_image_outcomes (E : Env) (cfg : Config) (icfg : ImageConfig)
    (images_generate : list Event -> ImageRequest -> res (list string)) (prompt : string)
    (st : Helper) :
  let run := generate_image E cfg icfg images_generate prompt st in
  fst run = st
  /\ (forall e, snd run = Raises e ->
        exists cause, e = Exception (error_banner E cfg "error" cause))
  /\ (forall url size, snd run = Returns (url, size) ->
        image_size_setting icfg = Some size
        /\ exists rq rest,
            images_generate (trace st) rq = Ok (url :: rest)
            /\ ir_prompt rq = prompt /\ ir_n rq = 1 /\ ir_size rq = size)
  /\ (forall model quality style size,
        image_model icfg = Some model ->
        image_quality icfg = Some quality ->
        image_style icfg = Some style ->
        image_size_setting icfg = Some size ->
        images_generate (trace st)
          {| ir_prompt := prompt; ir_n := 1; ir_model := model; ir_quality := quality;
             ir_style := style; ir_size := size |} = Ok [] ->
        snd run
        = Raises (Exception (error_banner E cfg "error"
                               (Exception (no_image_text E cfg))))).
Proof.
  cbv zeta. unfold generate_image, try_except, bind, lift, upstream_images, ret, raise.
  destruct (image_model icfg) as [model|]; cbn [cfg_item outcome_of_res fst snd].
  2:{ split; [reflexivity|]. split; [intros e [= <-]; eauto|].
      split; [discriminate|]. discriminate. }
  destruct (image_quality icfg) as [quality|]; cbn [cfg_item outcome_of_res fst snd].
  2:{ split; [reflexivity|]. split; [intros e [= <-]; eauto|].
      split; [discriminate|]. discriminate. }
  destruct (image_style icfg) as [style|]; cbn [cfg_item outcome_of_res fst snd].
  2:{ split; [reflexivity|]. split; [intros e [= <-]; eauto|].
      split; [discriminate|]. discriminate. }
  destruct (image_size_setting icfg) as [size|]; cbn [cfg_item outcome_of_res fst snd].
  2:{ split; [reflexivity|]. split; [intros e [= <-]; eauto|].
      split; [discriminate|]. discriminate. }
  set (request := {| ir_prompt := prompt; ir_n := 1; ir_model := model;
                     ir_quality := quality; ir_style := style; ir_size := size |}).
  destruct (images_generate (trace st) request) as [[|url rest]|e] eqn:Hanswer;
    cbn [outcome_of_res fst snd].
  - split; [reflexivity|]. split; [intros e [= <-]; eauto|].
    split; [discriminate|]. reflexivity.
  - split; [reflexivity|]. split; [discriminate|].
    split.
    + intros url' size' [= <- <-]. split; [reflexivity|]. exists request, rest. auto.
    + intros model' quality' style' size' [= <-] [= <-] [= <-] [= <-].
      fold request. rewrite Hanswer. discriminate.
  - split; [reflexivity|]. split; [intros e' [= <-]; eauto|].
    split; [discriminate|].
    intros model' quality' style' size' [= <-] [= <-] [= <-] [= <-].
    fold request. rewrite Hanswer. discriminate.
Qed.

Lemma generate_image_outcomes_witness :
  let run := generate_image demo_env demo_cfg demo_icfg limited_images "a cat" empty_helper in
  exists e,
    snd run = Raises e
    /\ exists cause, e = Exception (error_banner demo_env demo_cfg "error" cause).
Proof.
  intros run. eexists. split; [vm_compute; reflexivity|].
  destruct (generate_image_outcomes demo_env demo_cfg demo_icfg limited_images "a cat"
              empty_helper) as (_ & Herrors & _).
  apply Herrors. vm_compute. reflexivity.
Defined.
